(** * Finance tracker (Flask + PostgreSQL): report aggregation and data access

    A shallow embedding of [app.py].  The relational tables are lists of
    rows, every SQL statement of the handlers is a function on those lists,
    the Python post-processing (dict comprehensions, [sorted], [reversed])
    is written over insertion-ordered association lists, and the request
    handlers run in a state-and-exception monad whose state carries the
    committed data store, the open psycopg2 connections with their
    uncommitted transaction, the session and the flashed messages. *)

From stdpp Require Import base numbers list strings gmap sorting.
From Stdlib Require Import QArith Qcanon Ascii DecimalString.

Local Open Scope Z_scope.

(** ** Monetary values

    PostgreSQL [NUMERIC] columns reach Python as [decimal.Decimal]; both are
    exact, so a value is modelled by the rational number it denotes.  The
    integer [0] that the handlers substitute for a missing row denotes the
    same number as [Decimal(0)]. *)

Abbreviation decimal := Qc.

Definition dec (n : Z) (p : positive) : decimal := Q2Qc (n # p).

Definition sum_decimal (l : list decimal) : decimal := foldr Qcplus 0%Qc l.

(** [Decimal] arithmetic rounds to the context precision (28 significant
    digits, ROUND_HALF_EVEN, the defaults of the [decimal] module). *)

Definition context_prec : Z := 28.

Fixpoint ndigits_aux (fuel : nat) (n : Z) : Z :=
  match fuel with
  | O => 1
  | S fuel' => if n <? 10 then 1 else 1 + ndigits_aux fuel' (n / 10)
  end.

Definition ndigits (n : Z) : Z := ndigits_aux (Z.to_nat (Z.log2 n)) n.

Definition round_half_even (n d : Z) : Z :=
  let q := n / d in
  match 2 * (n mod d) ?= d with
  | Lt => q
  | Gt => q + 1
  | Eq => if Z.even q then q else q + 1
  end.

Definition scale10 (c e : Z) : decimal :=
  if 0 <=? e then Q2Qc (inject_Z (c * 10 ^ e))
  else Q2Qc (c # Z.to_pos (10 ^ (- e))).

Definition round_ctx (x : decimal) : decimal :=
  let n := Z.abs (Qnum x) in
  let d := Z.pos (Qden x) in
  if n =? 0 then x else
  let coeff e := if 0 <=? e then round_half_even n (d * 10 ^ e)
                 else round_half_even (n * 10 ^ (- e)) d in
  let e0 := ndigits n - ndigits d - context_prec in
  let lead := if 0 <=? e0 then n / (d * 10 ^ e0) else (n * 10 ^ (- e0)) / d in
  let e := if 10 ^ context_prec <=? lead then e0 + 1 else e0 in
  scale10 (Z.sgn (Qnum x) * coeff e) e.

(** ** Exceptions and results of Python expressions *)

Inductive exn :=
  | OperationalError
  | InterfaceError
  | DataError
  | IntegrityError
  | BadRequestKeyError (key : string)
  | ZeroDivisionError
  | AttributeError.

Inductive outcome (A : Type) :=
  | Ok (a : A)
  | Raise (e : exn).
Arguments Ok {A} a.
Arguments Raise {A} e.

(** [a / b] and [a * b] on [Decimal]. *)

Definition decimal_truediv (a b : decimal) : outcome decimal :=
  if decide (b = 0%Qc) then Raise ZeroDivisionError
  else Ok (round_ctx (a / b)%Qc).

Definition decimal_mul (a b : decimal) : decimal := round_ctx (a * b)%Qc.
Definition decimal_add (a b : decimal) : decimal := round_ctx (a + b)%Qc.
Definition decimal_sub (a b : decimal) : decimal := round_ctx (a - b)%Qc.

(** [sum(...)] of Python, over [Decimal]s. *)
Definition py_sum (l : list decimal) : decimal := foldl decimal_add 0%Qc l.

(** ** Calendar dates

    A [DATE] is a day number (days since 1970-01-01), so that
    [current_date - interval '6 days'] is a subtraction and [GROUP BY
    expense_date] an equality of numbers.  The civil calendar fields are
    recovered with the usual era-based conversion of the proleptic Gregorian
    calendar. *)

Abbreviation date := Z.

Definition civil_from_days (z : date) : Z * Z * Z :=
  let z := z + 719468 in
  let era := z / 146097 in
  let doe := z mod 146097 in
  let yoe := (doe - doe / 1460 + doe / 36524 - doe / 146096) / 365 in
  let doy := doe - (365 * yoe + yoe / 4 - yoe / 100) in
  let mp := (5 * doy + 2) / 153 in
  let d := doy - (153 * mp + 2) / 5 + 1 in
  let m := if mp <? 10 then mp + 3 else mp - 9 in
  let y := yoe + era * 400 in
  (if m <=? 2 then y + 1 else y, m, d).

Definition days_from_civil (y m d : Z) : date :=
  let y := if m <=? 2 then y - 1 else y in
  let era := y / 400 in
  let yoe := y mod 400 in
  let doy := (153 * (if 2 <? m then m - 3 else m + 9) + 2) / 5 + d - 1 in
  let doe := yoe * 365 + yoe / 4 - yoe / 100 + doy in
  era * 146097 + doe - 719468.

Definition year_of (d : date) : Z := (civil_from_days d).1.1.
Definition date_part_month (d : date) : Z := (civil_from_days d).1.2.

(** Day of the week, 0 = Sunday (1970-01-01 was a Thursday). *)
Definition day_of_week (d : date) : Z := (d + 4) mod 7.

(** [to_char(d, 'DY')]: the upper-case three-letter day name. *)
Definition to_char_DY (d : date) : string :=
  match day_of_week d with
  | 0 => "SUN" | 1 => "MON" | 2 => "TUE" | 3 => "WED"
  | 4 => "THU" | 5 => "FRI" | _ => "SAT"
  end.

Definition digit_char (d : Z) : ascii := ascii_of_N (48 + Z.to_N d).

(** The [w] lowest decimal digits of [n], most significant first. *)
Fixpoint fixed_digits (w : nat) (n : Z) (acc : string) : string :=
  match w with
  | O => acc
  | S w' => fixed_digits w' (n / 10) (String (digit_char (n mod 10)) acc)
  end.

(** Decimal numeral of a non-negative number, at least [w] digits wide. *)
Definition zero_padded (w : nat) (n : Z) : string :=
  fixed_digits (Nat.max w (Z.to_nat (ndigits n))) n "".

(** [to_char(d, 'YYYY-MM')]: the year on at least four digits (years before
    1 AD print as the positive BC year), a dash, the month on two. *)
Definition to_char_YYYY_MM (d : date) : string :=
  let y := year_of d in
  let y := if y <=? 0 then 1 - y else y in
  zero_padded 4 y +:+ "-" +:+ zero_padded 2 (date_part_month d).

(** ** Python string methods used by the handlers (on ASCII text; bytes
    above 127 are left as they are) *)

Definition is_ascii_lower (c : ascii) : bool :=
  let n := N_of_ascii c in ((97 <=? n) && (n <=? 122))%N.
Definition is_ascii_upper (c : ascii) : bool :=
  let n := N_of_ascii c in ((65 <=? n) && (n <=? 90))%N.
Definition ascii_upper (c : ascii) : ascii :=
  if is_ascii_lower c then ascii_of_N (N_of_ascii c - 32) else c.
Definition ascii_lower (c : ascii) : ascii :=
  if is_ascii_upper c then ascii_of_N (N_of_ascii c + 32) else c.
Definition is_space (c : ascii) : bool :=
  let n := N_of_ascii c in
  (((9 <=? n) && (n <=? 13)) || ((28 <=? n) && (n <=? 32)))%N.

Fixpoint upper (s : string) : string :=
  match s with
  | EmptyString => EmptyString
  | String c s' => String (ascii_upper c) (upper s')
  end.

Fixpoint lstrip (s : string) : string :=
  match s with
  | EmptyString => EmptyString
  | String c s' => if is_space c then lstrip s' else s
  end.

Definition strip (s : string) : string :=
  String.rev (lstrip (String.rev (lstrip s))).

Definition startswith (s p : string) : bool := String.prefix p s.

(** [s.replace(old, new)] for a non-empty [old]: left to right, without
    overlap.  [skip] counts the characters of a match still to drop. *)
Fixpoint replace_aux (old new : string) (skip : nat) (s : string) : string :=
  match s with
  | EmptyString => EmptyString
  | String c s' =>
      match skip with
      | S k => replace_aux old new k s'
      | O =>
          if String.prefix old s
          then new +:+ replace_aux old new (String.length old - 1) s'
          else String c (replace_aux old new 0 s')
      end
  end.

Definition replace (s old new : string) : string := replace_aux old new 0 s.

(** [s.title()]: a letter that follows a letter is lowered, any other letter
    is raised. *)
Fixpoint title_aux (prev_cased : bool) (s : string) : string :=
  match s with
  | EmptyString => EmptyString
  | String c s' =>
      if is_ascii_lower c || is_ascii_upper c
      then String (if prev_cased then ascii_lower c else ascii_upper c)
                  (title_aux true s')
      else String c (title_aux false s')
  end.

Definition title (s : string) : string := title_aux false s.

(** ** Python containers

    A [dict] keeps its keys in insertion order; assigning to a key that is
    already present keeps the key's place and replaces the value. *)

Abbreviation pydict K V := (list (K * V)).

Fixpoint dict_set {K V} `{EqDecision K} (k : K) (v : V) (d : pydict K V)
    : pydict K V :=
  match d with
  | [] => [(k, v)]
  | (k', v') :: d' =>
      if decide (k' = k) then (k, v) :: d' else (k', v') :: dict_set k v d'
  end.

Fixpoint dict_get {K V} `{EqDecision K} (k : K) (d : pydict K V) : option V :=
  match d with
  | [] => None
  | (k', v') :: d' => if decide (k' = k) then Some v' else dict_get k d'
  end.

Definition dict_keys {K V} (d : pydict K V) : list K := d.*1.
Definition dict_values {K V} (d : pydict K V) : list V := d.*2.

(** [{key(row): val(row) for row in rows}] *)
Definition dict_comprehension {A K V} `{EqDecision K}
    (key : A → K) (val : A → V) (rows : list A) : pydict K V :=
  foldl (λ d row, dict_set (key row) (val row) d) [] rows.

(** [sorted(list(s))] for a set of strings. *)
Definition sorted (s : gset string) : list string :=
  merge_sort String.le (elements s).

(** ** The relational schema: one module per table, one record per row *)

Module User.
Record row := Row {
  id : Z; full_name : string; email : string; password_hash : string;
  profile_picture_url : option string }.
End User.

Module Income.
Record row := Row { user_id : Z; monthly_income : decimal; currency : string }.
End Income.

Module OtherIncome.
Record row := Row { user_id : Z; source_name : string; amount : decimal }.
End OtherIncome.

Module Budget.
Record row := Row { user_id : Z; total_monthly_budget : decimal }.
End Budget.

Module CategoryBudget.
Record row := Row { user_id : Z; category_name : string; amount : decimal }.
End CategoryBudget.

Module Expense.
Record row := Row {
  id : Z; user_id : Z; title : string; amount : decimal; category : string;
  expense_date : date; description : string; payment_method : string }.
End Expense.

Module Investment.
Record row := Row {
  id : Z; user_id : Z; investment_name : string; amount_invested : decimal;
  investment_type : string; investment_date : date }.
End Investment.

Module Asset.
Record row := Row { id : Z; user_id : Z; asset_name : string; value : decimal }.
End Asset.

Module Liability.
Record row := Row {
  id : Z; user_id : Z; liability_name : string; amount_owed : decimal }.
End Liability.

(** [financial_goals] is the one table whose definition is in [init_db.py]:
    a serial key, a reference to [users], three NOT NULL columns. *)
Module Goal.
Record row := Row {
  id : Z; user_id : Z; goal_name : string; target_amount : decimal;
  goal_type : string; created_at : date }.
End Goal.

Record database := Database {
  users : list User.row;
  incomes : list Income.row;
  other_incomes : list OtherIncome.row;
  budgets : list Budget.row;
  category_budgets : list CategoryBudget.row;
  expenses : list Expense.row;
  investments : list Investment.row;
  assets : list Asset.row;
  liabilities : list Liability.row;
  financial_goals : list Goal.row }.

#[global] Instance user_row_eq_dec : EqDecision User.row.
Proof. solve_decision. Defined.
#[global] Instance income_row_eq_dec : EqDecision Income.row.
Proof. solve_decision. Defined.
#[global] Instance other_income_row_eq_dec : EqDecision OtherIncome.row.
Proof. solve_decision. Defined.
#[global] Instance budget_row_eq_dec : EqDecision Budget.row.
Proof. solve_decision. Defined.
#[global] Instance category_budget_row_eq_dec : EqDecision CategoryBudget.row.
Proof. solve_decision. Defined.
#[global] Instance expense_row_eq_dec : EqDecision Expense.row.
Proof. solve_decision. Defined.
#[global] Instance investment_row_eq_dec : EqDecision Investment.row.
Proof. solve_decision. Defined.
#[global] Instance asset_row_eq_dec : EqDecision Asset.row.
Proof. solve_decision. Defined.
#[global] Instance liability_row_eq_dec : EqDecision Liability.row.
Proof. solve_decision. Defined.
#[global] Instance goal_row_eq_dec : EqDecision Goal.row.
Proof. solve_decision. Defined.
#[global] Instance database_eq_dec : EqDecision database.
Proof. solve_decision. Defined.

(** ** SQL building blocks *)

(** [cur.fetchone()] *)
Definition fetchone {A} (rows : list A) : option A := head rows.

(** [SUM(...)] is NULL over no rows. *)
Definition sql_sum (l : list decimal) : option decimal :=
  match l with
  | [] => None
  | _ => Some (sum_decimal l)
  end.

(** [x or 0] *)
Definition or_0 (x : option decimal) : decimal := default 0%Qc x.

(** The distinct elements of a list, in the order of their first occurrence. *)
Fixpoint distinct {A} `{EqDecision A} (l : list A) : list A :=
  match l with
  | [] => []
  | x :: l' => x :: filter (λ y, y ≠ x) (distinct l')
  end.

(** [GROUP BY key]: one group per distinct key. *)
Definition group_by {A K} `{EqDecision K} (key : A → K) (rows : list A)
    : list (K * list A) :=
  (λ k, (k, filter (λ r, key r = k) rows)) <$> distinct (key <$> rows).

(** [ORDER BY key] (ascending for [R], descending for [flip R]). *)
Definition order_by {A K} (key : A → K) (R : relation K) `{!RelDecision R}
    (rows : list A) : list A :=
  @merge_sort A (λ x y, R (key x) (key y))
    (λ x y, decide_rel R (key x) (key y)) rows.

Definition limit {A} (n : nat) (rows : list A) : list A := take n rows.

(** ** What the program takes from its libraries

    The conversions and helpers of PostgreSQL, Python, Werkzeug and the
    text-generation client are an interface of the development: [float] is
    the conversion of a [Decimal] to a binary float, the [*_in] functions
    are PostgreSQL's input conversions of a text parameter ([None] when the
    text is rejected), the hash functions are Werkzeug's (the first takes
    the salt it draws), [generate_content] is the configured model, if any. *)

Class Runtime := {
  Float : Type;
  float : decimal → Float;
  numeric_in : string → option decimal;
  int4_in : string → option Z;
  date_in : string → option date;
  generate_password_hash : nat → string → string;
  check_password_hash : string → string → bool;
  uuid4 : nat → string;
  secure_filename : string → string;
  splitext : string → string * string;
  generate_content : option (string → string + string) }.

(** A JSON number of the report: a Python [int] or a [float]. *)
Inductive number `{Runtime} :=
  | Int (z : Z)
  | Flt (f : Float).

(** ** The SELECT statements *)

(** [date_part('month', expense_date) = date_part('month', CURRENT_DATE)]
    together with the owner test. *)
Definition in_current_month (user_id : Z) (today : date) (e : Expense.row)
    : Prop :=
  Expense.user_id e = user_id ∧
  date_part_month (Expense.expense_date e) = date_part_month today.

#[global] Instance in_current_month_dec user_id today e :
  Decision (in_current_month user_id today e).
Proof. unfold in_current_month. apply _. Defined.

(** [expense_date >= current_date - interval '6 days'] with the owner test. *)
Definition since_six_days_ago (user_id : Z) (today : date) (e : Expense.row)
    : Prop :=
  Expense.user_id e = user_id ∧ today - 6 ≤ Expense.expense_date e.

#[global] Instance since_six_days_ago_dec user_id today e :
  Decision (since_six_days_ago user_id today e).
Proof. unfold since_six_days_ago. apply _. Defined.

Definition group_total {K} (g : K * list Expense.row) : K * decimal :=
  (g.1, sum_decimal (Expense.amount <$> g.2)).

(* SELECT * FROM users WHERE id = %s *)
Definition select_user (user_id : Z) (db : database) : list User.row :=
  filter (λ u, User.id u = user_id) (users db).

(* SELECT currency FROM incomes WHERE user_id = %s *)
Definition select_currency (user_id : Z) (db : database) : list string :=
  Income.currency <$> filter (λ r, Income.user_id r = user_id) (incomes db).

(* SELECT SUM(amount) as total FROM expenses WHERE user_id = %s
   AND date_part('month', expense_date) = date_part('month', CURRENT_DATE) *)
Definition select_month_total (user_id : Z) (today : date) (db : database)
    : option decimal :=
  sql_sum (Expense.amount <$> filter (in_current_month user_id today) (expenses db)).

(* SELECT monthly_income FROM incomes WHERE user_id = %s *)
Definition select_monthly_income (user_id : Z) (db : database) : list decimal :=
  Income.monthly_income <$> filter (λ r, Income.user_id r = user_id) (incomes db).

(* SELECT total_monthly_budget FROM budgets WHERE user_id = %s *)
Definition select_total_monthly_budget (user_id : Z) (db : database)
    : list decimal :=
  Budget.total_monthly_budget <$>
    filter (λ r, Budget.user_id r = user_id) (budgets db).

(* SELECT * FROM financial_goals WHERE user_id = %s *)
Definition select_goals (user_id : Z) (db : database) : list Goal.row :=
  filter (λ g, Goal.user_id g = user_id) (financial_goals db).

(* SELECT to_char(expense_date, 'DY') as day, SUM(amount) as total
   FROM expenses WHERE user_id = %s
   AND expense_date >= current_date - interval '6 days'
   GROUP BY expense_date ORDER BY expense_date *)
Definition select_weekly (user_id : Z) (today : date) (db : database)
    : list (string * decimal) :=
  (λ g, (to_char_DY g.1, sum_decimal (Expense.amount <$> g.2))) <$>
    order_by fst Z.le
      (group_by Expense.expense_date
         (filter (since_six_days_ago user_id today) (expenses db))).

(* SELECT category, SUM(amount) FROM expenses WHERE user_id = %s
   AND date_part('month', expense_date) = date_part('month', CURRENT_DATE)
   GROUP BY category *)
Definition select_month_by_category (user_id : Z) (today : date)
    (db : database) : list (string * decimal) :=
  group_total <$>
    group_by Expense.category
      (filter (in_current_month user_id today) (expenses db)).

(* ... GROUP BY category ORDER BY total DESC *)
Definition select_month_by_category_desc (user_id : Z) (today : date)
    (db : database) : list (string * decimal) :=
  order_by snd (flip Qcle) (select_month_by_category user_id today db).

(* SELECT * FROM expenses WHERE user_id = %s ORDER BY expense_date DESC, id DESC *)
Definition newest_first (e1 e2 : Expense.row) : Prop :=
  Expense.expense_date e2 < Expense.expense_date e1 ∨
  (Expense.expense_date e2 = Expense.expense_date e1 ∧
   Expense.id e2 ≤ Expense.id e1).

#[global] Instance newest_first_dec : RelDecision newest_first.
Proof. intros e1 e2. unfold newest_first. apply _. Defined.

Definition select_expenses_newest (user_id : Z) (db : database)
    : list Expense.row :=
  order_by id newest_first
    (filter (λ e, Expense.user_id e = user_id) (expenses db)).

(* ... ORDER BY amount DESC *)
Definition select_expenses_by_amount (user_id : Z) (db : database)
    : list Expense.row :=
  order_by Expense.amount (flip Qcle)
    (filter (λ e, Expense.user_id e = user_id) (expenses db)).

(* ... ORDER BY expense_date DESC, id DESC LIMIT 5 *)
Definition select_recent_expenses (user_id : Z) (db : database)
    : list Expense.row :=
  limit 5 (select_expenses_newest user_id db).

(* SELECT category_name, amount FROM category_budgets WHERE user_id = %s *)
Definition select_category_budgets (user_id : Z) (db : database)
    : list (string * decimal) :=
  (λ r, (CategoryBudget.category_name r, CategoryBudget.amount r)) <$>
    filter (λ r, CategoryBudget.user_id r = user_id) (category_budgets db).

(* SELECT source_name, amount FROM other_incomes WHERE user_id = %s *)
Definition select_other_incomes (user_id : Z) (db : database)
    : list (string * decimal) :=
  (λ r, (OtherIncome.source_name r, OtherIncome.amount r)) <$>
    filter (λ r, OtherIncome.user_id r = user_id) (other_incomes db).

(* SELECT to_char(expense_date, 'YYYY-MM') as month, SUM(amount) as total
   FROM expenses WHERE user_id = %s GROUP BY month *)
Definition month_rows (user_id : Z) (db : database) : list (string * decimal) :=
  group_total <$>
    group_by (λ e, to_char_YYYY_MM (Expense.expense_date e))
      (filter (λ e, Expense.user_id e = user_id) (expenses db)).

(* ... ORDER BY month DESC LIMIT 6 *)
Definition select_expenses_by_month (user_id : Z) (db : database)
    : list (string * decimal) :=
  limit 6 (order_by fst (flip String.le) (month_rows user_id db)).

(* SELECT investment_type, SUM(amount_invested) as total FROM investments
   WHERE user_id = %s GROUP BY investment_type *)
Definition select_investments_by_type (user_id : Z) (db : database)
    : list (string * decimal) :=
  (λ g, (g.1, sum_decimal (Investment.amount_invested <$> g.2))) <$>
    group_by Investment.investment_type
      (filter (λ i, Investment.user_id i = user_id) (investments db)).

(* SELECT * FROM investments WHERE user_id = %s ORDER BY investment_date DESC *)
Definition select_investments (user_id : Z) (db : database)
    : list Investment.row :=
  order_by Investment.investment_date (flip Z.le)
    (filter (λ i, Investment.user_id i = user_id) (investments db)).

(* SELECT * FROM assets WHERE user_id = %s ORDER BY id *)
Definition select_assets (user_id : Z) (db : database) : list Asset.row :=
  order_by Asset.id Z.le
    (filter (λ a, Asset.user_id a = user_id) (assets db)).

(* SELECT * FROM liabilities WHERE user_id = %s ORDER BY id *)
Definition select_liabilities (user_id : Z) (db : database)
    : list Liability.row :=
  order_by Liability.id Z.le
    (filter (λ l, Liability.user_id l = user_id) (liabilities db)).

(* SELECT SUM(value) as total_assets FROM assets WHERE user_id = %s *)
Definition select_total_assets (user_id : Z) (db : database) : option decimal :=
  sql_sum (Asset.value <$> filter (λ a, Asset.user_id a = user_id) (assets db)).

(* SELECT SUM(amount_owed) as total_liabilities FROM liabilities WHERE user_id = %s *)
Definition select_total_liabilities (user_id : Z) (db : database)
    : option decimal :=
  sql_sum (Liability.amount_owed <$>
             filter (λ l, Liability.user_id l = user_id) (liabilities db)).

(* SELECT id FROM users WHERE email = %s / SELECT * FROM users WHERE email = %s *)
Definition select_user_by_email (email : string) (db : database)
    : list User.row :=
  filter (λ u, User.email u = email) (users db).

(** ** The dashboard's figures (the Python of [dashboard], query results in) *)

Module Dashboard.
Section figures.
Context `{Runtime}.

(* total_spent_this_month = cur.fetchone()['total'] or 0 *)
Definition total_spent_this_month (total : option decimal) : decimal :=
  or_0 total.

(* monthly_income = income_row['monthly_income'] if income_row else 0 *)
Definition monthly_income (income_row : option decimal) : decimal :=
  default 0%Qc income_row.

Definition net_balance (monthly_income total_spent_this_month : decimal)
    : decimal :=
  decimal_sub monthly_income total_spent_this_month.

(* total_budget = budget_row['total_monthly_budget'] if budget_row else 0 *)
Definition total_budget (budget_row : option decimal) : decimal :=
  default 0%Qc budget_row.

(* (total_spent_this_month / total_budget * 100) if total_budget > 0 else 0 *)
Definition budget_used_percent (total_spent_this_month total_budget : decimal)
    : outcome decimal :=
  if decide (0 < total_budget)%Qc then
    match decimal_truediv total_spent_this_month total_budget with
    | Ok q => Ok (decimal_mul q (dec 100 1))
    | Raise e => Raise e
    end
  else Ok 0%Qc.

(* {row['day'].strip().upper(): float(row['total']) for row in cur.fetchall()} *)
Definition weekly_expenses_data (rows : list (string * decimal))
    : pydict string Float :=
  dict_comprehension (λ row, upper (strip row.1)) (λ row, float row.2) rows.

(* {row['category']: float(row['total']) for row in cur.fetchall()} *)
Definition expense_by_category (rows : list (string * decimal))
    : pydict string Float :=
  dict_comprehension fst (λ row, float row.2) rows.

(* {row['category_name']: row['amount'] for row in cur.fetchall()} *)
Definition budgeted_amounts (rows : list (string * decimal))
    : pydict string decimal :=
  dict_comprehension fst snd rows.

(* for expense in cur.fetchall():
     if expense['category'] in budgeted_amounts
        and expense['spent'] > budgeted_amounts[expense['category']]:
       overspent_categories.append(expense['category']) *)
Definition overspent (budgeted_amounts : pydict string decimal)
    (expense : string * decimal) : Prop :=
  match dict_get expense.1 budgeted_amounts with
  | Some budgeted => (budgeted < expense.2)%Qc
  | None => False
  end.

#[global] Instance overspent_dec b e : Decision (overspent b e).
Proof. unfold overspent. destruct (dict_get e.1 b); apply _. Defined.

Definition overspent_categories (budgeted_amounts : pydict string decimal)
    (spent : list (string * decimal)) : list string :=
  (filter (overspent budgeted_amounts) spent).*1.

(** The template variables of [dashboard.html]. *)
Record context := MkContext {
  ctx_monthly_income : decimal;
  ctx_total_spent_this_month : decimal;
  ctx_net_balance : decimal;
  ctx_budget_used_percent : decimal;
  ctx_goals : list Goal.row;
  ctx_recent_expenses_list : list Expense.row;
  ctx_overspent_categories : list string;
  ctx_weekly_expenses_data : pydict string Float;
  ctx_expense_by_category : pydict string Float }.
End figures.
End Dashboard.

(** ** The consolidated report (the Python of [comprehensive_report_api]) *)

Module Report.
Section figures.
Context `{Runtime}.

Definition salary_main : string := "Salary / Main".

(* income_sources = {'Salary / Main': float(main_income['monthly_income'])
                                      if main_income else 0}
   for item in other_incomes:
       income_sources[item['source_name']] = float(item['amount']) *)
Definition income_sources (main_income : option decimal)
    (other_incomes : list (string * decimal)) : pydict string number :=
  foldl (λ d item, dict_set item.1 (Flt (float item.2)) d)
    [(salary_main,
      match main_income with Some m => Flt (float m) | None => Int 0 end)]
    other_incomes.

(* {row['month']: float(row['total'])
    for row in reversed(expenses_by_month_rows)} *)
Definition expenses_by_month (expenses_by_month_rows : list (string * decimal))
    : pydict string Float :=
  dict_comprehension fst (λ row, float row.2) (reverse expenses_by_month_rows).

(* {row['category']: float(row['total_spent']) for row in cur.fetchall()} *)
Definition actual_spending (rows : list (string * decimal))
    : pydict string Float :=
  dict_comprehension fst (λ row, float row.2) rows.

(* {row['category_name']: float(row['amount']) for row in cur.fetchall()} *)
Definition budgeted_amounts (rows : list (string * decimal))
    : pydict string Float :=
  dict_comprehension fst (λ row, float row.2) rows.

(* sorted(list(set(actual_spending.keys()) | set(budgeted_amounts.keys()))) *)
Definition all_budget_cats (actual_spending budgeted_amounts : pydict string Float)
    : list string :=
  sorted (list_to_set (dict_keys actual_spending)
          ∪ list_to_set (dict_keys budgeted_amounts)).

(* d.get(cat, 0) *)
Definition get_or_0 (d : pydict string Float) (cat : string) : number :=
  match dict_get cat d with
  | Some f => Flt f
  | None => Int 0
  end.

Record budget_vs_actual_t := BudgetVsActual {
  bva_labels : list string;
  bva_budgeted : list number;
  bva_actual : list number }.

Definition budget_vs_actual (actual_spending budgeted_amounts : pydict string Float)
    : budget_vs_actual_t :=
  let all_budget_cats := all_budget_cats actual_spending budgeted_amounts in
  {| bva_labels := all_budget_cats;
     bva_budgeted := get_or_0 budgeted_amounts <$> all_budget_cats;
     bva_actual := get_or_0 actual_spending <$> all_budget_cats |}.

(* {row['investment_type']: float(row['total']) for row in cur.fetchall()} *)
Definition investments_by_type (rows : list (string * decimal))
    : pydict string Float :=
  dict_comprehension fst (λ row, float row.2) rows.

Record assets_vs_liabilities_t := AssetsVsLiabilities {
  avl_assets : Float;
  avl_liabilities : Float }.

(* total_assets = cur.fetchone()['total_assets'] or 0, then float(...) *)
Definition assets_vs_liabilities (total_assets total_liabilities : option decimal)
    : assets_vs_liabilities_t :=
  {| avl_assets := float (or_0 total_assets);
     avl_liabilities := float (or_0 total_liabilities) |}.

Record summary_line_graph_t := SummaryLineGraph {
  slg_labels : list string;
  slg_expenses : list Float;
  slg_income : list number }.

(* "labels": list(expenses_by_month.keys()),
   "expenses": list(expenses_by_month.values()),
   "income": [income_sources.get('Salary / Main', 0)] * len(expenses_by_month) *)
Definition summary_line_graph (income_sources : pydict string number)
    (expenses_by_month : pydict string Float) : summary_line_graph_t :=
  {| slg_labels := dict_keys expenses_by_month;
     slg_expenses := dict_values expenses_by_month;
     slg_income :=
       replicate (length expenses_by_month)
         (default (Int 0) (dict_get salary_main income_sources)) |}.

(** The six sections of the JSON body. *)
Record payload := Payload {
  income_by_source : pydict string number;
  pl_expenses_by_month : pydict string Float;
  pl_budget_vs_actual : budget_vs_actual_t;
  pl_investments_by_type : pydict string Float;
  pl_assets_vs_liabilities : assets_vs_liabilities_t;
  pl_summary_line_graph : summary_line_graph_t }.
End figures.
End Report.

(** ** The world a request runs in

    [store] is what the data store holds (committed rows).  A psycopg2
    connection is not in autocommit mode: its statements run in one
    transaction, whose view of the tables is kept with the connection in
    [conns], and reach [store] at [conn.commit()].  [faults] is how many more
    statements the data store serves before it fails ([None]: it never
    fails).  Serial keys are drawn from [sequences], outside of any
    transaction. *)

Inductive serial :=
  | users_id_seq | expenses_id_seq | investments_id_seq
  | assets_id_seq | liabilities_id_seq | financial_goals_id_seq.

#[global] Instance serial_eq_dec : EqDecision serial.
Proof. solve_decision. Defined.

Record world := World {
  store : database;
  conns : gmap nat database;
  current_date : date;
  faults : option nat;
  sequences : serial → Z;
  session : option Z;
  flashes : list (string * string);
  entropy : nat;
  saved_files : list string }.

Definition with_store (db : database) (w : world) : world :=
  World db (conns w) (current_date w) (faults w) (sequences w)
    (session w) (flashes w) (entropy w) (saved_files w).
Definition with_conns (cs : gmap nat database) (w : world) : world :=
  World (store w) cs (current_date w) (faults w) (sequences w)
    (session w) (flashes w) (entropy w) (saved_files w).
Definition with_faults (f : option nat) (w : world) : world :=
  World (store w) (conns w) (current_date w) f (sequences w)
    (session w) (flashes w) (entropy w) (saved_files w).
Definition with_sequences (s : serial → Z) (w : world) : world :=
  World (store w) (conns w) (current_date w) (faults w) s
    (session w) (flashes w) (entropy w) (saved_files w).
Definition with_session (s : option Z) (w : world) : world :=
  World (store w) (conns w) (current_date w) (faults w)
    (sequences w) s (flashes w) (entropy w) (saved_files w).
Definition with_flashes (f : list (string * string)) (w : world) : world :=
  World (store w) (conns w) (current_date w) (faults w)
    (sequences w) (session w) f (entropy w) (saved_files w).
Definition with_entropy (n : nat) (w : world) : world :=
  World (store w) (conns w) (current_date w) (faults w)
    (sequences w) (session w) (flashes w) n (saved_files w).
Definition with_saved_files (l : list string) (w : world) : world :=
  World (store w) (conns w) (current_date w) (faults w)
    (sequences w) (session w) (flashes w) (entropy w) l.

(** ** The monad of handlers: state over [world], with exceptions *)

Definition M (A : Type) : Type := world → outcome A * world.

#[global] Instance M_ret : MRet M := λ A a w, (Ok a, w).
#[global] Instance M_bind : MBind M := λ A B f m w,
  match m w with
  | (Ok a, w') => f a w'
  | (Raise e, w') => (Raise e, w')
  end.
#[global] Instance M_fmap : FMap M := λ A B f m w,
  match m w with
  | (Ok a, w') => (Ok (f a), w')
  | (Raise e, w') => (Raise e, w')
  end.

Definition raise {A} (e : exn) : M A := λ w, (Raise e, w).

Definition lift {A} (o : outcome A) : M A := λ w, (o, w).

Definition gets {A} (f : world → A) : M A := λ w, (Ok (f w), w).

Definition modify (f : world → world) : M unit := λ w, (Ok (), f w).

(** [for x in l: body(x)] *)
Fixpoint for_each {A} (l : list A) (body : A → M unit) : M unit :=
  match l with
  | [] => mret ()
  | x :: l' => body x;; for_each l' body
  end.

(** The request returned (did not raise). *)
Definition returned {A} (x : outcome A * world) : bool :=
  match x.1 with
  | Ok _ => true
  | Raise _ => false
  end.

(** The data store serves at least [n] more round trips. *)
Definition serves (n : nat) (w : world) : Prop :=
  match faults w with
  | None => True
  | Some k => (n ≤ k)%nat
  end.

(** ** psycopg2 *)

Abbreviation connection := nat.

(** One round trip to the data store. *)
Definition round_trip : M unit := λ w,
  match faults w with
  | None => (Ok (), w)
  | Some (S n) => (Ok (), with_faults (Some n) w)
  | Some O => (Raise OperationalError, w)
  end.

(* psycopg2.connect(...): a new connection, distinct from the open ones *)
Definition get_db_connection : M connection :=
  round_trip;;
  conn ← gets (λ w, fresh (dom (conns w)));
  db ← gets store;
  modify (λ w, with_conns (<[conn := db]> (conns w)) w);;
  mret conn.

(* conn.cursor(): the cursor works on its connection's transaction *)
Definition cursor (conn : connection) : M connection := mret conn.
Definition cursor_close (cur : connection) : M unit := mret ().

(** The transaction's view of the tables; a closed connection raises. *)
Definition view (cur : connection) : M database :=
  cs ← gets conns;
  match cs !! cur with
  | Some db => mret db
  | None => raise InterfaceError
  end.

(* cur.execute(<SELECT>) followed by the fetch *)
Definition query {A} (cur : connection) (q : date → database → A) : M A :=
  round_trip;;
  db ← view cur;
  today ← gets current_date;
  mret (q today db).

(* cur.execute(<INSERT / UPDATE / DELETE>) *)
Definition execute (cur : connection) (stmt : date → database → outcome database)
    : M unit :=
  round_trip;;
  db ← view cur;
  today ← gets current_date;
  db' ← lift (stmt today db);
  modify (λ w, with_conns (<[cur := db']> (conns w)) w).

(* nextval of a serial column's sequence *)
Definition nextval (s : serial) : M Z :=
  v ← gets (λ w, sequences w s);
  modify (λ w, with_sequences
                 (λ s', if decide (s' = s) then v + 1 else sequences w s') w);;
  mret v.

(* cur.execute(<INSERT into a table with a serial id>); returns the id *)
Definition execute_insert (cur : connection) (s : serial)
    (stmt : Z → date → database → outcome database) : M Z :=
  round_trip;;
  db ← view cur;
  today ← gets current_date;
  id ← nextval s;
  db' ← lift (stmt id today db);
  modify (λ w, with_conns (<[cur := db']> (conns w)) w);;
  mret id.

(* conn.commit() *)
Definition commit (conn : connection) : M unit :=
  round_trip;;
  db ← view conn;
  modify (with_store db).

(* conn.close(): the uncommitted work is dropped with the connection *)
Definition close (conn : connection) : M unit :=
  modify (λ w, with_conns (delete conn (conns w)) w).

(** ** The INSERT, UPDATE and DELETE statements *)

Definition with_users l db :=
  Database l (incomes db) (other_incomes db) (budgets db) (category_budgets db)
    (expenses db) (investments db) (assets db) (liabilities db) (financial_goals db).
Definition with_incomes l db :=
  Database (users db) l (other_incomes db) (budgets db) (category_budgets db)
    (expenses db) (investments db) (assets db) (liabilities db) (financial_goals db).
Definition with_other_incomes l db :=
  Database (users db) (incomes db) l (budgets db) (category_budgets db)
    (expenses db) (investments db) (assets db) (liabilities db) (financial_goals db).
Definition with_budgets l db :=
  Database (users db) (incomes db) (other_incomes db) l (category_budgets db)
    (expenses db) (investments db) (assets db) (liabilities db) (financial_goals db).
Definition with_category_budgets l db :=
  Database (users db) (incomes db) (other_incomes db) (budgets db) l
    (expenses db) (investments db) (assets db) (liabilities db) (financial_goals db).
Definition with_expenses l db :=
  Database (users db) (incomes db) (other_incomes db) (budgets db)
    (category_budgets db) l (investments db) (assets db) (liabilities db)
    (financial_goals db).
Definition with_investments l db :=
  Database (users db) (incomes db) (other_incomes db) (budgets db)
    (category_budgets db) (expenses db) l (assets db) (liabilities db)
    (financial_goals db).
Definition with_assets l db :=
  Database (users db) (incomes db) (other_incomes db) (budgets db)
    (category_budgets db) (expenses db) (investments db) l (liabilities db)
    (financial_goals db).
Definition with_liabilities l db :=
  Database (users db) (incomes db) (other_incomes db) (budgets db)
    (category_budgets db) (expenses db) (investments db) (assets db) l
    (financial_goals db).
Definition with_financial_goals l db :=
  Database (users db) (incomes db) (other_incomes db) (budgets db)
    (category_budgets db) (expenses db) (investments db) (assets db)
    (liabilities db) l.

Section statements.
Context `{Runtime}.

(** A text parameter bound to a typed column. *)
Definition param {A} (conv : string → option A) (text : string) : outcome A :=
  match conv text with
  | Some a => Ok a
  | None => Raise DataError
  end.

(* INSERT INTO users (full_name, email, password_hash)
   VALUES (%s, %s, %s) RETURNING id *)
Definition insert_user (full_name email password_hash : string)
    (id : Z) (today : date) (db : database) : outcome database :=
  Ok (with_users
        (users db ++ [User.Row id full_name email password_hash None]) db).

(* INSERT INTO incomes (user_id, monthly_income, currency) VALUES (%s, %s, %s)
   ON CONFLICT (user_id) DO UPDATE SET monthly_income = EXCLUDED.monthly_income,
                                       currency = EXCLUDED.currency *)
Definition upsert_income (user_id : Z) (monthly_income currency : string)
    (today : date) (db : database) : outcome database :=
  match param numeric_in monthly_income with
  | Raise e => Raise e
  | Ok m =>
      let new := Income.Row user_id m currency in
      Ok (with_incomes
            (if decide (Exists (λ r, Income.user_id r = user_id) (incomes db))
             then (λ r, if decide (Income.user_id r = user_id) then new else r)
                    <$> incomes db
             else incomes db ++ [new]) db)
  end.

(* DELETE FROM other_incomes WHERE user_id = %s *)
Definition delete_other_incomes (user_id : Z)
    (today : date) (db : database) : outcome database :=
  Ok (with_other_incomes
        (filter (λ r, OtherIncome.user_id r ≠ user_id) (other_incomes db)) db).

(* INSERT INTO other_incomes (user_id, source_name, amount) VALUES (%s, %s, %s) *)
Definition insert_other_income (user_id : Z) (name amount : string)
    (today : date) (db : database) : outcome database :=
  match param numeric_in amount with
  | Raise e => Raise e
  | Ok a =>
      Ok (with_other_incomes
            (other_incomes db ++ [OtherIncome.Row user_id name a]) db)
  end.

(* INSERT INTO budgets (user_id, total_monthly_budget) VALUES (%s, %s)
   ON CONFLICT (user_id) DO UPDATE
   SET total_monthly_budget = EXCLUDED.total_monthly_budget *)
Definition upsert_budget (user_id : Z) (total_budget : string)
    (today : date) (db : database) : outcome database :=
  match param numeric_in total_budget with
  | Raise e => Raise e
  | Ok t =>
      let new := Budget.Row user_id t in
      Ok (with_budgets
            (if decide (Exists (λ r, Budget.user_id r = user_id) (budgets db))
             then (λ r, if decide (Budget.user_id r = user_id) then new else r)
                    <$> budgets db
             else budgets db ++ [new]) db)
  end.

(* DELETE FROM category_budgets WHERE user_id = %s *)
Definition delete_category_budgets (user_id : Z)
    (today : date) (db : database) : outcome database :=
  Ok (with_category_budgets
        (filter (λ r, CategoryBudget.user_id r ≠ user_id) (category_budgets db))
        db).

(* INSERT INTO category_budgets (user_id, category_name, amount)
   VALUES (%s, %s, %s) *)
Definition insert_category_budget (user_id : Z) (category_name value : string)
    (today : date) (db : database) : outcome database :=
  match param numeric_in value with
  | Raise e => Raise e
  | Ok a =>
      Ok (with_category_budgets
            (category_budgets db ++ [CategoryBudget.Row user_id category_name a])
            db)
  end.

(* UPDATE users SET profile_picture_url = %s WHERE id = %s *)
Definition update_profile_picture (db_path : string) (user_id : Z)
    (today : date) (db : database) : outcome database :=
  Ok (with_users
        ((λ u, if decide (User.id u = user_id)
               then User.Row (User.id u) (User.full_name u) (User.email u)
                      (User.password_hash u) (Some db_path)
               else u) <$> users db) db).

(** A VARCHAR(n) column refuses a longer text. *)
Definition varchar (n : nat) (text : string) : outcome string :=
  if decide (String.length text ≤ n)%nat then Ok text else Raise DataError.

(** A NOT NULL column refuses [None]. *)
Definition not_null {A} (x : option A) : outcome A :=
  match x with
  | Some a => Ok a
  | None => Raise IntegrityError
  end.

Definition and_then {A B} (o : outcome A) (k : A → outcome B) : outcome B :=
  match o with
  | Ok a => k a
  | Raise e => Raise e
  end.

(* INSERT INTO financial_goals (user_id, goal_name, target_amount, goal_type)
   VALUES (%s, %s, %s, %s) *)
Definition insert_goal (user_id : Z) (goal_name target_amount goal_type : option string)
    (id : Z) (today : date) (db : database) : outcome database :=
  and_then (not_null goal_name) (λ goal_name,
  and_then (varchar 100 goal_name) (λ goal_name,
  and_then (not_null target_amount) (λ target_amount,
  and_then (param numeric_in target_amount) (λ target_amount,
  and_then (not_null goal_type) (λ goal_type,
  and_then (varchar 50 goal_type) (λ goal_type,
  if decide (Exists (λ u, User.id u = user_id) (users db))
  then Ok (with_financial_goals
             (financial_goals db ++
                [Goal.Row id user_id goal_name target_amount goal_type today])
             db)
  else Raise IntegrityError)))))).

(* DELETE FROM financial_goals WHERE id = %s AND user_id = %s *)
Definition delete_financial_goal (goal_id user_id : Z)
    (today : date) (db : database) : outcome database :=
  Ok (with_financial_goals
        (filter (λ g, ¬ (Goal.id g = goal_id ∧ Goal.user_id g = user_id))
           (financial_goals db)) db).

(* INSERT INTO expenses (user_id, title, amount, category, expense_date,
                         description, payment_method) VALUES (...) *)
Definition insert_expense (user_id : Z)
    (title amount category date description payment_method : string)
    (id : Z) (today : Z) (db : database) : outcome database :=
  and_then (param numeric_in amount) (λ amount,
  and_then (param date_in date) (λ date,
  Ok (with_expenses
        (expenses db ++
           [Expense.Row id user_id title amount category date description
              payment_method]) db))).

(* INSERT INTO investments (user_id, investment_name, amount_invested,
                            investment_type, investment_date) VALUES (...) *)
Definition insert_investment (user_id : Z)
    (investment_name amount_invested investment_type investment_date : string)
    (id : Z) (today : date) (db : database) : outcome database :=
  and_then (param numeric_in amount_invested) (λ amount_invested,
  and_then (param date_in investment_date) (λ investment_date,
  Ok (with_investments
        (investments db ++
           [Investment.Row id user_id investment_name amount_invested
              investment_type investment_date]) db))).

(** [WHERE id = %s AND user_id = %s] with a text (or missing) id: a missing
    id is NULL and matches no row. *)
Definition delete_by_id {A} (id_of user_of : A → Z) (item_id : option string)
    (user_id : Z) (rows : list A) : outcome (list A) :=
  match item_id with
  | None => Ok rows
  | Some text =>
      and_then (param int4_in text) (λ i,
      Ok (filter (λ r, ¬ (id_of r = i ∧ user_of r = user_id)) rows))
  end.

(* DELETE FROM investments WHERE id = %s AND user_id = %s *)
Definition delete_investment (investment_id : option string) (user_id : Z)
    (today : date) (db : database) : outcome database :=
  and_then
    (delete_by_id Investment.id Investment.user_id investment_id user_id
       (investments db))
    (λ l, Ok (with_investments l db)).

(* INSERT INTO assets (user_id, asset_name, value) VALUES (%s, %s, %s) *)
Definition insert_asset (user_id : Z) (asset_name value : string)
    (id : Z) (today : date) (db : database) : outcome database :=
  and_then (param numeric_in value) (λ value,
  Ok (with_assets (assets db ++ [Asset.Row id user_id asset_name value]) db)).

(* INSERT INTO liabilities (user_id, liability_name, amount_owed)
   VALUES (%s, %s, %s) *)
Definition insert_liability (user_id : Z) (liability_name amount_owed : string)
    (id : Z) (today : date) (db : database) : outcome database :=
  and_then (param numeric_in amount_owed) (λ amount_owed,
  Ok (with_liabilities
        (liabilities db ++ [Liability.Row id user_id liability_name amount_owed])
        db)).

(* DELETE FROM assets WHERE id = %s AND user_id = %s *)
Definition delete_asset (item_id : option string) (user_id : Z)
    (today : date) (db : database) : outcome database :=
  and_then (delete_by_id Asset.id Asset.user_id item_id user_id (assets db))
    (λ l, Ok (with_assets l db)).

(* DELETE FROM liabilities WHERE id = %s AND user_id = %s *)
Definition delete_liability (item_id : option string) (user_id : Z)
    (today : date) (db : database) : outcome database :=
  and_then
    (delete_by_id Liability.id Liability.user_id item_id user_id (liabilities db))
    (λ l, Ok (with_liabilities l db)).
End statements.

(** ** Flask: requests, responses, session, flashed messages *)

Inductive http_method := GET | POST.

(** [form], [args] and [files] are multi-dicts: the fields in the order they
    were sent, a key possibly more than once. *)
Record request := Request {
  method : http_method;
  form : list (string * string);
  args : list (string * string);
  files : list (string * string);
  json : option (list (string * string)) }.

(* d[key] *)
Definition getitem (d : list (string * string)) (key : string) : outcome string :=
  match dict_get key d with
  | Some v => Ok v
  | None => Raise (BadRequestKeyError key)
  end.

(* d.get(key) *)
Definition get (d : list (string * string)) (key : string) : option string :=
  dict_get key d.

(* d.getlist(key) *)
Definition getlist (d : list (string * string)) (key : string) : list string :=
  (filter (λ kv, kv.1 = key) d).*2.

(* d.items(): every key once, with its first value *)
Definition items (d : list (string * string)) : list (string * string) :=
  omap (λ k, (k,.) <$> dict_get k d) (distinct d.*1).

(** Truth value of a string. *)
Definition truthy (s : string) : bool := negb (String.eqb s "").

(** What [get_user_data] returns: the user's row with the currency added. *)
Record user_data := UserData { ud_user : User.row; ud_currency : string }.

Section flask.
Context `{Runtime}.

Inductive template_context :=
  | NoContext
  | DashboardContext (ctx : Dashboard.context)
  | ExpensesContext (expenses : list Expense.row) (user : option user_data)
  | InvestmentsContext (investments : list Investment.row)
  | AssetDebtContext (assets : list Asset.row) (liabilities : list Liability.row)
      (net_worth : decimal) (user : option user_data).

Inductive json_body :=
  | ReportJson (report : Report.payload)
  | ReplyJson (reply : string)
  | ErrorJson (error : string).

Inductive response :=
  | Rendered (template : string) (ctx : template_context)
      (current_user : option user_data)
  | Redirect (endpoint : string)
  | Jsonify (body : json_body) (status : Z)
  | MethodNotAllowed.

Definition flash (message category : string) : M unit :=
  modify (λ w, with_flashes (flashes w ++ [(message, category)]) w).

Definition redirect (endpoint : string) : M response := mret (Redirect endpoint).

(* session['user_id'] *)
Definition session_user_id : M Z :=
  s ← gets session;
  match s with
  | Some user_id => mret user_id
  | None => raise (BadRequestKeyError "user_id")
  end.

(* def get_user_data(user_id) *)
Definition get_user_data (user_id : Z) : M (option user_data) :=
  conn ← get_db_connection;
  cur ← cursor conn;
  user ← fetchone <$> query cur (λ _, select_user user_id);
  user ← match user with
          | Some user =>
              currency_row ← fetchone <$> query cur (λ _, select_currency user_id);
              mret (Some (UserData user (default "$" currency_row)))
          | None => mret None
          end;
  cursor_close cur;;
  close conn;;
  mret user.

(* @app.context_processor def inject_user() *)
Definition inject_user : M (option user_data) :=
  s ← gets session;
  match s with
  | Some user_id => get_user_data user_id
  | None => mret None
  end.

(** Rendering runs the context processor. *)
Definition render_template (template : string) (ctx : template_context)
    : M response :=
  current_user ← inject_user;
  mret (Rendered template ctx current_user).

(* def login_required(f) *)
Definition login_required (f : M response) : M response :=
  s ← gets session;
  match s with
  | None =>
      flash "You need to be logged in to view this page." "warning";;
      redirect "signin"
  | Some _ => f
  end.
End flask.

(** ** The request handlers of [app.py] *)

Module App.
Section handlers.
Context `{Runtime}.

(* @app.route('/') *)
Definition home (req : request) : M response :=
  render_template "home.html" NoContext.

(* @app.route('/signup', methods=['GET', 'POST']) *)
Definition signup (req : request) : M response :=
  match method req with
  | POST =>
      full_name ← lift (getitem (form req) "full_name");
      email ← lift (getitem (form req) "email");
      password ← lift (getitem (form req) "password");
      conn ← get_db_connection;
      cur ← cursor conn;
      existing ← fetchone <$> query cur (λ _, select_user_by_email email);
      match existing with
      | Some _ =>
          flash "Email address already registered." "danger";;
          cursor_close cur;;
          close conn;;
          redirect "signup"
      | None =>
          salt ← gets entropy;
          modify (with_entropy (S salt));;
          let password_hash := generate_password_hash salt password in
          user_id ← execute_insert cur users_id_seq
                      (insert_user full_name email password_hash);
          commit conn;;
          cursor_close cur;;
          close conn;;
          modify (with_session (Some user_id));;
          flash "Account created! Let's start with your income." "success";;
          redirect "income"
      end
  | GET => render_template "signup.html" NoContext
  end.

(* @app.route('/signin', methods=['GET', 'POST']) *)
Definition signin (req : request) : M response :=
  match method req with
  | POST =>
      email ← lift (getitem (form req) "email");
      password ← lift (getitem (form req) "password");
      conn ← get_db_connection;
      cur ← cursor conn;
      user ← fetchone <$> query cur (λ _, select_user_by_email email);
      cursor_close cur;;
      close conn;;
      match user with
      | Some user =>
          if check_password_hash (User.password_hash user) password
          then modify (with_session (Some (User.id user)));;
               redirect "dashboard"
          else flash "Invalid email or password." "danger";;
               render_template "signin.html" NoContext
      | None =>
          flash "Invalid email or password." "danger";;
          render_template "signin.html" NoContext
      end
  | GET => render_template "signin.html" NoContext
  end.

(* @app.route('/logout'): clearing the session drops its flashed messages *)
Definition logout (req : request) : M response :=
  modify (λ w, with_flashes [] (with_session None w));;
  flash "You have been logged out." "info";;
  redirect "home".

(* @app.route('/income', methods=['GET', 'POST']) *)
Definition income (req : request) : M response :=
  login_required (
    user_id ← session_user_id;
    match method req with
    | POST =>
        monthly_income ← lift (getitem (form req) "monthly_income");
        currency ← lift (getitem (form req) "currency");
        let source_names := getlist (form req) "source_name[]" in
        let source_amounts := getlist (form req) "source_amount[]" in
        conn ← get_db_connection;
        cur ← cursor conn;
        execute cur (upsert_income user_id monthly_income currency);;
        execute cur (delete_other_incomes user_id);;
        for_each (zip source_names source_amounts) (λ '(name, amount),
          if truthy name && truthy amount
          then execute cur (insert_other_income user_id name amount)
          else mret ());;
        commit conn;;
        cursor_close cur;;
        close conn;;
        flash "Income details saved." "success";;
        redirect "budget"
    | GET => render_template "income.html" NoContext
    end).

(* @app.route('/budget', methods=['GET', 'POST']) *)
Definition budget (req : request) : M response :=
  login_required (
    user_id ← session_user_id;
    match method req with
    | POST =>
        total_budget ← lift (getitem (form req) "total_monthly_budget");
        conn ← get_db_connection;
        cur ← cursor conn;
        execute cur (upsert_budget user_id total_budget);;
        execute cur (delete_category_budgets user_id);;
        for_each (items (form req)) (λ '(key, value),
          if startswith key "category_" && truthy value
          then
            let category_name :=
              title (replace (replace key "category_" "") "_" " ") in
            execute cur (insert_category_budget user_id category_name value)
          else mret ());;
        commit conn;;
        cursor_close cur;;
        close conn;;
        flash "Budgets saved successfully! Now you can start adding expenses."
          "success";;
        redirect "expense"
    | GET => render_template "budget.html" NoContext
    end).

(* @app.route('/upload-profile-picture', methods=['POST']) *)
Definition upload_profile_picture (req : request) : M response :=
  login_required (
    user_id ← session_user_id;
    match get (files req) "profile_pic" with
    | None =>
        flash "No file part" "danger";;
        redirect "dashboard"
    | Some file_filename =>
        if String.eqb file_filename "" then
          flash "No selected file" "danger";;
          redirect "dashboard"
        else
          let filename := secure_filename file_filename in
          u ← gets entropy;
          modify (with_entropy (S u));;
          let unique_filename := uuid4 u +:+ (splitext filename).2 in
          let db_path := "uploads/profile_pics/" +:+ unique_filename in
          modify (λ w, with_saved_files (saved_files w ++ [db_path]) w);;
          conn ← get_db_connection;
          cur ← cursor conn;
          execute cur (update_profile_picture db_path user_id);;
          commit conn;;
          cursor_close cur;;
          close conn;;
          flash "Profile picture updated!" "success";;
          redirect "dashboard"
    end).

(* @app.route('/add-goal', methods=['POST']) *)
Definition add_goal (req : request) : M response :=
  login_required (
    user_id ← session_user_id;
    let goal_name := get (form req) "goal_name" in
    let target_amount := get (form req) "target_amount" in
    let goal_type := get (form req) "goal_type" in
    conn ← get_db_connection;
    cur ← cursor conn;
    execute_insert cur financial_goals_id_seq
      (insert_goal user_id goal_name target_amount goal_type);;
    commit conn;;
    cursor_close cur;;
    close conn;;
    flash "Financial goal added!" "success";;
    redirect "dashboard").

(* @app.route('/delete-goal/<int:goal_id>', methods=['POST']) *)
Definition delete_goal (goal_id : Z) (req : request) : M response :=
  login_required (
    user_id ← session_user_id;
    conn ← get_db_connection;
    cur ← cursor conn;
    execute cur (delete_financial_goal goal_id user_id);;
    commit conn;;
    cursor_close cur;;
    close conn;;
    flash "Goal removed." "info";;
    redirect "dashboard").

(* @app.route('/dashboard') *)
Definition dashboard (req : request) : M response :=
  login_required (
    user_id ← session_user_id;
    conn ← get_db_connection;
    cur ← cursor conn;
    (* 1. summary cards *)
    total ← query cur (select_month_total user_id);
    let total_spent_this_month := Dashboard.total_spent_this_month total in
    income_row ← fetchone <$> query cur (λ _, select_monthly_income user_id);
    let monthly_income := Dashboard.monthly_income income_row in
    let net_balance := Dashboard.net_balance monthly_income total_spent_this_month in
    budget_row ← fetchone <$> query cur (λ _, select_total_monthly_budget user_id);
    let total_budget := Dashboard.total_budget budget_row in
    budget_used_percent ←
      lift (Dashboard.budget_used_percent total_spent_this_month total_budget);
    (* 2. goals *)
    goals ← query cur (λ _, select_goals user_id);
    (* 3. quick charts *)
    weekly_rows ← query cur (select_weekly user_id);
    let weekly_expenses_data := Dashboard.weekly_expenses_data weekly_rows in
    category_rows ← query cur (select_month_by_category_desc user_id);
    let expense_by_category := Dashboard.expense_by_category category_rows in
    (* 4. recent activity *)
    recent_expenses_list ← query cur (λ _, select_recent_expenses user_id);
    (* 5. budget overspending *)
    budget_rows ← query cur (λ _, select_category_budgets user_id);
    let budgeted_amounts := Dashboard.budgeted_amounts budget_rows in
    overspent_categories ←
      match budgeted_amounts with
      | [] => mret []
      | _ =>
          spent ← query cur (select_month_by_category user_id);
          mret (Dashboard.overspent_categories budgeted_amounts spent)
      end;
    cursor_close cur;;
    close conn;;
    render_template "dashboard.html"
      (DashboardContext
         (Dashboard.MkContext monthly_income total_spent_this_month net_balance
            budget_used_percent goals recent_expenses_list overspent_categories
            weekly_expenses_data expense_by_category))).

(* @app.route('/expense', methods=['GET', 'POST']) *)
Definition expense (req : request) : M response :=
  login_required (
    match method req with
    | POST =>
        title ← lift (getitem (form req) "title");
        amount ← lift (getitem (form req) "amount");
        category ← lift (getitem (form req) "category");
        date ← lift (getitem (form req) "date");
        let description := default "" (get (form req) "description") in
        payment_method ← lift (getitem (form req) "payment_method");
        conn ← get_db_connection;
        cur ← cursor conn;
        user_id ← session_user_id;
        execute_insert cur expenses_id_seq
          (insert_expense user_id title amount category date description
             payment_method);;
        commit conn;;
        cursor_close cur;;
        close conn;;
        flash "Expense added successfully!" "success";;
        redirect "expenses_list"
    | GET => render_template "expense.html" NoContext
    end).

(* @app.route('/expenses') *)
Definition expenses_list (req : request) : M response :=
  login_required (
    user_id ← session_user_id;
    user ← get_user_data user_id;
    let sort_by := default "newest" (get (args req) "sort") in
    conn ← get_db_connection;
    cur ← cursor conn;
    expenses ← query cur (λ _,
                 if String.eqb sort_by "amount_high_low"
                 then select_expenses_by_amount user_id
                 else select_expenses_newest user_id);
    cursor_close cur;;
    close conn;;
    render_template "expense2.html" (ExpensesContext expenses user)).

(* @app.route('/investments', methods=['GET', 'POST']) *)
Definition investments (req : request) : M response :=
  login_required (
    user_id ← session_user_id;
    conn ← get_db_connection;
    cur ← cursor conn;
    match method req with
    | POST =>
        let action := get (form req) "action" in
        (if decide (action = Some "add") then
           investment_name ← lift (getitem (form req) "investment_name");
           amount_invested ← lift (getitem (form req) "amount_invested");
           investment_type ← lift (getitem (form req) "investment_type");
           investment_date ← lift (getitem (form req) "investment_date");
           execute_insert cur investments_id_seq
             (insert_investment user_id investment_name amount_invested
                investment_type investment_date);;
           flash "Investment added successfully!" "success"
         else if decide (action = Some "delete") then
           let investment_id := get (form req) "investment_id" in
           execute cur (delete_investment investment_id user_id);;
           flash "Investment deleted." "info"
         else mret ());;
        commit conn;;
        cursor_close cur;;
        close conn;;
        redirect "investments"
    | GET =>
        investments_list ← query cur (λ _, select_investments user_id);
        cursor_close cur;;
        close conn;;
        render_template "investments.html" (InvestmentsContext investments_list)
    end).

(* @app.route('/assets-debts', methods=['GET', 'POST']) *)
Definition assetdebt (req : request) : M response :=
  login_required (
    user_id ← session_user_id;
    user ← get_user_data user_id;
    conn ← get_db_connection;
    cur ← cursor conn;
    match method req with
    | POST =>
        let action := default "add" (get (form req) "action") in
        (if String.eqb action "add" then
           let form_type := get (form req) "form_type" in
           if decide (form_type = Some "asset") then
             asset_name ← lift (getitem (form req) "asset_name");
             value ← lift (getitem (form req) "value");
             execute_insert cur assets_id_seq
               (insert_asset user_id asset_name value);;
             flash "Asset added!" "success"
           else if decide (form_type = Some "liability") then
             liability_name ← lift (getitem (form req) "liability_name");
             amount_owed ← lift (getitem (form req) "amount_owed");
             execute_insert cur liabilities_id_seq
               (insert_liability user_id liability_name amount_owed);;
             flash "Liability added!" "success"
           else mret ()
         else if String.eqb action "delete" then
           let form_type := get (form req) "form_type" in
           let item_id := get (form req) "item_id" in
           if decide (form_type = Some "asset") then
             execute cur (delete_asset item_id user_id);;
             flash "Asset deleted." "info"
           else if decide (form_type = Some "liability") then
             execute cur (delete_liability item_id user_id);;
             flash "Liability deleted." "info"
           else mret ()
         else mret ());;
        commit conn;;
        cursor_close cur;;
        close conn;;
        redirect "assetdebt"
    | GET =>
        assets ← query cur (λ _, select_assets user_id);
        liabilities ← query cur (λ _, select_liabilities user_id);
        let total_assets := py_sum (Asset.value <$> assets) in
        let total_liabilities := py_sum (Liability.amount_owed <$> liabilities) in
        let net_worth := decimal_sub total_assets total_liabilities in
        cursor_close cur;;
        close conn;;
        render_template "assetdebt.html"
          (AssetDebtContext assets liabilities net_worth user)
    end).

(* @app.route('/reports') *)
Definition reports (req : request) : M response :=
  login_required (render_template "reports.html" NoContext).

(* @app.route('/api/comprehensive-report') *)
Definition comprehensive_report_api (req : request) : M response :=
  login_required (
    user_id ← session_user_id;
    conn ← get_db_connection;
    cur ← cursor conn;
    (* 1. income *)
    main_income ← fetchone <$> query cur (λ _, select_monthly_income user_id);
    other_incomes ← query cur (λ _, select_other_incomes user_id);
    let income_sources := Report.income_sources main_income other_incomes in
    (* 2. expenses by month *)
    expenses_by_month_rows ← query cur (λ _, select_expenses_by_month user_id);
    let expenses_by_month := Report.expenses_by_month expenses_by_month_rows in
    (* 3. budget vs actuals *)
    actual_rows ← query cur (select_month_by_category user_id);
    let actual_spending := Report.actual_spending actual_rows in
    budget_rows ← query cur (λ _, select_category_budgets user_id);
    let budgeted_amounts := Report.budgeted_amounts budget_rows in
    let budget_vs_actual := Report.budget_vs_actual actual_spending budgeted_amounts in
    (* 4. investments by type *)
    investment_rows ← query cur (λ _, select_investments_by_type user_id);
    let investments_by_type := Report.investments_by_type investment_rows in
    (* 5. assets vs liabilities *)
    total_assets ← query cur (λ _, select_total_assets user_id);
    total_liabilities ← query cur (λ _, select_total_liabilities user_id);
    let assets_vs_liabilities :=
      Report.assets_vs_liabilities total_assets total_liabilities in
    (* 6. summary line graph *)
    let summary_line_graph :=
      Report.summary_line_graph income_sources expenses_by_month in
    cursor_close cur;;
    close conn;;
    mret (Jsonify
            (ReportJson
               (Report.Payload income_sources expenses_by_month budget_vs_actual
                  investments_by_type assets_vs_liabilities summary_line_graph))
            200)).

(* @app.route('/chatbot') *)
Definition chatbot_page (req : request) : M response :=
  login_required (render_template "chatbot.html" NoContext).

(* @app.route('/api/chat', methods=['POST']) *)
Definition chat_api (req : request) : M response :=
  login_required (
    match generate_content with
    | None => mret (Jsonify (ErrorJson "Chatbot is not configured.") 500)
    | Some generate_content =>
        match json req with
        | None => raise AttributeError
        | Some data =>
            match get data "message" with
            | Some user_message =>
                if truthy user_message then
                  let prompt :=
                    "You are a friendly and helpful financial assistant for an app called Finance Tracker. A user has asked: '"
                    +:+ user_message
                    +:+ "'. Provide a concise and helpful answer." in
                  match generate_content prompt with
                  | inl text => mret (Jsonify (ReplyJson text) 200)
                  | inr error => mret (Jsonify (ErrorJson error) 500)
                  end
                else mret (Jsonify (ErrorJson "No message provided.") 400)
            | None => mret (Jsonify (ErrorJson "No message provided.") 400)
            end
        end
    end).

(** The URL map. *)
Inductive endpoint :=
  | Home | Signup | Signin | Logout | IncomeForm | BudgetForm
  | UploadProfilePicture | AddGoal | DeleteGoal (goal_id : Z) | DashboardPage
  | ExpenseForm | ExpensesList | Investments | AssetDebt | Reports
  | ComprehensiveReportApi | ChatbotPage | ChatApi.

(** The methods each route accepts ([GET] unless the route says otherwise). *)
Definition allowed (ep : endpoint) (m : http_method) : bool :=
  match ep, m with
  | (Signup | Signin | IncomeForm | BudgetForm | ExpenseForm | Investments
     | AssetDebt), _ => true
  | (UploadProfilePicture | AddGoal | DeleteGoal _ | ChatApi), POST => true
  | (UploadProfilePicture | AddGoal | DeleteGoal _ | ChatApi), GET => false
  | _, GET => true
  | _, POST => false
  end.

Definition view_function (ep : endpoint) : request → M response :=
  match ep with
  | Home => home
  | Signup => signup
  | Signin => signin
  | Logout => logout
  | IncomeForm => income
  | BudgetForm => budget
  | UploadProfilePicture => upload_profile_picture
  | AddGoal => add_goal
  | DeleteGoal goal_id => delete_goal goal_id
  | DashboardPage => dashboard
  | ExpenseForm => expense
  | ExpensesList => expenses_list
  | Investments => investments
  | AssetDebt => assetdebt
  | Reports => reports
  | ComprehensiveReportApi => comprehensive_report_api
  | ChatbotPage => chatbot_page
  | ChatApi => chat_api
  end.

Definition dispatch (ep : endpoint) (req : request) : M response :=
  if allowed ep (method req) then view_function ep req
  else mret MethodNotAllowed.
End handlers.
End App.

(** ** A small runtime, to run the handlers on examples

    Amounts and ids are written as integers, dates as day numbers; a float is
    kept as the decimal it was converted from; hashes are the text itself. *)

Definition integer_in (s : string) : option Z :=
  Z.of_int <$> DecimalString.NilZero.int_of_string s.

Definition reference_runtime : Runtime := {|
  Float := decimal;
  float := λ d, d;
  numeric_in := λ s, (λ z, Q2Qc (inject_Z z)) <$> integer_in s;
  int4_in := integer_in;
  date_in := integer_in;
  generate_password_hash := λ _ password, password;
  check_password_hash := λ pwhash password, String.eqb pwhash password;
  uuid4 := λ n, zero_padded 8 (Z.of_nat n);
  secure_filename := λ s, s;
  splitext := λ s, (s, "");
  generate_content := None |}.

Definition empty_database : database := Database [] [] [] [] [] [] [] [] [] [].

Definition initial_world (db : database) (today : date) (user : option Z) : world :=
  World db ∅ today None (λ _, 1) user [] 0 [].

(** ** Sample data for the examples *)

Definition example_expense (id user_id : Z) (amount : Z) (category : string)
    (y m d : Z) : Expense.row :=
  Expense.Row id user_id "" (dec amount 1) category (days_from_civil y m d) ""
    "card".

Definition ann : User.row := User.Row 1 "Ann" "ann@example.org" "pw" None.
Definition bob : User.row := User.Row 2 "Bob" "bob@example.org" "pw" None.

Definition get_request : request := Request GET [] [] [] None.

Definition post_request (form : list (string * string)) : request :=
  Request POST form [] [] None.

(** Ann has 20 and 30 of Food this month and a Food budget of 40. *)
Definition food_database : database :=
  Database [ann] [] [] [] [CategoryBudget.Row 1 "Food" (dec 40 1)]
    [example_expense 1 1 20 "Food" 2024 3 5;
     example_expense 2 1 30 "Food" 2024 3 9]
    [] [] [] [].

(** On Wednesday 2024-03-13: one expense six days back, one dated tomorrow;
    both fall on a Thursday. *)
Definition future_dated_database : database :=
  Database [ann] [] [] [] []
    [example_expense 1 1 10 "Food" 2024 3 7;
     example_expense 2 1 5 "Food" 2024 3 14]
    [] [] [] [].

(** Ann's monthly income is 1000; she also named a side income of 5
    "Salary / Main". *)
Definition salary_clash_database : database :=
  Database [ann] [Income.Row 1 (dec 1000 1) "$"]
    [OtherIncome.Row 1 "Salary / Main" (dec 5 1)] [] []
    [example_expense 1 1 10 "Food" 2024 3 7]
    [] [] [] [].

(** Ann's expenses of three months, entered out of order: March 0, January
    100, February 50. *)
Definition months_database : database :=
  Database [ann] [] [] [] []
    [example_expense 1 1 0 "Food" 2024 3 2;
     example_expense 2 1 100 "Food" 2024 1 15;
     example_expense 3 1 50 "Rent" 2024 2 1]
    [] [] [] [].

(** Bob owns goal 7; Ann owns goal 8. *)
Definition goals_database : database :=
  Database [ann; bob] [] [] [] [] [] [] [] []
    [Goal.Row 7 2 "Bike" (dec 300 1) "short" 19000;
     Goal.Row 8 1 "Trip" (dec 900 1) "long" 19001].

(** Ann has two category budgets on file. *)
Definition budgets_database : database :=
  Database [ann] [] [] [Budget.Row 1 (dec 300 1)]
    [CategoryBudget.Row 1 "Food" (dec 40 1);
     CategoryBudget.Row 1 "Rent" (dec 200 1)]
    [] [] [] [] [].

(** Ann is signed in on 2024-03-10, resp. 2024-03-13; the data store is in
    order, or fails after [n] round trips. *)
Definition signed_in (db : database) (y m d : Z) : world :=
  initial_world db (days_from_civil y m d) (Some 1).

Definition failing_after (n : nat) (w : world) : world := with_faults (Some n) w.

Definition run (ep : App.endpoint) (req : request) (w : world)
    : outcome response * world :=
  @App.dispatch reference_runtime ep req w.

(** The budget form: a total, two categories, the second amount not a number. *)
Definition budget_form : list (string * string) :=
  [("total_monthly_budget", "500"); ("category_food", "60");
   ("category_fun", "a lot")].

Definition income_form : list (string * string) :=
  [("monthly_income", "1000"); ("currency", "$");
   ("source_name[]", "Rent"); ("source_amount[]", "200");
   ("source_name[]", "Gifts"); ("source_amount[]", "a few")].

(** ** A program logic for the handlers

    [hoare P m Q E]: started in a world satisfying [P], [m] either returns
    [a] in a world satisfying [Q a], or raises [e] in a world satisfying
    [E e]. *)

Definition hoare {A} (P : world → Prop) (m : M A)
    (Q : A → world → Prop) (E : exn → world → Prop) : Prop :=
  ∀ w, P w →
    match m w with
    | (Ok a, w') => Q a w'
    | (Raise e, w') => E e w'
    end.

(** A step that leaves the connections and the store alone. *)
Definition quiet {A} (m : M A) : Prop :=
  ∀ w, conns (m w).2 = conns w ∧ store (m w).2 = store w.

(** An assertion that only looks at the connections and the store. *)
Definition stable (P : world → Prop) : Prop :=
  ∀ w w', conns w' = conns w → store w' = store w → P w → P w'.

(** A step that always returns. *)
Definition never_raises {A} (m : M A) : Prop := ∀ w, ∃ a w', m w = (Ok a, w').

(** No connection of the request is open: the open ones are [C]. *)
Definition idle (C : gmap nat database) (w : world) : Prop := conns w = C.

(** The request holds the one connection [conn] beside the connections [C]. *)
Definition holding (C : gmap nat database) (conn : connection) (w : world) : Prop :=
  C !! conn = None ∧ ∃ db, conns w = <[conn := db]> C.

(** No condition on the world an exception leaves. *)
Definition anything : exn → world → Prop := λ _ _, True.

(** Nothing has been committed: the store is still [S]. *)
Definition unchanged (S : database) (w : world) : Prop := store w = S.

(** After the commit; the steps that follow must not raise. *)
Definition committed (w : world) : Prop := True.

(** The calendar order of months. *)
Definition year_month_le (d1 d2 : date) : Prop :=
  year_of d1 < year_of d2 ∨
  (year_of d1 = year_of d2 ∧ date_part_month d1 ≤ date_part_month d2).

(** ** What the two reporting handlers compute, as functions of the tables *)

(** The template variables of the dashboard for a user, a date and a state
    of the tables. *)
Definition dashboard_figures `{Runtime} (user_id : Z) (today : date)
    (db : database) : outcome Dashboard.context :=
  let total_spent_this_month :=
    Dashboard.total_spent_this_month (select_month_total user_id today db) in
  let monthly_income :=
    Dashboard.monthly_income (fetchone (select_monthly_income user_id db)) in
  let total_budget :=
    Dashboard.total_budget (fetchone (select_total_monthly_budget user_id db)) in
  let budgeted_amounts :=
    Dashboard.budgeted_amounts (select_category_budgets user_id db) in
  match Dashboard.budget_used_percent total_spent_this_month total_budget with
  | Raise e => Raise e
  | Ok budget_used_percent =>
      Ok (Dashboard.MkContext monthly_income total_spent_this_month
            (Dashboard.net_balance monthly_income total_spent_this_month)
            budget_used_percent
            (select_goals user_id db)
            (select_recent_expenses user_id db)
            match budgeted_amounts with
            | [] => []
            | _ => Dashboard.overspent_categories budgeted_amounts
                     (select_month_by_category user_id today db)
            end
            (Dashboard.weekly_expenses_data (select_weekly user_id today db))
            (Dashboard.expense_by_category
               (select_month_by_category_desc user_id today db)))
  end.

(** The JSON body of the consolidated report. *)
Definition report_payload `{Runtime} (user_id : Z) (today : date)
    (db : database) : Report.payload :=
  let income_sources :=
    Report.income_sources (fetchone (select_monthly_income user_id db))
      (select_other_incomes user_id db) in
  let expenses_by_month :=
    Report.expenses_by_month (select_expenses_by_month user_id db) in
  Report.Payload income_sources expenses_by_month
    (Report.budget_vs_actual
       (Report.actual_spending (select_month_by_category user_id today db))
       (Report.budgeted_amounts (select_category_budgets user_id db)))
    (Report.investments_by_type (select_investments_by_type user_id db))
    (Report.assets_vs_liabilities (select_total_assets user_id db)
       (select_total_liabilities user_id db))
    (Report.summary_line_graph income_sources expenses_by_month).

(** The data store answers every round trip when [F] holds. *)
Definition reliable (F : Prop) (w : world) : Prop := F → faults w = None.

(** The connection [conn] works on the tables [S] at the date [D]. *)
Definition viewing (F : Prop) (S : database) (D : date) (conn : connection)
    (w : world) : Prop :=
  conns w !! conn = Some S ∧ current_date w = D ∧ reliable F w.

(** What a reading handler may raise: the data store's error, when the store
    is not reliable, or one of the errors [R] of its own computation. *)
Definition failure (F : Prop) (R : exn → Prop) : exn → world → Prop :=
  λ e _, (e = OperationalError ∧ ¬ F) ∨ R e.

(** ** What the handlers read, as functions of the tables *)

(** The value of [get_user_data]: the user's row with the currency of the
    income row, ['$'] without one. *)
Definition user_data_of (user_id : Z) (db : database) : option user_data :=
  match fetchone (select_user user_id db) with
  | Some user =>
      Some (UserData user (default "$" (fetchone (select_currency user_id db))))
  | None => None
  end.

(** The user that [signin] looks up, and whether the password passes. *)
Definition credentials_ok `{Runtime} (email password : string) (db : database)
    : option User.row :=
  match fetchone (select_user_by_email email db) with
  | Some user =>
      if check_password_hash (User.password_hash user) password
      then Some user else None
  | None => None
  end.

(** What the context processor adds to a rendered page. *)
Definition current_user_of (w : world) : option user_data :=
  match session w with
  | Some user_id => user_data_of user_id (store w)
  | None => None
  end.

(** ** More sample requests *)

Definition signup_form : list (string * string) :=
  [("full_name", "Cy"); ("email", "cy@example.org"); ("password", "s3cret")].

Definition signin_form : list (string * string) :=
  [("email", "cy@example.org"); ("password", "s3cret")].

(** ** What a request may touch *)

(** The rows of the tables that belong to [user_id]. *)
Definition rows_of (user_id : Z) (db : database) : database :=
  Database
    (filter (λ r, User.id r = user_id) (users db))
    (filter (λ r, Income.user_id r = user_id) (incomes db))
    (filter (λ r, OtherIncome.user_id r = user_id) (other_incomes db))
    (filter (λ r, Budget.user_id r = user_id) (budgets db))
    (filter (λ r, CategoryBudget.user_id r = user_id) (category_budgets db))
    (filter (λ r, Expense.user_id r = user_id) (expenses db))
    (filter (λ r, Investment.user_id r = user_id) (investments db))
    (filter (λ r, Asset.user_id r = user_id) (assets db))
    (filter (λ r, Liability.user_id r = user_id) (liabilities db))
    (filter (λ r, Goal.user_id r = user_id) (financial_goals db)).

(** A step that leaves the part [π] of the world alone. *)
Definition frames {X A} (π : world → X) (m : M A) : Prop :=
  ∀ w, π (m w).2 = π w.

(** The connections, the store and the session. *)
Definition scene (w : world) : gmap nat database * database * option Z :=
  (conns w, store w, session w).

(** The stored rows of [other] are [R], and the request is not theirs. *)
Definition apart (other : Z) (R : database) (w : world) : Prop :=
  session w ≠ Some other ∧ rows_of other (store w) = R.

(** The same, with the connection [conn] open on tables that hold [R] for
    [other]. *)
Definition apart_on (other : Z) (R : database) (conn : connection) (w : world)
    : Prop :=
  apart other R w ∧ ∃ db, conns w !! conn = Some db ∧ rows_of other db = R.

(** The stored rows of [other] are [R]. *)
Definition kept (other : Z) (R : database) (w : world) : Prop :=
  rows_of other (store w) = R.

(** A statement that leaves the rows of [other] alone. *)
Definition spares (other : Z) (stmt : date → database → outcome database)
    : Prop :=
  ∀ today db db', stmt today db = Ok db' → rows_of other db' = rows_of other db.

(** ** What the forms submit *)

(** The statements of one transaction, run in order on its tables. *)
Fixpoint run_statements (stmts : list (date → database → outcome database))
    (today : date) (db : database) : outcome database :=
  match stmts with
  | [] => Ok db
  | stmt :: rest =>
      match stmt today db with
      | Ok db' => run_statements rest today db'
      | Raise e => Raise e
      end
  end.

(** The income form's other sources: the names paired with the amounts, the
    pairs with an empty name or amount left out. *)
Definition submitted_sources (req : request) : list (string * string) :=
  filter (λ p, truthy p.1 && truthy p.2)
    (zip (getlist (form req) "source_name[]")
       (getlist (form req) "source_amount[]")).

(* key.replace('category_', '').replace('_', ' ').title() *)
Definition category_name_of (key : string) : string :=
  title (replace (replace key "category_" "") "_" " ").

(** The budget form's categories: the fields named [category_...] that are
    not empty. *)
Definition submitted_categories (req : request) : list (string * string) :=
  filter (λ kv, startswith kv.1 "category_" && truthy kv.2) (items (form req)).

Definition income_form_ok : list (string * string) :=
  [("monthly_income", "1000"); ("currency", "EUR");
   ("source_name[]", "Rent"); ("source_amount[]", "200");
   ("source_name[]", ""); ("source_amount[]", "7");
   ("source_name[]", "Gifts"); ("source_amount[]", "50")].

Definition budget_form_ok : list (string * string) :=
  [("total_monthly_budget", "500"); ("category_food", "60");
   ("category_eating_out", "25"); ("category_fun", ""); ("note", "x")].

Definition goal_form : list (string * string) :=
  [("goal_name", "Car"); ("target_amount", "5000"); ("goal_type", "long")].

Definition expense_form : list (string * string) :=
  [("title", "Lunch"); ("amount", "12"); ("category", "Food");
   ("date", "19792"); ("payment_method", "cash")].

(** The fields [expense] takes with [request.form['...']], in the order it
    reads them. *)
Definition expense_required : list string :=
  ["title"; "amount"; "category"; "date"; "payment_method"].

Definition investment_form : list (string * string) :=
  [("action", "add"); ("investment_name", "Fund"); ("amount_invested", "300");
   ("investment_type", "etf"); ("investment_date", "19792")].

(* f"You are a friendly ... A user has asked: '{user_message}'. Provide ..." *)
Definition chat_prompt (user_message : string) : string :=
  "You are a friendly and helpful financial assistant for an app called Finance Tracker. A user has asked: '"
  +:+ user_message +:+ "'. Provide a concise and helpful answer.".

(** ** [init_db.py]: the schema update

    The catalog of one schema: each table with the names of its columns and
    those of them that carry a primary key or a unique constraint.  The
    statements of [update_database_schema] run in the one transaction of
    their connection, which is committed after the last; when one of them
    fails, the exception leaves the function and nothing was committed. *)

Module Schema.
Record table := Table { columns : list string; unique : list string }.

Abbreviation catalog := (gmap string table).

Inductive error :=
  | UndefinedTable (name : string)
  | InvalidForeignKey (name : string).

Inductive result :=
  | Done (cat : catalog)
  | Failed (e : error).

(* SELECT 1 FROM information_schema.columns
   WHERE table_name = t AND column_name = c *)
Definition has_column (cat : catalog) (t c : string) : bool :=
  match cat !! t with
  | Some tbl => bool_decide (c ∈ columns tbl)
  | None => false
  end.

(* IF NOT EXISTS (...) THEN ALTER TABLE t ADD COLUMN c ...; END IF; *)
Definition add_column_if_missing (t c : string) (cat : catalog) : result :=
  if has_column cat t c then Done cat
  else match cat !! t with
       | Some tbl => Done (<[t := Table (columns tbl ++ [c]) (unique tbl)]> cat)
       | None => Failed (UndefinedTable t)
       end.

(** [REFERENCES t(c)]: the table must be there, and the column unique. *)
Definition check_reference (cat : catalog) (t c : string) : option error :=
  match cat !! t with
  | Some tbl => if bool_decide (c ∈ unique tbl) then None
                else Some (InvalidForeignKey t)
  | None => Some (UndefinedTable t)
  end.

(* CREATE TABLE IF NOT EXISTS name (id SERIAL PRIMARY KEY,
     user_id INTEGER REFERENCES users(id) ON DELETE CASCADE, ...) *)
Definition create_table_if_not_exists (name : string) (cols : list string)
    (cat : catalog) : result :=
  match cat !! name with
  | Some _ => Done cat
  | None =>
      match check_reference cat "users" "id" with
      | Some e => Failed e
      | None => Done (<[name := Table cols ["id"]]> cat)
      end
  end.

Definition and_then (r : result) (k : catalog → result) : result :=
  match r with
  | Done cat => k cat
  | Failed e => Failed e
  end.

Definition financial_goals_columns : list string :=
  ["id"; "user_id"; "goal_name"; "target_amount"; "goal_type"; "created_at"].

Definition wishlist_items_columns : list string :=
  ["id"; "user_id"; "item_name"; "target_price"; "created_at"].

Definition recurring_transactions_columns : list string :=
  ["id"; "user_id"; "transaction_name"; "amount"; "category";
   "recurrence_pattern"; "next_due_date"].

(* def update_database_schema() *)
Definition update_database_schema (cat : catalog) : result :=
  and_then (add_column_if_missing "users" "profile_picture_url" cat) (λ cat,
  and_then (create_table_if_not_exists "financial_goals"
              financial_goals_columns cat) (λ cat,
  and_then (create_table_if_not_exists "wishlist_items"
              wishlist_items_columns cat) (λ cat,
  create_table_if_not_exists "recurring_transactions"
    recurring_transactions_columns cat))).

(** A catalog with the table [users] as the application's first version
    made it. *)
Definition first_catalog : catalog :=
  {[ "users" := Table ["id"; "full_name"; "email"; "password_hash"] ["id"] ]}.
End Schema.

(** A value that a [NUMERIC(15, 2)] column stores as it is: no more than two
    decimals, and less than 10^13 in absolute value. *)
Definition numeric_15_2 (a : decimal) : Prop :=
  ∃ n : Z, a = dec n 100 ∧ Z.abs n < 10 ^ 15.

(** * Properties

    ** Sums and groups *)

(** Closed equations between computed values: evaluate, then compare the
    decimals as rationals. *)
Ltac decimal_eq :=
  vm_compute;
  repeat match goal with
         | |- @eq Qc _ _ => apply Qc_is_canon; vm_compute; reflexivity
         | |- _ = _ => reflexivity
         | |- _ = _ => progress f_equal
         end.

Lemma sum_decimal_cons x l : sum_decimal (x :: l) = (x + sum_decimal l)%Qc.
Proof. reflexivity. Qed.

Lemma sum_decimal_app l1 l2 :
  sum_decimal (l1 ++ l2) = (sum_decimal l1 + sum_decimal l2)%Qc.
Proof.
  induction l1 as [|x l1 IH]; simpl.
  - by rewrite Qcplus_0_l.
  - by rewrite IH, Qcplus_assoc.
Qed.

Lemma sum_decimal_Permutation l1 l2 :
  l1 ≡ₚ l2 → sum_decimal l1 = sum_decimal l2.
Proof.
  induction 1 as [|x l1 l2 _ IH|x y l|l1 l2 l3 _ IH1 _ IH2]; simpl.
  - done.
  - by rewrite IH.
  - rewrite !Qcplus_assoc. by rewrite (Qcplus_comm y x).
  - congruence.
Qed.

Lemma elem_of_distinct {A} `{EqDecision A} (l : list A) x :
  x ∈ distinct l ↔ x ∈ l.
Proof.
  induction l as [|y l IH]; simpl; [done|].
  rewrite !elem_of_cons, list_elem_of_filter, IH.
  destruct (decide (x = y)); tauto.
Qed.

Lemma NoDup_distinct {A} `{EqDecision A} (l : list A) : NoDup (distinct l).
Proof.
  induction l as [|y l IH]; simpl; constructor.
  - rewrite list_elem_of_filter. tauto.
  - by apply NoDup_filter.
Qed.

(** Summing group by group is summing everything the groups cover. *)
Lemma sum_by_groups {A K} `{EqDecision K} (key : A → K) (f : A → decimal)
    (ks : list K) (rows : list A) :
  NoDup ks →
  sum_decimal ((λ k, sum_decimal (f <$> filter (λ r, key r = k) rows)) <$> ks)
  = sum_decimal (f <$> filter (λ r, key r ∈ ks) rows).
Proof.
  intros Hnd. induction Hnd as [|k ks Hk Hnd IH].
  - rewrite fmap_nil. induction rows as [|r rows IHr]; [done|].
    rewrite filter_cons. destruct (decide _) as [Hin|]; [|done].
    by apply elem_of_nil in Hin.
  - rewrite fmap_cons, sum_decimal_cons, IH. clear IH.
    induction rows as [|r rows IHr].
    + by rewrite Qcplus_0_l.
    + rewrite !filter_cons.
      destruct (decide (key r = k)) as [Heq|Hne];
        destruct (decide (key r ∈ ks)) as [Hin|Hnin];
        destruct (decide (key r ∈ k :: ks)) as [Hin'|Hnin'];
        rewrite ?fmap_cons, ?sum_decimal_cons, <- ?IHr;
        try (exfalso; rewrite ?elem_of_cons in *; subst; tauto);
        try ring.
Qed.

Lemma filter_all {A} (P : A → Prop) `{∀ x, Decision (P x)} (l : list A) :
  Forall P l → filter P l = l.
Proof.
  induction 1 as [|x l Hx _ IH]; [done|].
  by rewrite filter_cons_True, IH.
Qed.

Lemma sum_group_by {A K} `{EqDecision K} (key : A → K) (f : A → decimal)
    (rows : list A) :
  sum_decimal ((λ g, sum_decimal (f <$> g.2)) <$> group_by key rows)
  = sum_decimal (f <$> rows).
Proof.
  unfold group_by. rewrite <- list_fmap_compose.
  etrans; [apply (sum_by_groups key f), NoDup_distinct|].
  rewrite filter_all; [done|].
  apply Forall_forall. intros r Hr.
  apply elem_of_distinct, list_elem_of_fmap. eauto.
Qed.

Lemma group_by_keys {A K} `{EqDecision K} (key : A → K) (rows : list A) :
  (group_by key rows).*1 = distinct (key <$> rows).
Proof.
  unfold group_by. rewrite <- list_fmap_compose. apply list_fmap_id.
Qed.

Lemma or_0_sql_sum l : or_0 (sql_sum l) = sum_decimal l.
Proof. by destruct l. Qed.

Lemma order_by_Permutation {A K} (key : A → K) (R : relation K) `{!RelDecision R}
    (rows : list A) :
  order_by key R rows ≡ₚ rows.
Proof. unfold order_by. apply merge_sort_Permutation. Qed.

(** *** Dicts *)

Lemma dict_set_fresh {K V} `{EqDecision K} (k : K) (v : V) (d : pydict K V) :
  k ∉ d.*1 → dict_set k v d = d ++ [(k, v)].
Proof.
  induction d as [|[k' v'] d IH]; simpl; [done|].
  rewrite not_elem_of_cons. intros [Hne Hnin].
  rewrite decide_False by done. by rewrite IH.
Qed.

Lemma dict_comprehension_snoc {A K V} `{EqDecision K}
    (key : A → K) (val : A → V) (rows : list A) (row : A) :
  dict_comprehension key val (rows ++ [row])
  = dict_set (key row) (val row) (dict_comprehension key val rows).
Proof. unfold dict_comprehension. by rewrite foldl_app. Qed.

(** A comprehension over rows with distinct keys lists the rows in order. *)
Lemma dict_comprehension_NoDup {A K V} `{EqDecision K}
    (key : A → K) (val : A → V) (rows : list A) :
  NoDup (key <$> rows) →
  dict_comprehension key val rows = (λ row, (key row, val row)) <$> rows.
Proof.
  induction rows as [|row rows IH] using rev_ind; [done|].
  rewrite fmap_app, NoDup_app. intros (Hnd & Hfresh & _).
  rewrite dict_comprehension_snoc, IH by done.
  rewrite dict_set_fresh, fmap_app; [done|].
  rewrite <- list_fmap_compose. intros Hin.
  apply (Hfresh (key row)); [done|]. apply list_elem_of_singleton. done.
Qed.

(** ** Budget utilization (C1) *)

Lemma decimal_truediv_nonzero a b :
  b ≠ 0%Qc → decimal_truediv a b = Ok (round_ctx (a / b)%Qc).
Proof. intros Hb. unfold decimal_truediv. by rewrite decide_False. Qed.



Example budget_used_percent_125 :
  Dashboard.budget_used_percent (dec 5000 100) (dec 4000 100) = Ok (dec 125 1).
Proof. decimal_eq. Qed.

Example budget_used_percent_third :
  Dashboard.budget_used_percent (dec 1 1) (dec 3 1)
  = Ok (dec 3333333333333333333333333333 100000000000000000000000000).
Proof. decimal_eq. Qed.

(** ** Monthly spend total and category breakdown (C2, C3) *)


(** Adding one expense to the table moves the total by its amount when it
    passes the owner and month-number tests, and not at all otherwise. *)
Lemma total_spent_this_month_insert (user_id : Z) (today : date) (db : database)
    (e : Expense.row) :
  Dashboard.total_spent_this_month
    (select_month_total user_id today (with_expenses (expenses db ++ [e]) db))
  = (Dashboard.total_spent_this_month (select_month_total user_id today db)
     + (if decide (in_current_month user_id today e) then Expense.amount e else 0))%Qc.
Proof.
  unfold Dashboard.total_spent_this_month, select_month_total.
  rewrite !or_0_sql_sum. simpl.
  rewrite filter_app, fmap_app, sum_decimal_app. f_equal.
  rewrite filter_cons, filter_nil.
  destruct (decide _); simpl; ring.
Qed.

(** On 2024-03-31: an expense of 2024-03-01 counts, one of 2024-02-29 (31
    days back) does not, one of 2023-03-15 (a year back, same month number)
    counts, and so does one dated 2024-03-31 of another year to come. *)
Example total_spent_this_month_by_month_number :
  Dashboard.total_spent_this_month
    (select_month_total 1 (days_from_civil 2024 3 31)
       (with_expenses
          [example_expense 1 1 10 "Food" 2024 3 1;
           example_expense 2 1 200 "Food" 2024 2 29;
           example_expense 3 1 3000 "Rent" 2023 3 15;
           example_expense 4 2 40000 "Food" 2024 3 2;
           example_expense 5 1 500000 "Food" 2025 3 31]
          empty_database))
  = dec 503010 1.
Proof. decimal_eq. Qed.

Lemma group_total_snd {K} (gs : list (K * list Expense.row)) :
  (group_total <$> gs).*2 = (λ g, sum_decimal (Expense.amount <$> g.2)) <$> gs.
Proof. unfold group_total. by rewrite <- list_fmap_compose. Qed.

Lemma group_total_fst {K} (gs : list (K * list Expense.row)) :
  (group_total <$> gs).*1 = gs.*1.
Proof. unfold group_total. by rewrite <- list_fmap_compose. Qed.

Lemma select_month_by_category_keys user_id today db :
  (select_month_by_category user_id today db).*1
  = distinct (Expense.category <$>
                filter (in_current_month user_id today) (expenses db)).
Proof.
  unfold select_month_by_category. by rewrite group_total_fst, group_by_keys.
Qed.

Lemma select_month_by_category_NoDup user_id today db :
  NoDup (select_month_by_category user_id today db).*1.
Proof. rewrite select_month_by_category_keys. apply NoDup_distinct. Qed.

Lemma select_month_by_category_sum user_id today db :
  sum_decimal (select_month_by_category user_id today db).*2
  = sum_decimal (Expense.amount <$>
                   filter (in_current_month user_id today) (expenses db)).
Proof.
  unfold select_month_by_category.
  by rewrite group_total_snd, sum_group_by.
Qed.


(** ** Dict lookups *)

Lemma dict_get_set {K V} `{EqDecision K} (k k' : K) (v : V) (d : pydict K V) :
  dict_get k (dict_set k' v d)
  = if decide (k' = k) then Some v else dict_get k d.
Proof.
  induction d as [|[k0 v0] d IH]; simpl.
  - by destruct (decide (k' = k)).
  - destruct (decide (k0 = k')) as [->|Hne]; simpl.
    + by destruct (decide (k' = k)).
    + destruct (decide (k0 = k)) as [->|Hne'].
      * by rewrite decide_False by congruence.
      * apply IH.
Qed.

Lemma dict_keys_set {K V} `{EqDecision K} (k k' : K) (v : V) (d : pydict K V) :
  k ∈ dict_keys (dict_set k' v d) ↔ k = k' ∨ k ∈ dict_keys d.
Proof.
  unfold dict_keys. induction d as [|[k0 v0] d IH]; simpl.
  - rewrite list_elem_of_singleton, elem_of_nil. tauto.
  - destruct (decide (k0 = k')) as [->|Hne]; simpl.
    + rewrite !elem_of_cons. tauto.
    + rewrite !elem_of_cons, IH. tauto.
Qed.

(** In a comprehension the last row with a key gives the key's value. *)
Lemma dict_get_comprehension {A K V} `{EqDecision K}
    (key : A → K) (val : A → V) (rows : list A) (k : K) :
  dict_get k (dict_comprehension key val rows)
  = val <$> last (filter (λ row, key row = k) rows).
Proof.
  induction rows as [|row rows IH] using rev_ind; [done|].
  rewrite dict_comprehension_snoc, dict_get_set, filter_app, IH.
  rewrite filter_cons, filter_nil.
  destruct (decide (key row = k)).
  - by rewrite last_snoc.
  - by rewrite app_nil_r.
Qed.

Lemma dict_keys_comprehension {A K V} `{EqDecision K}
    (key : A → K) (val : A → V) (rows : list A) (k : K) :
  k ∈ dict_keys (dict_comprehension key val rows) ↔ k ∈ key <$> rows.
Proof.
  induction rows as [|row rows IH] using rev_ind.
  - unfold dict_keys. simpl. by rewrite !elem_of_nil.
  - rewrite dict_comprehension_snoc, dict_keys_set, IH, fmap_app, elem_of_app.
    simpl. rewrite list_elem_of_singleton. tauto.
Qed.

(** ** [sorted] *)

Lemma sorted_Permutation (s : gset string) : sorted s ≡ₚ elements s.
Proof. apply merge_sort_Permutation. Qed.

Lemma elem_of_sorted (s : gset string) (x : string) : x ∈ sorted s ↔ x ∈ s.
Proof. by rewrite sorted_Permutation, elem_of_elements. Qed.

Lemma NoDup_sorted (s : gset string) : NoDup (sorted s).
Proof. rewrite sorted_Permutation. apply NoDup_elements. Qed.

Lemma StronglySorted_sorted (s : gset string) : StronglySorted String.le (sorted s).
Proof. apply StronglySorted_merge_sort; apply _. Qed.

(** ** Budget vs actual (C5) *)

(** The row of a category among the grouped rows. *)
Lemma filter_group_rows {K B} `{EqDecision K} (g : K → B) (ks : list K) (c : K) :
  NoDup ks →
  filter (λ row : K * B, row.1 = c) ((λ k, (k, g k)) <$> ks)
  = if decide (c ∈ ks) then [(c, g c)] else [].
Proof.
  induction 1 as [|k ks Hk Hnd IH]; [done|].
  rewrite fmap_cons, filter_cons, IH. simpl.
  destruct (decide (k = c)) as [->|Hne].
  - rewrite decide_False by done.
    by rewrite decide_True by (apply elem_of_cons; by left).
  - destruct (decide (c ∈ ks)).
    + by rewrite decide_True by (apply elem_of_cons; by right).
    + rewrite decide_False; [done|].
      rewrite elem_of_cons. intros [?|?]; congruence.
Qed.

Lemma select_month_by_category_unfold user_id today db :
  select_month_by_category user_id today db
  = let rows := filter (in_current_month user_id today) (expenses db) in
    (λ k, (k, sum_decimal
                (Expense.amount <$> filter (λ r, Expense.category r = k) rows)))
      <$> distinct (Expense.category <$> rows).
Proof.
  unfold select_month_by_category, group_by, group_total.
  by rewrite <- list_fmap_compose.
Qed.

Lemma select_month_by_category_row user_id today db (c : string) :
  filter (λ row : string * decimal, row.1 = c)
    (select_month_by_category user_id today db)
  = let es := filter (λ e, Expense.category e = c)
                (filter (in_current_month user_id today) (expenses db)) in
    match es with
    | [] => []
    | _ => [(c, sum_decimal (Expense.amount <$> es))]
    end.
Proof.
  rewrite select_month_by_category_unfold.
  set (rows := filter (in_current_month user_id today) (expenses db)).
  cbv zeta.
  rewrite (filter_group_rows
             (λ k, sum_decimal (Expense.amount <$> filter (λ r, Expense.category r = k) rows)))
    by apply NoDup_distinct. destruct (decide (c ∈ distinct (Expense.category <$> rows))) as [Hin|Hnin].
  - destruct (filter _ rows) as [|e es] eqn:Hf; [|done].
    exfalso. apply elem_of_distinct, list_elem_of_fmap in Hin as (e & -> & He).
    assert (e ∈ filter (λ e0, Expense.category e0 = Expense.category e) rows)
      as Hin by (by apply list_elem_of_filter).
    rewrite Hf in Hin. by apply elem_of_nil in Hin.
  - destruct (filter _ rows) as [|e es] eqn:Hf; [done|].
    exfalso. apply Hnin, elem_of_distinct, list_elem_of_fmap.
    assert (e ∈ filter (λ r, Expense.category r = c) rows) as Hin
      by (rewrite Hf; apply elem_of_cons; by left).
    apply list_elem_of_filter in Hin as [<- ?]. eauto.
Qed.

Lemma filter_fmap {A B} (f : A → B) (P : B → Prop) `{∀ y, Decision (P y)}
    (l : list A) :
  filter P (f <$> l) = f <$> filter (λ x, P (f x)) l.
Proof.
  induction l as [|x l IH]; [done|].
  rewrite fmap_cons, !filter_cons, IH. by destruct (decide (P (f x))).
Qed.

Lemma select_category_budgets_row user_id db (c : string) :
  last (filter (λ row : string * decimal, row.1 = c)
          (select_category_budgets user_id db))
  = (λ r, (CategoryBudget.category_name r, CategoryBudget.amount r)) <$>
      last (filter (λ r, CategoryBudget.category_name r = c)
              (filter (λ r, CategoryBudget.user_id r = user_id)
                 (category_budgets db))).
Proof.
  unfold select_category_budgets. by rewrite filter_fmap, fmap_last.
Qed.

Lemma filter_nonempty_elem_of {A} (P : A → Prop) `{∀ x, Decision (P x)}
    (l : list A) :
  filter P l ≠ [] ↔ ∃ x, x ∈ l ∧ P x.
Proof.
  split.
  - destruct (filter P l) as [|x l'] eqn:Hf; [done|]. intros _.
    assert (x ∈ filter P l) as Hin by (rewrite Hf; apply elem_of_cons; by left).
    apply list_elem_of_filter in Hin as [? ?]. eauto.
  - intros (x & Hx & HP) Hf.
    assert (x ∈ filter P l) as Hin by (by apply list_elem_of_filter).
    rewrite Hf in Hin. by apply elem_of_nil in Hin.
Qed.

(** C5: the labels are the sorted union, without repetition, of the
    categories that have a budget row of the user or an expense of the user
    in the current month; position by position, [budgeted] is the float of
    the category's budgeted amount (of its last row, should it have several)
    or the integer 0, and [actual] the float of the category's current-month
    spend or the integer 0. *)
Theorem budget_vs_actual_spec `{Runtime} (user_id : Z) (today : date)
    (db : database) :
  let budgets_of c :=
    filter (λ r, CategoryBudget.category_name r = c)
      (filter (λ r, CategoryBudget.user_id r = user_id) (category_budgets db)) in
  let spending_of c :=
    filter (λ e, Expense.category e = c)
      (filter (in_current_month user_id today) (expenses db)) in
  let bva :=
    Report.budget_vs_actual
      (Report.actual_spending (select_month_by_category user_id today db))
      (Report.budgeted_amounts (select_category_budgets user_id db)) in
  StronglySorted String.le (Report.bva_labels bva) ∧
  NoDup (Report.bva_labels bva) ∧
  (∀ c, c ∈ Report.bva_labels bva ↔ budgets_of c ≠ [] ∨ spending_of c ≠ []) ∧
  length (Report.bva_budgeted bva) = length (Report.bva_labels bva) ∧
  length (Report.bva_actual bva) = length (Report.bva_labels bva) ∧
  (∀ i c, Report.bva_labels bva !! i = Some c →
     Report.bva_budgeted bva !! i
     = Some (match last (budgets_of c) with
             | Some r => Flt (float (CategoryBudget.amount r))
             | None => Int 0
             end) ∧
     Report.bva_actual bva !! i
     = Some (match spending_of c with
             | [] => Int 0
             | es => Flt (float (sum_decimal (Expense.amount <$> es)))
             end)).
Proof.
  intros budgets_of spending_of bva.
  unfold bva, Report.budget_vs_actual, Report.all_budget_cats. simpl.
  split; [apply StronglySorted_sorted|].
  split; [apply NoDup_sorted|].
  split; [|split; [by rewrite length_fmap|split; [by rewrite length_fmap|]]].
  - intros c. rewrite elem_of_sorted, elem_of_union, !elem_of_list_to_set.
    unfold Report.actual_spending, Report.budgeted_amounts.
    rewrite !dict_keys_comprehension.
    assert (Hb : c ∈ (select_category_budgets user_id db).*1 ↔ budgets_of c ≠ []).
    { unfold budgets_of, select_category_budgets.
      rewrite <- list_fmap_compose, list_elem_of_fmap, filter_nonempty_elem_of.
      split.
      - intros (r & -> & Hr). eauto.
      - intros (r & Hr & <-). eauto. }
    assert (Ha : c ∈ (select_month_by_category user_id today db).*1
                 ↔ spending_of c ≠ []).
    { unfold spending_of.
      rewrite select_month_by_category_keys, elem_of_distinct, list_elem_of_fmap,
        filter_nonempty_elem_of.
      split.
      - intros (e & -> & He). eauto.
      - intros (e & He & <-). eauto. }
    tauto.
  - intros i c Hi. rewrite !list_lookup_fmap, Hi. simpl.
    unfold Report.get_or_0, Report.actual_spending, Report.budgeted_amounts.
    rewrite !dict_get_comprehension.
    rewrite select_category_budgets_row, select_month_by_category_row.
    fold (budgets_of c). fold (spending_of c). cbv zeta.
    split.
    + by destruct (last (budgets_of c)).
    + by destruct (spending_of c).
Qed.

(** ** ORDER BY *)

Section order_by_facts.
Context {A K : Type} (key : A → K) (R : relation K).
Context `{!RelDecision R, !Transitive R, !Total R}.

Lemma StronglySorted_order_by (rows : list A) :
  StronglySorted (λ x y, R (key x) (key y)) (order_by key R rows).
Proof.
  unfold order_by. apply StronglySorted_merge_sort.
  - intros x y z. apply transitivity.
  - intros x y. apply total; apply _.
Qed.

Lemma order_by_keys_sorted (rows : list A) :
  StronglySorted R (key <$> order_by key R rows).
Proof. eapply StronglySorted_fmap; [|apply StronglySorted_order_by]. auto. Qed.

(** Rows with distinct keys have one sorted order. *)
Lemma order_by_unique `{!AntiSymm (=) R} (rows1 rows2 : list A) :
  NoDup (key <$> rows1) → rows1 ≡ₚ rows2 →
  order_by key R rows1 = order_by key R rows2.
Proof.
  intros Hnd Hperm.
  apply (StronglySorted_unique_strong (λ x y, R (key x) (key y)));
    [|apply StronglySorted_order_by..|].
  - intros x1 x2 Hx1 Hx2 H12 H21.
    rewrite order_by_Permutation in Hx1.
    rewrite order_by_Permutation, <- Hperm in Hx2.
    assert (Hk : key x1 = key x2) by (by apply (anti_symm R)).
    apply list_elem_of_lookup in Hx1 as [i1 Hi1].
    apply list_elem_of_lookup in Hx2 as [i2 Hi2].
    assert (i1 = i2) as ->.
    { apply (NoDup_lookup (key <$> rows1) i1 i2 (key x1)); [done|..].
      - by rewrite list_lookup_fmap, Hi1.
      - by rewrite list_lookup_fmap, Hi2, Hk. }
    congruence.
  - by rewrite !order_by_Permutation.
Qed.
End order_by_facts.

Lemma StronglySorted_reverse {A} (R : relation A) (l : list A) :
  StronglySorted (flip R) l → StronglySorted R (reverse l).
Proof.
  induction 1 as [|x l Hl IH Hx]; [constructor|].
  rewrite reverse_cons. apply StronglySorted_app_2; [|done|repeat constructor].
  intros x1 x2 Hx1 ->%list_elem_of_singleton.
  rewrite Forall_forall in Hx. apply Hx. by apply elem_of_reverse.
Qed.

Lemma StronglySorted_take {A} (R : relation A) (n : nat) (l : list A) :
  StronglySorted R l → StronglySorted R (take n l).
Proof.
  intros Hl. rewrite <- (take_drop n l) in Hl.
  by apply StronglySorted_app_1_l in Hl.
Qed.

Lemma NoDup_take {A} (n : nat) (l : list A) : NoDup l → NoDup (take n l).
Proof.
  intros Hl. rewrite <- (take_drop n l) in Hl.
  by apply NoDup_app in Hl as (? & _ & _).
Qed.

Lemma NoDup_reverse {A} (l : list A) : NoDup l → NoDup (reverse l).
Proof. intros Hl. by rewrite reverse_Permutation. Qed.

(** ** GROUP BY under a reordering of the table *)

Lemma distinct_Permutation {A} `{EqDecision A} (l1 l2 : list A) :
  l1 ≡ₚ l2 → distinct l1 ≡ₚ distinct l2.
Proof.
  intros Hperm. apply NoDup_Permutation; [apply NoDup_distinct..|].
  intros x. by rewrite !elem_of_distinct, Hperm.
Qed.

Lemma group_total_Permutation {K} `{EqDecision K} (key : Expense.row → K)
    (rows1 rows2 : list Expense.row) :
  rows1 ≡ₚ rows2 →
  group_total <$> group_by key rows1 ≡ₚ group_total <$> group_by key rows2.
Proof.
  intros Hperm. unfold group_by. rewrite <- !list_fmap_compose.
  etrans.
  - apply fmap_Permutation, distinct_Permutation, fmap_Permutation, Hperm.
  - apply reflexive_eq, list_fmap_ext. intros _ k _.
    unfold group_total. simpl. f_equal.
    apply sum_decimal_Permutation, fmap_Permutation. by rewrite Hperm.
Qed.

(** ** The text order of ['YYYY-MM'] keys *)

Lemma date_part_month_range (d : date) : 1 ≤ date_part_month d ≤ 12.
Proof.
  unfold date_part_month, civil_from_days. cbv zeta. simpl fst. simpl snd.
  set (doe := (d + 719468) mod 146097).
  assert (0 ≤ doe < 146097) by (apply Z.mod_pos_bound; lia).
  set (yoe := (doe - doe / 1460 + doe / 36524 - doe / 146096) / 365).
  set (doy := doe - (365 * yoe + yoe / 4 - yoe / 100)).
  assert (0 ≤ doy ≤ 365).
  { unfold doy, yoe. Z.div_mod_to_equations. lia. }
  destruct ((5 * doy + 2) / 153 <? 10) eqn:E.
  - apply Z.ltb_lt in E. Z.div_mod_to_equations. lia.
  - apply Z.ltb_ge in E. Z.div_mod_to_equations. lia.
Qed.

Lemma digit_char_compare (x y : Z) :
  0 ≤ x ≤ 9 → 0 ≤ y ≤ 9 →
  Ascii.compare (digit_char x) (digit_char y) = (x ?= y).
Proof.
  intros Hx Hy. unfold Ascii.compare, digit_char.
  rewrite !N_ascii_embedding by lia.
  rewrite <- (N2Z.inj_compare (48 + Z.to_N x) (48 + Z.to_N y)).
  rewrite !N2Z.inj_add, !Z2N.id by lia.
  apply Z.add_compare_mono_l.
Qed.

(** Numerals of the same width compare as the numbers they write. *)
Lemma fixed_digits_compare (w : nat) (a b : Z) (s t : string) :
  0 ≤ a < 10 ^ Z.of_nat w → 0 ≤ b < 10 ^ Z.of_nat w →
  String.compare (fixed_digits w a s) (fixed_digits w b t)
  = match a ?= b with
    | Eq => String.compare s t
    | c => c
    end.
Proof.
  revert a b s t. induction w as [|w IH]; intros a b s t Ha Hb.
  - simpl in *. assert (a = 0) as -> by lia. by assert (b = 0) as -> by lia.
  - rewrite Nat2Z.inj_succ, Z.pow_succ_r in Ha, Hb by lia.
    assert (Ha' := Z.div_mod a 10 ltac:(lia)).
    assert (Hb' := Z.div_mod b 10 ltac:(lia)).
    assert (Ha'' := Z.mod_pos_bound a 10 ltac:(lia)).
    assert (Hb'' := Z.mod_pos_bound b 10 ltac:(lia)).
    simpl. rewrite IH by (split; [apply Z.div_pos|apply Z.div_lt_upper_bound]; lia).
    simpl. rewrite digit_char_compare by lia.
    destruct (Z.compare_spec (a / 10) (b / 10));
      destruct (Z.compare_spec (a mod 10) (b mod 10));
      destruct (Z.compare_spec a b); try done; lia.
Qed.

Lemma fixed_digits_app (w : nat) (n : Z) (acc s : string) :
  fixed_digits w n acc +:+ s = fixed_digits w n (acc +:+ s).
Proof. revert n acc. induction w as [|w IH]; intros n acc; [done|]. simpl. by rewrite IH. Qed.

Lemma ndigits_aux_bound (fuel : nat) (n : Z) (k : nat) :
  (1 ≤ k)%nat → 0 ≤ n < 10 ^ Z.of_nat k → 1 ≤ ndigits_aux fuel n ≤ Z.of_nat k.
Proof.
  revert n k. induction fuel as [|fuel IH]; intros n k Hk Hn; simpl; [lia|].
  destruct (n <? 10) eqn:E; [lia|]. apply Z.ltb_ge in E.
  destruct k as [|[|k]]; [lia|simpl in Hn; lia|].
  rewrite (Nat2Z.inj_succ (S k)), Z.pow_succ_r in Hn by lia.
  specialize (IH (n / 10) (S k) ltac:(lia)).
  assert (0 ≤ n / 10 < 10 ^ Z.of_nat (S k)).
  { split; [apply Z.div_pos|apply Z.div_lt_upper_bound]; lia. }
  lia.
Qed.

Lemma zero_padded_fixed (w : nat) (n : Z) :
  (1 ≤ w)%nat → 0 ≤ n < 10 ^ Z.of_nat w → zero_padded w n = fixed_digits w n "".
Proof.
  intros Hw Hn. unfold zero_padded, ndigits.
  pose proof (ndigits_aux_bound (Z.to_nat (Z.log2 n)) n w Hw Hn).
  by rewrite Nat.max_l by lia.
Qed.

Lemma to_char_YYYY_MM_fixed (d : date) :
  1 ≤ year_of d ≤ 9999 →
  to_char_YYYY_MM d
  = fixed_digits 4 (year_of d) ("-" +:+ fixed_digits 2 (date_part_month d) "").
Proof.
  intros Hy. unfold to_char_YYYY_MM.
  pose proof (date_part_month_range d).
  rewrite (proj2 (Z.leb_gt _ _)) by lia.
  rewrite !zero_padded_fixed by (simpl; lia).
  by rewrite fixed_digits_app.
Qed.

(** For dates of the years 1 to 9999 the keys sort as the months do. *)
Lemma to_char_YYYY_MM_le (d1 d2 : date) :
  1 ≤ year_of d1 ≤ 9999 → 1 ≤ year_of d2 ≤ 9999 →
  String.le (to_char_YYYY_MM d1) (to_char_YYYY_MM d2) ↔ year_month_le d1 d2.
Proof.
  intros H1 H2. rewrite !to_char_YYYY_MM_fixed by done.
  pose proof (date_part_month_range d1). pose proof (date_part_month_range d2).
  unfold String.le, String.leb, year_month_le.
  rewrite fixed_digits_compare by (simpl; lia).
  change (String.compare ("-" +:+ ?s) ("-" +:+ ?t)) with (String.compare s t).
  rewrite fixed_digits_compare by (simpl; lia). simpl.
  destruct (Z.compare_spec (year_of d1) (year_of d2));
    destruct (Z.compare_spec (date_part_month d1) (date_part_month d2));
    simpl; split; try done; try lia; intros _; lia.
Qed.

(** Beyond year 9999 the key has five digits and the text order is no longer
    that of the calendar. *)
Example to_char_YYYY_MM_year_10000 :
  to_char_YYYY_MM (days_from_civil 10000 1 1) = "10000-01" ∧
  to_char_YYYY_MM (days_from_civil 9999 12 31) = "9999-12" ∧
  String.le "10000-01" "9999-12".
Proof. by vm_compute. Qed.

(** ** Multi-month series (C4) *)

Lemma flip_le_anti_symm : AntiSymm (=) (flip String.le).
Proof. intros x y Hxy Hyx. by apply (anti_symm String.le). Qed.

Lemma flip_le_total : Total (flip String.le).
Proof. intros x y. unfold flip. apply (total String.le). Qed.

Lemma month_rows_keys user_id db :
  (month_rows user_id db).*1
  = distinct ((λ e, to_char_YYYY_MM (Expense.expense_date e)) <$>
                filter (λ e, Expense.user_id e = user_id) (expenses db)).
Proof. unfold month_rows. by rewrite group_total_fst, group_by_keys. Qed.

Lemma month_rows_elem_of user_id db (k : string) (v : decimal) :
  (k, v) ∈ month_rows user_id db →
  let mine := filter (λ e, Expense.user_id e = user_id) (expenses db) in
  (∃ e, e ∈ mine ∧ to_char_YYYY_MM (Expense.expense_date e) = k) ∧
  v = sum_decimal
        (Expense.amount <$>
           filter (λ e, to_char_YYYY_MM (Expense.expense_date e) = k) mine).
Proof.
  unfold month_rows, group_by, group_total. rewrite <- list_fmap_compose.
  intros (k' & [= -> ->] & Hk)%list_elem_of_fmap. simpl. split; [|done].
  apply elem_of_distinct, list_elem_of_fmap in Hk as (e & -> & He). eauto.
Qed.

Lemma select_expenses_by_month_unfold user_id db :
  select_expenses_by_month user_id db
  = take 6 (order_by fst (flip String.le) (month_rows user_id db)).
Proof. reflexivity. Qed.


(** The months entered as March, January, February come out as January,
    February, March. *)
Example expenses_by_month_any_order :
  @Report.expenses_by_month reference_runtime
    (select_expenses_by_month 1 months_database)
  = [("2024-01", dec 100 1); ("2024-02", dec 50 1); ("2024-03", dec 0 1)].
Proof. decimal_eq. Qed.

(** ** Rules of the program logic *)

Lemma hoare_ret {A} (P : world → Prop) (a : A) Q E :
  (∀ w, P w → Q a w) → hoare P (mret a) Q E.
Proof. intros HQ w Hw. by apply HQ. Qed.

Lemma hoare_bind {A B} (P : world → Prop) (m : M A) (f : A → M B) Q R E :
  hoare P m Q E → (∀ a, hoare (Q a) (f a) R E) → hoare P (m ≫= f) R E.
Proof.
  intros Hm Hf w Hw. specialize (Hm w Hw).
  unfold mbind, M_bind. destruct (m w) as [[a|e] w']; [|done].
  by apply Hf.
Qed.

Lemma hoare_fmap {A B} (P : world → Prop) (m : M A) (f : A → B) Q E :
  hoare P m (λ a, Q (f a)) E → hoare P (f <$> m) Q E.
Proof.
  intros Hm w Hw. specialize (Hm w Hw).
  unfold fmap, M_fmap. by destruct (m w) as [[a|e] w'].
Qed.

Lemma hoare_conseq {A} (P P' : world → Prop) (m : M A) (Q Q' : A → world → Prop)
    (E E' : exn → world → Prop) :
  hoare P' m Q' E' →
  (∀ w, P w → P' w) → (∀ a w, Q' a w → Q a w) → (∀ e w, E' e w → E e w) →
  hoare P m Q E.
Proof.
  intros Hm HP HQ HE w Hw. specialize (Hm w (HP w Hw)).
  destruct (m w) as [[a|e] w']; auto.
Qed.

Lemma hoare_raise {A} (P : world → Prop) (e : exn) (Q : A → world → Prop) E :
  (∀ w, P w → E e w) → hoare P (raise e) Q E.
Proof. intros HE w Hw. by apply HE. Qed.

Lemma hoare_lift {A} (P : world → Prop) (o : outcome A) (E : exn → world → Prop) :
  (∀ e w, P w → E e w) → hoare P (lift o) (λ _, P) E.
Proof. intros HE w Hw. unfold lift. destruct o as [a|e]; [done|by apply HE]. Qed.

Lemma hoare_gets {A} (P : world → Prop) (f : world → A) E :
  hoare P (gets f) (λ _, P) E.
Proof. by intros w Hw. Qed.

Lemma hoare_for_each {A} (I : world → Prop) (l : list A) (body : A → M unit) E :
  (∀ x, hoare I (body x) (λ _, I) E) → hoare I (for_each l body) (λ _, I) E.
Proof.
  intros Hbody. induction l as [|x l IH]; simpl.
  - by apply hoare_ret.
  - eapply hoare_bind; [apply Hbody|]. intros u. apply IH.
Qed.

(** *** Steps that leave the connections and the store alone *)

Lemma hoare_quiet {A} (P : world → Prop) (m : M A) (E : exn → world → Prop) :
  quiet m → stable P → (∀ e w, P w → E e w) → hoare P m (λ _, P) E.
Proof.
  intros Hm HP HE w Hw. destruct (Hm w) as [Hc Hs].
  destruct (m w) as [[a|e] w']; simpl in *; eauto.
Qed.

Lemma quiet_ret {A} (a : A) : quiet (mret a).
Proof. by intros w. Qed.

Lemma quiet_bind {A B} (m : M A) (f : A → M B) :
  quiet m → (∀ a, quiet (f a)) → quiet (m ≫= f).
Proof.
  intros Hm Hf w. destruct (Hm w) as [Hc Hs].
  unfold mbind, M_bind. destruct (m w) as [[a|e] w']; simpl in *; [|done].
  destruct (Hf a w') as [Hc' Hs']. split; congruence.
Qed.

Lemma quiet_fmap {A B} (f : A → B) (m : M A) : quiet m → quiet (f <$> m).
Proof.
  intros Hm w. destruct (Hm w) as [Hc Hs].
  unfold fmap, M_fmap. by destruct (m w) as [[a|e] w'].
Qed.

Lemma quiet_raise {A} (e : exn) : quiet (@raise A e).
Proof. by intros w. Qed.

Lemma quiet_lift {A} (o : outcome A) : quiet (lift o).
Proof. by intros w. Qed.

Lemma quiet_gets {A} (f : world → A) : quiet (gets f).
Proof. by intros w. Qed.

Lemma quiet_modify (f : world → world) :
  (∀ w, conns (f w) = conns w ∧ store (f w) = store w) → quiet (modify f).
Proof. intros Hf w. apply Hf. Qed.

Lemma quiet_for_each {A} (l : list A) (body : A → M unit) :
  (∀ x, quiet (body x)) → quiet (for_each l body).
Proof.
  intros Hbody. induction l as [|x l IH]; simpl.
  - apply quiet_ret.
  - apply quiet_bind; [apply Hbody|]. intros _. apply IH.
Qed.

Lemma quiet_round_trip : quiet round_trip.
Proof. intros w. unfold round_trip. by destruct (faults w) as [[|n]|]. Qed.

Lemma quiet_view cur : quiet (view cur).
Proof.
  apply quiet_bind; [apply quiet_gets|]. intros cs.
  destruct (cs !! cur); [apply quiet_ret|apply quiet_raise].
Qed.

Lemma quiet_query {A} cur (q : date → database → A) : quiet (query cur q).
Proof.
  repeat (apply quiet_bind; [first [apply quiet_round_trip|apply quiet_view|apply quiet_gets]|intros ?]).
  apply quiet_ret.
Qed.

Lemma quiet_nextval s : quiet (nextval s).
Proof.
  apply quiet_bind; [apply quiet_gets|]. intros v.
  apply quiet_bind; [by apply quiet_modify|]. intros _. apply quiet_ret.
Qed.

Lemma quiet_flash `{Runtime} message category : quiet (flash message category).
Proof. by apply quiet_modify. Qed.

Lemma quiet_redirect `{Runtime} endpoint : quiet (redirect endpoint).
Proof. apply quiet_ret. Qed.

Lemma quiet_session_user_id `{Runtime} : quiet session_user_id.
Proof.
  apply quiet_bind; [apply quiet_gets|]. intros [u|]; [apply quiet_ret|apply quiet_raise].
Qed.

Lemma quiet_cursor conn : quiet (cursor conn).
Proof. apply quiet_ret. Qed.

Lemma quiet_cursor_close cur : quiet (cursor_close cur).
Proof. apply quiet_ret. Qed.

(** *** What the five connection operations do to the connections and the
    store, whether they return or raise *)

Lemma get_db_connection_effect (w : world) :
  match get_db_connection w with
  | (Ok conn, w') =>
      conns w !! conn = None ∧ conns w' = <[conn := store w]> (conns w) ∧
      store w' = store w
  | (Raise _, w') => conns w' = conns w ∧ store w' = store w
  end.
Proof.
  unfold get_db_connection, mbind, M_bind, round_trip.
  destruct (faults w) as [[|n]|]; simpl; try done.
  - split; [|done]. apply not_elem_of_dom, is_fresh.
  - split; [|done]. apply not_elem_of_dom, is_fresh.
Qed.

Lemma execute_effect cur stmt (w : world) :
  match execute cur stmt w with
  | (Ok _, w') =>
      (∃ db db', conns w !! cur = Some db ∧
                 stmt (current_date w) db = Ok db' ∧
                 conns w' = <[cur := db']> (conns w)) ∧
      store w' = store w
  | (Raise _, w') => conns w' = conns w ∧ store w' = store w
  end.
Proof.
  unfold execute, view, mbind, M_bind, round_trip, gets, lift, modify.
  destruct (faults w) as [[|n]|]; simpl; try done.
  - destruct (conns w !! cur) as [db|] eqn:Hc; simpl; [|done].
    destruct (stmt _ db) as [db'|e] eqn:Hs; simpl; [|done].
    split; [|done]. eauto.
  - destruct (conns w !! cur) as [db|] eqn:Hc; simpl; [|done].
    destruct (stmt _ db) as [db'|e] eqn:Hs; simpl; [|done].
    split; [|done]. eauto.
Qed.

Lemma execute_insert_effect cur s stmt (w : world) :
  match execute_insert cur s stmt w with
  | (Ok id, w') =>
      (∃ db db', conns w !! cur = Some db ∧
                 stmt id (current_date w) db = Ok db' ∧
                 conns w' = <[cur := db']> (conns w)) ∧
      store w' = store w
  | (Raise _, w') => conns w' = conns w ∧ store w' = store w
  end.
Proof.
  unfold execute_insert, nextval, view, mbind, M_bind, round_trip, gets, lift, modify.
  destruct (faults w) as [[|n]|]; simpl; try done.
  - destruct (conns w !! cur) as [db|] eqn:Hc; simpl; [|done].
    destruct (stmt _ _ db) as [db'|e] eqn:Hs; simpl; [|done].
    split; [|done]. eauto.
  - destruct (conns w !! cur) as [db|] eqn:Hc; simpl; [|done].
    destruct (stmt _ _ db) as [db'|e] eqn:Hs; simpl; [|done].
    split; [|done]. eauto.
Qed.

Lemma commit_effect conn (w : world) :
  match commit conn w with
  | (Ok _, w') => conns w' = conns w ∧ conns w !! conn = Some (store w')
  | (Raise _, w') => conns w' = conns w ∧ store w' = store w
  end.
Proof.
  unfold commit, view, mbind, M_bind, round_trip, gets, modify.
  destruct (faults w) as [[|n]|]; simpl; try done.
  - by destruct (conns w !! conn) as [db|] eqn:Hc.
  - by destruct (conns w !! conn) as [db|] eqn:Hc.
Qed.

Lemma close_effect conn (w : world) :
  ∃ w', close conn w = (Ok (), w') ∧
        conns w' = delete conn (conns w) ∧ store w' = store w.
Proof. eexists. by split. Qed.

(** ** Connections are closed on every normal return (C9) *)

Lemma stable_idle C : stable (idle C).
Proof. intros w w' Hc _. unfold idle. congruence. Qed.

Lemma stable_holding C conn : stable (holding C conn).
Proof. intros w w' Hc _ [? [db Hdb]]. split; [done|]. exists db. congruence. Qed.

Lemma hoare_quiet_idle {A} C (m : M A) :
  quiet m → hoare (idle C) m (λ _, idle C) anything.
Proof. intros. by apply hoare_quiet; [|apply stable_idle|]. Qed.

Lemma hoare_quiet_holding {A} C conn (m : M A) :
  quiet m → hoare (holding C conn) m (λ _, holding C conn) anything.
Proof. intros. by apply hoare_quiet; [|apply stable_holding|]. Qed.

Lemma hoare_get_db_connection C :
  hoare (idle C) get_db_connection (λ conn, holding C conn) anything.
Proof.
  intros w Hw. pose proof (get_db_connection_effect w) as He.
  destruct (get_db_connection w) as [[conn|e] w']; [|done].
  destruct He as (Hfresh & Hc & _). unfold idle in Hw. subst C.
  split; [done|]. eauto.
Qed.

Lemma hoare_execute C cur stmt :
  hoare (holding C cur) (execute cur stmt) (λ _, holding C cur) anything.
Proof.
  intros w [HC [db Hw]]. pose proof (execute_effect cur stmt w) as He.
  destruct (execute cur stmt w) as [[[]|e] w']; [|done].
  destruct He as [(db0 & db' & _ & _ & Hc) _].
  split; [done|]. exists db'. by rewrite Hc, Hw, insert_insert_eq.
Qed.

Lemma hoare_execute_insert C cur s stmt :
  hoare (holding C cur) (execute_insert cur s stmt) (λ _, holding C cur) anything.
Proof.
  intros w [HC [db Hw]]. pose proof (execute_insert_effect cur s stmt w) as He.
  destruct (execute_insert cur s stmt w) as [[id|e] w']; [|done].
  destruct He as [(db0 & db' & _ & _ & Hc) _].
  split; [done|]. exists db'. by rewrite Hc, Hw, insert_insert_eq.
Qed.

Lemma hoare_commit C conn :
  hoare (holding C conn) (commit conn) (λ _, holding C conn) anything.
Proof.
  intros w [HC [db Hw]]. pose proof (commit_effect conn w) as He.
  destruct (commit conn w) as [[[]|e] w']; [|done].
  destruct He as [Hc _]. split; [done|]. exists db. congruence.
Qed.

Lemma hoare_close C conn :
  hoare (holding C conn) (close conn) (λ _, idle C) anything.
Proof.
  intros w [HC [db Hw]].
  destruct (close_effect conn w) as (w' & -> & Hc & _).
  unfold idle. by rewrite Hc, Hw, delete_insert_id.
Qed.

(** The cursor works on its connection. *)
Lemma hoare_cursor {B} (P : world → Prop) conn (f : connection → M B) R E :
  hoare P (f conn) R E → hoare P (cursor conn ≫= f) R E.
Proof. intros Hf w Hw. apply (Hf w Hw). Qed.

Ltac quiet_solve :=
  repeat first
    [ apply quiet_ret | apply quiet_raise | apply quiet_lift | apply quiet_gets
    | apply quiet_round_trip | apply quiet_view | apply quiet_query
    | apply quiet_nextval | apply quiet_flash | apply quiet_redirect
    | apply quiet_session_user_id | apply quiet_cursor | apply quiet_cursor_close
    | apply quiet_fmap
    | apply quiet_modify; intros; split; reflexivity
    | apply quiet_bind; [|intros ?]
    | apply quiet_for_each; intros ?
    | match goal with |- quiet (match ?x with _ => _ end) => destruct x end ].

(** One step of a handler: a connection operation by its rule, a quiet step
    by the frame rule, a block that keeps the current assertion as a whole,
    a branch by cases. *)
Ltac conn_step :=
  lazymatch goal with
  | |- hoare _ (mret _) _ _ => apply hoare_ret; intros; assumption
  | |- hoare _ (raise _) _ _ => by apply hoare_raise
  | |- hoare _ (get_db_connection ≫= _) _ _ =>
      eapply hoare_bind; [apply hoare_get_db_connection|intros ?]
  | |- hoare _ (close _ ≫= _) _ _ =>
      eapply hoare_bind; [apply hoare_close|intros ?]
  | |- hoare _ (cursor _ ≫= _) _ _ => apply hoare_cursor
  | |- hoare ?P (?m ≫= _) _ _ =>
      apply (hoare_bind P m _ (λ _, P)); [solve [repeat conn_step]|intros ?]
  | |- hoare _ (_ <$> _) _ _ => apply hoare_fmap
  | |- hoare _ (match ?x with _ => _ end) _ _ => destruct x
  | |- hoare _ (for_each _ _) _ _ => apply hoare_for_each; intros ?
  | |- hoare _ (execute _ _) _ _ => apply hoare_execute
  | |- hoare _ (execute_insert _ _ _) _ _ => apply hoare_execute_insert
  | |- hoare _ (commit _) _ _ => apply hoare_commit
  | |- hoare (idle _) _ _ _ => apply hoare_quiet_idle; solve [quiet_solve]
  | |- hoare (holding _ _) _ _ _ => apply hoare_quiet_holding; solve [quiet_solve]
  end.

Section connections.
Context `{Runtime}.

Lemma hoare_get_user_data C user_id :
  hoare (idle C) (get_user_data user_id) (λ _, idle C) anything.
Proof. unfold get_user_data. repeat conn_step. Qed.

Lemma hoare_view_function C ep req :
  hoare (idle C) (App.view_function ep req) (λ _, idle C) anything.
Proof.
  destruct ep; simpl;
    unfold App.home, App.signup, App.signin, App.logout, App.income, App.budget,
      App.upload_profile_picture, App.add_goal, App.delete_goal, App.dashboard,
      App.expense, App.expenses_list, App.investments, App.assetdebt,
      App.reports, App.comprehensive_report_api, App.chatbot_page, App.chat_api,
      login_required, render_template, inject_user, get_user_data, redirect;
    cbv zeta; repeat conn_step.
Qed.
End connections.

Theorem connections_closed_on_return `{Runtime} (ep : App.endpoint) (req : request)
    (w w' : world) (r : response) :
  App.dispatch ep req w = (Ok r, w') → conns w' = conns w.
Proof.
  intros Hrun. unfold App.dispatch in Hrun.
  destruct (App.allowed ep (method req)).
  - pose proof (hoare_view_function (conns w) ep req w eq_refl) as Hh.
    rewrite Hrun in Hh. exact Hh.
  - by injection Hrun as _ <-.
Qed.

(** ** A failed request commits nothing (C8) *)

Lemma never_raises_ret {A} (a : A) : never_raises (mret a).
Proof. intros w. by eexists _, _. Qed.

Lemma never_raises_modify f : never_raises (modify f).
Proof. intros w. by eexists _, _. Qed.

Lemma never_raises_bind {A B} (m : M A) (f : A → M B) :
  never_raises m → (∀ a, never_raises (f a)) → never_raises (m ≫= f).
Proof.
  intros Hm Hf w. destruct (Hm w) as (a & w' & Hmw).
  unfold mbind, M_bind. rewrite Hmw. apply Hf.
Qed.

Lemma hoare_never_raises {A} (P : world → Prop) (m : M A)
    (E : exn → world → Prop) :
  never_raises m → hoare P m (λ _ _, True) E.
Proof. intros Hm w _. by destruct (Hm w) as (a & w' & ->). Qed.

Lemma stable_unchanged S : stable (unchanged S).
Proof. intros w w' _ Hs. unfold unchanged. congruence. Qed.

Lemma hoare_quiet_unchanged {A} S (m : M A) :
  quiet m → hoare (unchanged S) m (λ _, unchanged S) (λ _, unchanged S).
Proof. intros. by apply hoare_quiet; [|apply stable_unchanged|]. Qed.

Lemma hoare_get_db_connection_unchanged S :
  hoare (unchanged S) get_db_connection (λ _, unchanged S) (λ _, unchanged S).
Proof.
  intros w Hw. pose proof (get_db_connection_effect w) as He. unfold unchanged in *.
  destruct (get_db_connection w) as [[conn|e] w']; intuition congruence.
Qed.

Lemma hoare_execute_unchanged S cur stmt :
  hoare (unchanged S) (execute cur stmt) (λ _, unchanged S) (λ _, unchanged S).
Proof.
  intros w Hw. pose proof (execute_effect cur stmt w) as He. unfold unchanged in *.
  destruct (execute cur stmt w) as [[[]|e] w']; intuition congruence.
Qed.

Lemma hoare_execute_insert_unchanged S cur s stmt :
  hoare (unchanged S) (execute_insert cur s stmt)
    (λ _, unchanged S) (λ _, unchanged S).
Proof.
  intros w Hw. pose proof (execute_insert_effect cur s stmt w) as He.
  unfold unchanged in *.
  destruct (execute_insert cur s stmt w) as [[id|e] w']; intuition congruence.
Qed.

Lemma hoare_close_unchanged S conn :
  hoare (unchanged S) (close conn) (λ _, unchanged S) (λ _, unchanged S).
Proof.
  intros w Hw. destruct (close_effect conn w) as (w' & -> & _ & Hs).
  unfold unchanged in *. congruence.
Qed.

Lemma hoare_commit_unchanged S conn :
  hoare (unchanged S) (commit conn) (λ _, committed) (λ _, unchanged S).
Proof.
  intros w Hw. pose proof (commit_effect conn w) as He. unfold unchanged in *.
  destruct (commit conn w) as [[[]|e] w']; [done|]. intuition congruence.
Qed.

Ltac never_raises_solve :=
  repeat first
    [ apply never_raises_ret | apply never_raises_modify
    | apply never_raises_bind; [|intros ?] ].

Ltac store_step :=
  lazymatch goal with
  | |- hoare _ (mret _) _ _ => apply hoare_ret; intros; first [assumption|exact I]
  | |- hoare (unchanged _) (raise _) _ _ => by apply hoare_raise
  | |- hoare (unchanged _) (commit _ ≫= _) _ _ =>
      eapply hoare_bind; [apply hoare_commit_unchanged|intros ?; cbv beta]
  | |- hoare committed _ _ _ =>
      apply hoare_never_raises; unfold cursor_close, close, flash, redirect;
      solve [never_raises_solve]
  | |- hoare _ (cursor _ ≫= _) _ _ => apply hoare_cursor
  | |- hoare ?P (?m ≫= _) _ _ =>
      apply (hoare_bind P m _ (λ _, P)); [solve [repeat store_step]|intros ?]
  | |- hoare _ (_ <$> _) _ _ => apply hoare_fmap
  | |- hoare _ (match ?x with _ => _ end) _ _ => destruct x
  | |- hoare _ (for_each _ _) _ _ => apply hoare_for_each; intros ?
  | |- hoare _ get_db_connection _ _ => apply hoare_get_db_connection_unchanged
  | |- hoare _ (execute _ _) _ _ => apply hoare_execute_unchanged
  | |- hoare _ (execute_insert _ _ _) _ _ => apply hoare_execute_insert_unchanged
  | |- hoare _ (close _) _ _ => apply hoare_close_unchanged
  | |- hoare (unchanged _) _ _ _ => apply hoare_quiet_unchanged; solve [quiet_solve]
  end.

Section atomicity.
Context `{Runtime}.

(** Whatever a view function does, if it raises, the store is as it was. *)
Lemma hoare_view_function_atomic S ep req :
  hoare (unchanged S) (App.view_function ep req)
    (λ _ _, True) (λ _, unchanged S).
Proof.
  destruct ep; simpl;
    unfold App.home, App.signup, App.signin, App.logout, App.income, App.budget,
      App.upload_profile_picture, App.add_goal, App.delete_goal, App.dashboard,
      App.expense, App.expenses_list, App.investments, App.assetdebt,
      App.reports, App.comprehensive_report_api, App.chatbot_page, App.chat_api,
      login_required, render_template, inject_user, get_user_data, redirect;
    cbv zeta; repeat store_step.
Qed.
End atomicity.

(** C9, as stated: every exit path of a handler, error paths included,
    leaves no connection of the request open.  Two error paths refute it.
    The dashboard, when the data store fails at its first query, raises with
    its connection still open; and [investments], asked to add an investment
    with no [investment_name] field, raises the key error after it has
    opened its connection. *)
Lemma handlers_leak_connection_on_error :
  (conns (failing_after 1 (signed_in food_database 2024 3 10)) = ∅ ∧
   (run App.DashboardPage get_request
      (failing_after 1 (signed_in food_database 2024 3 10))).1
   = Raise OperationalError ∧
   conns (run App.DashboardPage get_request
            (failing_after 1 (signed_in food_database 2024 3 10))).2
   = {[0%nat := food_database]}) ∧
  (conns (signed_in food_database 2024 3 10) = ∅ ∧
   (run App.Investments (post_request [("action", "add")])
      (signed_in food_database 2024 3 10)).1
   = Raise (BadRequestKeyError "investment_name") ∧
   conns (run App.Investments (post_request [("action", "add")])
            (signed_in food_database 2024 3 10)).2
   = {[0%nat := food_database]}).
Proof. repeat split; vm_compute; reflexivity. Qed.

(** Witness of C9: the dashboard returns, and its connection is closed. *)
Lemma connections_closed_on_return_dashboard :
  returned (@App.dispatch reference_runtime App.DashboardPage get_request
              (signed_in food_database 2024 3 10)) = true ∧
  conns (@App.dispatch reference_runtime App.DashboardPage get_request
           (signed_in food_database 2024 3 10)).2
  = conns (signed_in food_database 2024 3 10).
Proof.
  assert (Hret : returned (@App.dispatch reference_runtime App.DashboardPage
                             get_request (signed_in food_database 2024 3 10))
                 = true) by (vm_compute; reflexivity).
  split; [exact Hret|].
  destruct (@App.dispatch reference_runtime App.DashboardPage get_request
              (signed_in food_database 2024 3 10))
    as [[r|e] w'] eqn:Hrun; [|discriminate Hret].
  exact (@connections_closed_on_return reference_runtime _ _ _ _ _ Hrun).
Defined.

Lemma view_function_atomic `{Runtime} ep req w e w' :
  App.view_function ep req w = (Raise e, w') → store w' = store w.
Proof.
  intros Hrun.
  pose proof (hoare_view_function_atomic (store w) ep req w eq_refl) as Hh.
  by rewrite Hrun in Hh.
Qed.

(** A failure in the middle of the sequence does happen: the amount of the
    second category is not a number, so its INSERT raises after the UPSERT,
    the DELETE and the first INSERT have run.  The transaction of the
    connection has the old rows gone; the store still has them. *)
Example budget_fails_midway :
  (run App.BudgetForm (post_request budget_form)
     (signed_in budgets_database 2024 3 10)).1 = Raise DataError ∧
  category_budgets <$>
    conns (run App.BudgetForm (post_request budget_form)
             (signed_in budgets_database 2024 3 10)).2
  = {[0%nat := [CategoryBudget.Row 1 "Food" (dec 60 1)]]} ∧
  store (run App.BudgetForm (post_request budget_form)
           (signed_in budgets_database 2024 3 10)).2
  = budgets_database.
Proof. repeat split; decimal_eq. Qed.

(** C8, as stated: a failure between the DELETE and the last INSERT can
    leave the user's stored rows partially cleared.  It cannot: whenever
    [budget] or [income] raises, the store is what it was. *)
Lemma delete_then_reinsert_never_partial :
  ¬ ∃ (R : Runtime) (req : request) (w w' : world) (e : exn),
      (@App.budget R req w = (Raise e, w') ∨ @App.income R req w = (Raise e, w')) ∧
      store w' ≠ store w.
Proof.
  intros (R & req & w & w' & e & [Hrun|Hrun] & Hne); apply Hne.
  - exact (@view_function_atomic R App.BudgetForm req w e w' Hrun).
  - exact (@view_function_atomic R App.IncomeForm req w e w' Hrun).
Qed.

(** C8, amended: the statements of a request run in one transaction of its
    connection, committed once, after the last INSERT.  When [budget] or
    [income] raises, nothing was committed: the stored rows, category budgets
    and other incomes included, are exactly what they were. *)
Theorem delete_then_reinsert_atomic `{Runtime} (req : request) (w w' : world)
    (e : exn) :
  App.budget req w = (Raise e, w') ∨ App.income req w = (Raise e, w') →
  store w' = store w ∧
  category_budgets (store w') = category_budgets (store w) ∧
  other_incomes (store w') = other_incomes (store w).
Proof.
  intros Hrun.
  assert (Hs : store w' = store w).
  { destruct Hrun as [Hrun|Hrun].
    - exact (view_function_atomic App.BudgetForm req w e w' Hrun).
    - exact (view_function_atomic App.IncomeForm req w e w' Hrun). }
  by rewrite Hs.
Qed.

Lemma delete_then_reinsert_atomic_budget :
  returned (@App.budget reference_runtime (post_request budget_form)
              (signed_in budgets_database 2024 3 10)) = false ∧
  store (@App.budget reference_runtime (post_request budget_form)
           (signed_in budgets_database 2024 3 10)).2
  = store (signed_in budgets_database 2024 3 10).
Proof.
  assert (Hret : returned (@App.budget reference_runtime (post_request budget_form)
                             (signed_in budgets_database 2024 3 10)) = false)
    by (vm_compute; reflexivity).
  split; [exact Hret|].
  destruct (@App.budget reference_runtime (post_request budget_form)
              (signed_in budgets_database 2024 3 10))
    as [[r|e] w'] eqn:Hrun; [discriminate Hret|].
  exact (proj1 (@delete_then_reinsert_atomic reference_runtime _ _ _ _
                  (or_introl Hrun))).
Defined.

(** ** Deleting a goal of another user (C7) *)

Lemma delete_financial_goal_not_owner `{Runtime} (goal_id user_id : Z)
    (today : date) (db : database) :
  (∀ g, g ∈ financial_goals db → Goal.id g = goal_id → Goal.user_id g ≠ user_id) →
  delete_financial_goal goal_id user_id today db = Ok db.
Proof.
  intros Hother. unfold delete_financial_goal. f_equal.
  rewrite filter_all; [by destruct db|].
  apply Forall_forall. intros g Hg [Hid Hu]. by apply (Hother g).
Qed.

Lemma round_trip_serves (n : nat) (w : world) :
  serves (S n) w →
  ∃ w', round_trip w = (Ok (), w') ∧ serves n w' ∧
        store w' = store w ∧ conns w' = conns w ∧
        current_date w' = current_date w ∧ session w' = session w ∧
        flashes w' = flashes w.
Proof.
  unfold serves, round_trip. destruct (faults w) as [[|k]|] eqn:Hf; intros Hs.
  - lia.
  - eexists. split; [reflexivity|]. simpl. split; [lia|]. done.
  - eexists. split; [reflexivity|]. by rewrite Hf.
Qed.

(** C7: when no goal with this id belongs to the acting user (the goal is
    someone else's, or there is none), and the data store serves the three
    round trips of the request, [delete_goal] deletes no row, raises nothing
    and answers as for a deletion: the store is unchanged, so is every
    user's list of goals, the message is flashed and the dashboard is next. *)
Theorem delete_goal_not_owner `{Runtime} (goal_id user_id : Z) (req : request)
    (w : world) :
  session w = Some user_id →
  serves 3 w →
  (∀ g, g ∈ financial_goals (store w) →
        Goal.id g = goal_id → Goal.user_id g ≠ user_id) →
  delete_financial_goal goal_id user_id (current_date w) (store w)
  = Ok (store w) ∧
  ∃ w', App.delete_goal goal_id req w = (Ok (Redirect "dashboard"), w') ∧
        store w' = store w ∧
        (∀ owner, select_goals owner (store w') = select_goals owner (store w)) ∧
        flashes w' = flashes w ++ [("Goal removed.", "info")] ∧
        conns w' = conns w.
Proof.
  intros Hsession Hserves Hother.
  pose proof (delete_financial_goal_not_owner goal_id user_id (current_date w)
                (store w) Hother) as Hstmt.
  split; [done|].
  destruct (round_trip_serves 2 w Hserves)
    as (w1 & Hrt1 & Hserves1 & Hs1 & Hc1 & Hd1 & Hse1 & Hf1).
  set (conn := fresh (dom (conns w1))).
  set (w2 := with_conns (<[conn := store w1]> (conns w1)) w1).
  destruct (round_trip_serves 1 w2 Hserves1)
    as (w3 & Hrt3 & Hserves3 & Hs3 & Hc3 & Hd3 & Hse3 & Hf3).
  set (w4 := with_conns (<[conn := store w]> (conns w3)) w3).
  assert (Hserves4 : serves 1 w4) by done.
  destruct (round_trip_serves 0 w4 Hserves4)
    as (w5 & Hrt5 & _ & Hs5 & Hc5 & Hd5 & Hse5 & Hf5).
  assert (Hfresh : conns w !! conn = None).
  { rewrite <- Hc1. apply not_elem_of_dom, is_fresh. }
  assert (Hview3 : conns w3 !! conn = Some (store w)).
  { rewrite Hc3. unfold w2. simpl. by rewrite lookup_insert_eq, Hs1. }
  assert (Hview5 : conns w5 !! conn = Some (store w)).
  { rewrite Hc5. unfold w4. simpl. by rewrite lookup_insert_eq. }
  eexists. split.
  - unfold App.delete_goal, login_required, session_user_id, get_db_connection,
      execute, commit, close, cursor, cursor_close, view, flash, redirect.
    unfold mbind, M_bind, gets, modify, lift, mret, M_ret.
    rewrite Hsession. cbv beta iota. rewrite Hsession. cbv beta iota.
    rewrite Hrt1. cbv beta iota.
    fold conn. fold w2. rewrite Hrt3. cbv beta iota.
    rewrite Hview3. cbv beta iota.
    rewrite Hd3. change (current_date w2) with (current_date w1).
    rewrite Hd1, Hstmt. cbv beta iota.
    fold w4. rewrite Hrt5. cbv beta iota.
    rewrite Hview5. cbv beta iota. reflexivity.
  - simpl. split; [done|]. split; [done|]. split.
    + rewrite Hf5. unfold w4. simpl. rewrite Hf3. unfold w2. simpl. by rewrite Hf1.
    + rewrite Hc5. unfold w4. simpl.
      rewrite Hc3. unfold w2. simpl. rewrite Hc1.
      rewrite insert_insert_eq, delete_insert_id; done.
Qed.

(** Ann asks to delete goal 7, which is Bob's. *)
Lemma delete_goal_not_owner_bob :
  session (signed_in goals_database 2024 3 10) = Some 1 ∧
  serves 3 (signed_in goals_database 2024 3 10) ∧
  (∀ g, g ∈ financial_goals (store (signed_in goals_database 2024 3 10)) →
        Goal.id g = 7 → Goal.user_id g ≠ 1) ∧
  ∃ w', @App.delete_goal reference_runtime 7 (post_request [])
          (signed_in goals_database 2024 3 10)
        = (Ok (Redirect "dashboard"), w') ∧
        store w' = goals_database.
Proof.
  assert (Hother : ∀ g, g ∈ financial_goals
                              (store (signed_in goals_database 2024 3 10)) →
                        Goal.id g = 7 → Goal.user_id g ≠ 1).
  { intros g Hg Hid. simpl in Hg.
    apply elem_of_cons in Hg as [->|Hg]; [simpl; lia|].
    apply list_elem_of_singleton in Hg as ->. simpl in Hid. lia. }
  split; [reflexivity|]. split; [exact I|]. split; [exact Hother|].
  destruct (@delete_goal_not_owner reference_runtime 7 1 (post_request [])
              (signed_in goals_database 2024 3 10) eq_refl I Hother)
    as (_ & w' & Hrun & Hstore & _).
  exists w'. split; [exact Hrun|exact Hstore].
Defined.

(** ** The weekly series with an expense dated after today (C6) *)

(** C6, on a failing input.  On Wednesday 2024-03-13 the user has 10 spent on Thursday 2024-03-07,
    six days back, and 5 dated Thursday 2024-03-14, tomorrow.  The query has
    no upper bound on the date, so both days are returned, and in the dict
    the later row replaces the earlier one under the label THU: the series
    shows 5, where the expenses of the trailing seven days on a Thursday add
    up to 10 (and all expenses returned under that label to 15). *)
Theorem weekly_series_future_dated :
  select_weekly 1 (days_from_civil 2024 3 13) future_dated_database
  = [("THU", dec 10 1); ("THU", dec 5 1)] ∧
  @Dashboard.weekly_expenses_data reference_runtime
    (select_weekly 1 (days_from_civil 2024 3 13) future_dated_database)
  = [("THU", dec 5 1)] ∧
  sum_decimal
    (Expense.amount <$>
       filter (λ e, Expense.user_id e = 1 ∧
                    days_from_civil 2024 3 13 - 6 ≤ Expense.expense_date e
                                                  ≤ days_from_civil 2024 3 13 ∧
                    to_char_DY (Expense.expense_date e) = "THU")
         (expenses future_dated_database))
  = dec 10 1.
Proof. repeat split; decimal_eq. Qed.

(** ** The income line with a source named like the main income (C10) *)

(** C10, on a failing input.  The user's monthly income is 1000 and one of the other incomes, of 5,
    is named "Salary / Main": it takes the place of the main income in
    [income_sources], and the income line of the summary graph repeats 5. *)
Theorem summary_line_graph_salary_clash :
  select_monthly_income 1 salary_clash_database = [dec 1000 1] ∧
  @Report.income_sources reference_runtime
    (fetchone (select_monthly_income 1 salary_clash_database))
    (select_other_incomes 1 salary_clash_database)
  = [("Salary / Main", @Flt reference_runtime (dec 5 1))] ∧
  @Report.slg_income reference_runtime
    (Report.summary_line_graph
       (Report.income_sources
          (fetchone (select_monthly_income 1 salary_clash_database))
          (select_other_incomes 1 salary_clash_database))
       (Report.expenses_by_month
          (select_expenses_by_month 1 salary_clash_database)))
  = [@Flt reference_runtime (dec 5 1)].
Proof. repeat split; decimal_eq. Qed.

(** ** The weekly series when no expense is dated after today *)

Lemma day_of_week_range (d : date) : 0 ≤ day_of_week d < 7.
Proof. unfold day_of_week. apply Z.mod_pos_bound. lia. Qed.

Lemma to_char_DY_day_of_week (d1 d2 : date) :
  to_char_DY d1 = to_char_DY d2 → day_of_week d1 = day_of_week d2.
Proof.
  unfold to_char_DY.
  pose proof (day_of_week_range d1) as H1. pose proof (day_of_week_range d2) as H2.
  assert (C1 : day_of_week d1 ∈ [0; 1; 2; 3; 4; 5; 6]).
  { rewrite !elem_of_cons. lia. }
  assert (C2 : day_of_week d2 ∈ [0; 1; 2; 3; 4; 5; 6]).
  { rewrite !elem_of_cons. lia. }
  rewrite !elem_of_cons, elem_of_nil in C1, C2.
  destruct C1 as [->|[->|[->|[->|[->|[->|[->|[]]]]]]]];
    destruct C2 as [->|[->|[->|[->|[->|[->|[->|[]]]]]]]];
    simpl; intros; congruence.
Qed.

(** Within seven consecutive days no two dates share a day name. *)
Lemma to_char_DY_inj_week (today d1 d2 : date) :
  today - 6 ≤ d1 ≤ today → today - 6 ≤ d2 ≤ today →
  to_char_DY d1 = to_char_DY d2 → d1 = d2.
Proof.
  intros H1 H2 Hdy%to_char_DY_day_of_week. unfold day_of_week in Hdy.
  Z.div_mod_to_equations. lia.
Qed.

(** The day name is upper case already and has no blanks around it. *)
Lemma upper_strip_to_char_DY (d : date) :
  upper (strip (to_char_DY d)) = to_char_DY d.
Proof. unfold to_char_DY. by repeat case_match. Qed.

Lemma Permutation_singleton_eq {A} (l : list A) (x : A) : l ≡ₚ [x] → l = [x].
Proof. intros Hp. by apply Permutation_singleton_r. Qed.

Lemma group_by_row {A K} `{EqDecision K} (key : A → K) (rows : list A) (k : K) :
  filter (λ g : K * list A, g.1 = k) (group_by key rows)
  = match filter (λ r, key r = k) rows with
    | [] => []
    | rs => [(k, rs)]
    end.
Proof.
  unfold group_by.
  rewrite (filter_group_rows (λ k, filter (λ r, key r = k) rows))
    by apply NoDup_distinct.
  destruct (decide (k ∈ distinct (key <$> rows))) as [Hin|Hnin].
  - destruct (filter _ rows) as [|r rs] eqn:Hf; [|done].
    exfalso. apply elem_of_distinct, list_elem_of_fmap in Hin as (r & -> & Hr).
    assert (r ∈ filter (λ r0, key r0 = key r) rows) as Hin
      by (by apply list_elem_of_filter).
    rewrite Hf in Hin. by apply elem_of_nil in Hin.
  - destruct (filter _ rows) as [|r rs] eqn:Hf; [done|].
    exfalso. apply Hnin, elem_of_distinct, list_elem_of_fmap.
    assert (r ∈ filter (λ r0, key r0 = k) rows) as Hin
      by (rewrite Hf; apply elem_of_cons; by left).
    apply list_elem_of_filter in Hin as [<- ?]. eauto.
Qed.

Lemma filter_ext_in {A} (P Q : A → Prop) `{∀ x, Decision (P x)}
    `{∀ x, Decision (Q x)} (l : list A) :
  (∀ x, x ∈ l → (P x ↔ Q x)) → filter P l = filter Q l.
Proof.
  induction l as [|x l IH]; intros Hext; [done|].
  rewrite !filter_cons.
  assert (Hx : P x ↔ Q x) by (apply Hext, elem_of_cons; by left).
  rewrite IH by (intros y Hy; apply Hext, elem_of_cons; by right).
  destruct (decide (P x)), (decide (Q x)); tauto.
Qed.

(** With no expense of the user dated after today, the dict holds, for each
    day name, the float of the sum of the user's expenses of the trailing
    seven days that fall on that day, and nothing for a day without any. *)
Theorem weekly_series_without_future_dates `{Runtime} (user_id : Z) (today : date)
    (db : database) :
  (∀ e, e ∈ expenses db → Expense.user_id e = user_id →
        Expense.expense_date e ≤ today) →
  ∀ label : string,
    dict_get label (Dashboard.weekly_expenses_data (select_weekly user_id today db))
    = match filter (λ e, Expense.user_id e = user_id ∧
                         today - 6 ≤ Expense.expense_date e ≤ today ∧
                         to_char_DY (Expense.expense_date e) = label)
              (expenses db) with
      | [] => None
      | es => Some (float (sum_decimal (Expense.amount <$> es)))
      end.
Proof.
  intros Hpast label.
  set (W := filter (since_six_days_ago user_id today) (expenses db)).
  assert (HW : ∀ e, e ∈ W → today - 6 ≤ Expense.expense_date e ≤ today).
  { intros e [[Hu Hlo] He]%list_elem_of_filter. split; [done|]. by apply Hpast. }
  assert (Hes : filter (λ e, Expense.user_id e = user_id ∧
                             today - 6 ≤ Expense.expense_date e ≤ today ∧
                             to_char_DY (Expense.expense_date e) = label)
                  (expenses db)
                = filter (λ e, to_char_DY (Expense.expense_date e) = label) W).
  { unfold W. rewrite list_filter_filter. apply filter_ext_in.
    intros e He. unfold since_six_days_ago. split; [tauto|].
    intros (Hl & Hu & Hlo). repeat split; try done. by apply Hpast. }
  rewrite Hes. clear Hes.
  unfold Dashboard.weekly_expenses_data, select_weekly. fold W.
  rewrite dict_get_comprehension, filter_fmap. simpl.
  set (sorted_groups := order_by fst Z.le (group_by Expense.expense_date W)).
  assert (Hperm : sorted_groups ≡ₚ group_by Expense.expense_date W)
    by apply order_by_Permutation.
  rewrite (filter_ext_in _ (λ g : date * list Expense.row, to_char_DY g.1 = label))
    by (intros g _; by rewrite upper_strip_to_char_DY).
  destruct (filter (λ e, to_char_DY (Expense.expense_date e) = label) W)
    as [|e0 es] eqn:Hf.
  - (* no expense on such a day: no row with the label *)
    destruct (filter _ sorted_groups) as [|g gs] eqn:Hg; [done|]. exfalso.
    assert (g ∈ filter (λ g : date * list Expense.row, to_char_DY g.1 = label)
                  sorted_groups) as Hin by (rewrite Hg; apply elem_of_cons; by left).
    apply list_elem_of_filter in Hin as [Hl Hin]. rewrite Hperm in Hin.
    assert (g.1 ∈ (group_by Expense.expense_date W).*1) as Hk
      by (apply list_elem_of_fmap; eauto).
    rewrite group_by_keys, elem_of_distinct, list_elem_of_fmap in Hk.
    destruct Hk as (e & He & HeW).
    assert (e ∈ filter (λ e, to_char_DY (Expense.expense_date e) = label) W) as Hc
      by (apply list_elem_of_filter; split; [congruence|done]).
    rewrite Hf in Hc. by apply elem_of_nil in Hc.
  - (* the expenses on such a day share their date *)
    set (d0 := Expense.expense_date e0).
    assert (He0 : e0 ∈ W ∧ to_char_DY d0 = label).
    { assert (e0 ∈ filter (λ e, to_char_DY (Expense.expense_date e) = label) W)
        as Hin by (rewrite Hf; apply elem_of_cons; by left).
      apply list_elem_of_filter in Hin. tauto. }
    destruct He0 as [He0 Hl0].
    assert (Hdate : ∀ d, today - 6 ≤ d ≤ today → (to_char_DY d = label ↔ d = d0)).
    { intros d Hd. split; [|by intros ->].
      intros Hl. apply (to_char_DY_inj_week today); [done|by apply HW|congruence]. }
    assert (Hes : e0 :: es = filter (λ e, Expense.expense_date e = d0) W).
    { rewrite <- Hf. apply filter_ext_in. intros e He. by apply Hdate, HW. }
    assert (Hgs : filter (λ g : date * list Expense.row, to_char_DY g.1 = label)
                    sorted_groups
                  = [(d0, e0 :: es)]).
    { apply Permutation_singleton_eq.
      rewrite (filter_ext_in _ (λ g : date * list Expense.row, g.1 = d0)).
      - rewrite Hperm, group_by_row, <- Hes. done.
      - intros g Hg. apply Hdate. rewrite Hperm in Hg.
        assert (g.1 ∈ (group_by Expense.expense_date W).*1) as Hk
          by (apply list_elem_of_fmap; eauto).
        rewrite group_by_keys, elem_of_distinct, list_elem_of_fmap in Hk.
        destruct Hk as (e & -> & HeW). by apply HW. }
    rewrite Hgs. done.
Qed.

(** Ann's week up to Sunday 2024-03-10 holds no expense dated later. *)
Lemma weekly_series_without_future_dates_ann :
  (∀ e, e ∈ expenses food_database → Expense.user_id e = 1 →
        Expense.expense_date e ≤ days_from_civil 2024 3 10) ∧
  ∀ label : string,
    dict_get label
      (@Dashboard.weekly_expenses_data reference_runtime
         (select_weekly 1 (days_from_civil 2024 3 10) food_database))
    = match filter (λ e, Expense.user_id e = 1 ∧
                         days_from_civil 2024 3 10 - 6 ≤ Expense.expense_date e
                           ≤ days_from_civil 2024 3 10 ∧
                         to_char_DY (Expense.expense_date e) = label)
              (expenses food_database) with
      | [] => None
      | es => Some (@float reference_runtime (sum_decimal (Expense.amount <$> es)))
      end.
Proof.
  assert (Hpast : ∀ e, e ∈ expenses food_database → Expense.user_id e = 1 →
            Expense.expense_date e ≤ days_from_civil 2024 3 10).
  { intros e He _. unfold food_database in He. simpl in He.
    rewrite !elem_of_cons, elem_of_nil in He.
    destruct He as [->|[->|[]]]; vm_compute; discriminate. }
  split; [exact Hpast|].
  exact (@weekly_series_without_future_dates reference_runtime 1
           (days_from_civil 2024 3 10) food_database Hpast).
Defined.

(** ** The income line when no source is named like the main income *)

Lemma income_sources_salary_main `{Runtime} (main_income : option decimal)
    (other_incomes : list (string * decimal)) :
  (∀ item, item ∈ other_incomes → item.1 ≠ Report.salary_main) →
  dict_get Report.salary_main (Report.income_sources main_income other_incomes)
  = Some (match main_income with Some m => Flt (float m) | None => Int 0 end).
Proof.
  unfold Report.income_sources.
  induction other_incomes as [|item l IH] using rev_ind; intros Hne.
  - reflexivity.
  - rewrite foldl_app. simpl. rewrite dict_get_set.
    rewrite decide_False by (apply Hne, elem_of_app; right; by apply list_elem_of_singleton).
    apply IH. intros i Hi. apply Hne, elem_of_app. by left.
Qed.

(** The three arrays of the summary graph have one length; and when no other
    income of the user is named "Salary / Main", every entry of the income
    array is the float of the monthly income (the integer 0 without an
    income row). *)
Theorem summary_line_graph_spec `{Runtime} (main_income : option decimal)
    (other_incomes : list (string * decimal))
    (expenses_by_month : pydict string Float) :
  let slg := Report.summary_line_graph
               (Report.income_sources main_income other_incomes)
               expenses_by_month in
  length (Report.slg_expenses slg) = length (Report.slg_labels slg) ∧
  length (Report.slg_income slg) = length (Report.slg_labels slg) ∧
  ((∀ item, item ∈ other_incomes → item.1 ≠ Report.salary_main) →
   ∀ i, (i < length (Report.slg_labels slg))%nat →
        Report.slg_income slg !! i
        = Some (match main_income with
                | Some m => Flt (float m)
                | None => Int 0
                end)).
Proof.
  intros slg. unfold slg, Report.summary_line_graph, dict_keys, dict_values. simpl.
  rewrite !length_fmap, length_replicate. split; [done|]. split; [done|].
  intros Hne i Hi. rewrite income_sources_salary_main by done. simpl.
  by apply lookup_replicate_2.
Qed.

(** ** The reporting handlers return the figures of the committed tables *)

Lemma hoare_pure {A} (φ : Prop) (P : world → Prop) (m : M A) Q E :
  (φ → hoare P m Q E) → hoare (λ w, φ ∧ P w) m Q E.
Proof. intros Hm w [Hφ Hw]. by apply Hm. Qed.

Lemma hoare_ret_bind {A B} (P : world → Prop) (a : A) (f : A → M B) R E :
  hoare P (f a) R E → hoare P (mret a ≫= f) R E.
Proof. intros Hf w Hw. apply (Hf w Hw). Qed.

Lemma hoare_bind_assoc {A B C} (P : world → Prop) (m : M A) (g : A → M B)
    (f : B → M C) R E :
  hoare P (m ≫= λ a, g a ≫= f) R E → hoare P ((m ≫= g) ≫= f) R E.
Proof.
  intros Hm w Hw. specialize (Hm w Hw). unfold mbind, M_bind in *.
  by destruct (m w) as [[a|e] w'].
Qed.

Lemma hoare_login_required `{Runtime} (user_id : Z) (P : world → Prop)
    (f : M response) Q E :
  hoare (λ w, session w = Some user_id ∧ P w) f Q E →
  hoare (λ w, session w = Some user_id ∧ P w) (login_required f) Q E.
Proof.
  intros Hf w [Hs HP]. specialize (Hf w (conj Hs HP)).
  unfold login_required, mbind, M_bind, gets. by rewrite Hs.
Qed.

Lemma hoare_session_user_id_value (user_id : Z) (P : world → Prop) E :
  hoare (λ w, session w = Some user_id ∧ P w) session_user_id
    (λ a w, a = user_id ∧ P w) E.
Proof.
  intros w [Hs HP]. unfold session_user_id, mbind, M_bind, gets. by rewrite Hs.
Qed.

Lemma hoare_lift_value {A} (P : world → Prop) (o : outcome A) :
  hoare P (lift o) (λ a w, o = Ok a ∧ P w) (λ e _, o = Raise e).
Proof. intros w Hw. unfold lift. by destruct o. Qed.

Lemma hoare_get_db_connection_view F R S D :
  hoare (λ w, store w = S ∧ current_date w = D ∧ reliable F w) get_db_connection
    (λ conn, viewing F S D conn) (failure F R).
Proof.
  intros w (Hs & Hd & Hf). unfold get_db_connection, mbind, M_bind, round_trip.
  unfold reliable in Hf.
  destruct (faults w) as [[|n]|] eqn:Hw; simpl.
  - left. split; [done|]. intros HF. by specialize (Hf HF).
  - split; [|split; [done|]].
    + simpl. by rewrite lookup_insert_eq, Hs.
    + intros HF. by specialize (Hf HF).
  - split; [|split; [done|]].
    + simpl. by rewrite lookup_insert_eq, Hs.
    + by intros _.
Qed.

Lemma hoare_query_view {A} F R S D conn (q : date → database → A) :
  hoare (viewing F S D conn) (query conn q)
    (λ a w, a = q D S ∧ viewing F S D conn w) (failure F R).
Proof.
  intros w (Hc & Hd & Hf). unfold query, view, mbind, M_bind, round_trip, gets.
  unfold reliable in Hf.
  destruct (faults w) as [[|n]|] eqn:Hw; simpl.
  - left. split; [done|]. intros HF. by specialize (Hf HF).
  - rewrite Hc. simpl. rewrite Hd. split; [done|]. split; [done|]. split; [done|].
    intros HF. by specialize (Hf HF).
  - rewrite Hc. simpl. rewrite Hd. split; [done|]. split; [done|]. split; [done|].
    by intros _.
Qed.

Lemma hoare_fmap_query_view {A B} F R S D conn (q : date → database → A)
    (f : A → B) :
  hoare (viewing F S D conn) (f <$> query conn q)
    (λ b w, b = f (q D S) ∧ viewing F S D conn w) (failure F R).
Proof.
  apply hoare_fmap. eapply hoare_conseq; [apply hoare_query_view|done| |done].
  by intros a w [-> ?].
Qed.

Lemma hoare_close_view F R S D conn :
  hoare (viewing F S D conn) (close conn) (λ _, reliable F) (failure F R).
Proof. by intros w (_ & _ & Hf). Qed.

(** One step of a handler whose connection views [S] at [D]: the result of
    a query becomes an equation of the context. *)
Ltac view_step :=
  lazymatch goal with
  | |- hoare _ (cursor _ ≫= _) _ _ => apply hoare_cursor
  | |- hoare _ (cursor_close _ ≫= _) _ _ => apply hoare_ret_bind
  | |- hoare _ (mret _ ≫= _) _ _ => apply hoare_ret_bind
  | |- hoare _ ((_ ≫= _) ≫= _) _ _ => apply hoare_bind_assoc
  | |- hoare _ (query _ _ ≫= _) _ _ =>
      eapply hoare_bind; [apply hoare_query_view|];
      intros ?; apply hoare_pure; intros ->
  | |- hoare _ ((_ <$> query _ _) ≫= _) _ _ =>
      eapply hoare_bind; [apply hoare_fmap_query_view|];
      intros ?; apply hoare_pure; intros ->
  | |- hoare _ (close _ ≫= _) _ _ =>
      eapply hoare_bind; [apply hoare_close_view|]; intros ?
  end.

Section figures.
Context `{Runtime}.

Lemma hoare_get_user_data_view F R (user_id : Z) :
  hoare (reliable F) (get_user_data user_id) (λ _, reliable F) (failure F R).
Proof.
  intros w Hw.
  cut (hoare (λ w', store w' = store w ∧ current_date w' = current_date w ∧
                    reliable F w')
         (get_user_data user_id) (λ _, reliable F) (failure F R)).
  { intros Hg. by apply Hg. }
  unfold get_user_data.
  eapply hoare_bind; [apply hoare_get_db_connection_view|]. intros conn.
  repeat view_step.
  destruct (fetchone (select_user user_id (store w))); repeat view_step;
    by apply hoare_ret.
Qed.

Lemma hoare_render_template_view F R template ctx :
  hoare (reliable F) (render_template template ctx)
    (λ r _, ∃ current_user, r = Rendered template ctx current_user)
    (failure F R).
Proof.
  unfold render_template.
  eapply hoare_bind with (Q := λ _, reliable F).
  - intros w Hw. unfold inject_user, mbind, M_bind, gets.
    destruct (session w) as [user_id|]; [|done].
    by apply hoare_get_user_data_view.
  - intros cu. apply hoare_ret. eauto.
Qed.

Lemma dashboard_figures_returns (user_id : Z) (D : date) (S : database) :
  ∃ ctx, dashboard_figures user_id D S = Ok ctx.
Proof.
  unfold dashboard_figures, Dashboard.budget_used_percent, decimal_truediv.
  cbv zeta. case_decide as Hb; [|eauto].
  case_decide as Hz; [|eauto].
  rewrite Hz in Hb. by apply Qclt_not_eq in Hb.
Qed.

Lemma hoare_dashboard F (user_id : Z) (S : database) (D : date) (req : request) :
  hoare (λ w, session w = Some user_id ∧
              store w = S ∧ current_date w = D ∧ reliable F w)
    (App.dashboard req)
    (λ r _, ∃ ctx current_user,
       dashboard_figures user_id D S = Ok ctx ∧
       r = Rendered "dashboard.html" (DashboardContext ctx) current_user)
    (failure F (λ e, dashboard_figures user_id D S = Raise e)).
Proof.
  unfold App.dashboard. apply hoare_login_required.
  eapply hoare_bind; [apply hoare_session_user_id_value|].
  intros ?. apply hoare_pure. intros ->.
  eapply hoare_bind; [apply hoare_get_db_connection_view|]. intros conn.
  cbv zeta. repeat view_step.
  unfold dashboard_figures. cbv zeta.
  eapply hoare_bind.
  { eapply hoare_conseq; [apply hoare_lift_value|done|done|].
    intros e w He. right. by rewrite He. }
  intros pct. apply hoare_pure. intros ->. repeat view_step.
  destruct (Dashboard.budgeted_amounts (select_category_budgets user_id S));
    repeat view_step;
    (eapply hoare_conseq; [apply hoare_render_template_view|done| |done]);
    intros r w [cu ->]; eauto.
Qed.

Lemma hoare_comprehensive_report_api F (user_id : Z) (S : database) (D : date)
    (req : request) :
  hoare (λ w, session w = Some user_id ∧
              store w = S ∧ current_date w = D ∧ reliable F w)
    (App.comprehensive_report_api req)
    (λ r _, r = Jsonify (ReportJson (report_payload user_id D S)) 200)
    (failure F (λ _, False)).
Proof.
  unfold App.comprehensive_report_api. apply hoare_login_required.
  eapply hoare_bind; [apply hoare_session_user_id_value|].
  intros ?. apply hoare_pure. intros ->.
  eapply hoare_bind; [apply hoare_get_db_connection_view|]. intros conn.
  cbv zeta. repeat view_step. by apply hoare_ret.
Qed.
End figures.



(** The consolidated report of a signed-in user is the payload of the
    committed tables at the current date; it fails only when the data store
    does. *)
Theorem report_returns_payload `{Runtime} (user_id : Z) (req : request)
    (w : world) :
  session w = Some user_id →
  match App.comprehensive_report_api req w with
  | (Ok r, _) =>
      r = Jsonify (ReportJson (report_payload user_id (current_date w) (store w)))
            200
  | (Raise e, _) => e = OperationalError ∧ faults w ≠ None
  end.
Proof.
  intros Hs.
  pose proof (hoare_comprehensive_report_api (faults w = None) user_id (store w)
                (current_date w) req w) as Hd.
  specialize (Hd (conj Hs (conj eq_refl (conj eq_refl (λ Hf, Hf))))).
  destruct (App.comprehensive_report_api req w) as [[r|e] w']; [done|].
  by destruct Hd as [Hd|[]].
Qed.

(** Ann, signed in, asks for the consolidated report. *)
Lemma report_returns_payload_ann :
  session (signed_in salary_clash_database 2024 3 13) = Some 1 ∧
  match @App.comprehensive_report_api reference_runtime get_request
          (signed_in salary_clash_database 2024 3 13) with
  | (Ok r, _) =>
      r = Jsonify
            (ReportJson
               (@report_payload reference_runtime 1
                  (current_date (signed_in salary_clash_database 2024 3 13))
                  (store (signed_in salary_clash_database 2024 3 13))))
            200
  | (Raise e, _) =>
      e = OperationalError ∧
      faults (signed_in salary_clash_database 2024 3 13) ≠ None
  end.
Proof.
  split; [reflexivity|].
  exact (@report_returns_payload reference_runtime 1 get_request
           (signed_in salary_clash_database 2024 3 13) eq_refl).
Defined.

(** ** Running a handler step by step when the data store is in order *)

Ltac world_simpl :=
  cbn [store conns current_date faults sequences session flashes entropy
       saved_files with_store with_conns with_faults with_sequences
       with_session with_flashes with_entropy with_saved_files] in *.

Lemma run_bind {A B} (m : M A) (f : A → M B) (w w1 : world) (a : A) :
  m w = (Ok a, w1) → (m ≫= f) w = f a w1.
Proof. intros Hm. unfold mbind, M_bind. by rewrite Hm. Qed.

Lemma run_bind_raise {A B} (m : M A) (f : A → M B) (w w1 : world) (e : exn) :
  m w = (Raise e, w1) → (m ≫= f) w = (Raise e, w1).
Proof. intros Hm. unfold mbind, M_bind. by rewrite Hm. Qed.

Lemma run_fmap {A B} (m : M A) (f : A → B) (w w1 : world) (a : A) :
  m w = (Ok a, w1) → (f <$> m) w = (Ok (f a), w1).
Proof. intros Hm. unfold fmap, M_fmap. by rewrite Hm. Qed.

Lemma run_round_trip (w : world) : faults w = None → round_trip w = (Ok (), w).
Proof. intros Hf. unfold round_trip. by rewrite Hf. Qed.

Lemma run_get_db_connection (w : world) :
  faults w = None →
  get_db_connection w
  = (Ok (fresh (dom (conns w))),
     with_conns (<[fresh (dom (conns w)) := store w]> (conns w)) w).
Proof.
  intros Hf. unfold get_db_connection.
  by rewrite (run_bind _ _ _ _ _ (run_round_trip w Hf)).
Qed.

Lemma run_query {A} (cur : connection) (q : date → database → A) (w : world)
    (db : database) :
  faults w = None → conns w !! cur = Some db →
  query cur q w = (Ok (q (current_date w) db), w).
Proof.
  intros Hf Hc. unfold query.
  rewrite (run_bind _ _ _ _ _ (run_round_trip w Hf)).
  unfold view, mbind, M_bind, gets. by rewrite Hc.
Qed.

Lemma run_execute (cur : connection) stmt (w : world) (db db' : database) :
  faults w = None → conns w !! cur = Some db →
  stmt (current_date w) db = Ok db' →
  execute cur stmt w = (Ok (), with_conns (<[cur := db']> (conns w)) w).
Proof.
  intros Hf Hc Hs. unfold execute.
  rewrite (run_bind _ _ _ _ _ (run_round_trip w Hf)).
  unfold view, mbind, M_bind, gets, lift. rewrite Hc.
  unfold mret, M_ret. cbv beta iota. by rewrite Hs.
Qed.

Lemma run_execute_raise (cur : connection) stmt (w : world) (db : database)
    (e : exn) :
  faults w = None → conns w !! cur = Some db →
  stmt (current_date w) db = Raise e →
  execute cur stmt w = (Raise e, w).
Proof.
  intros Hf Hc Hs. unfold execute.
  rewrite (run_bind _ _ _ _ _ (run_round_trip w Hf)).
  unfold view, mbind, M_bind, gets, lift. rewrite Hc.
  unfold mret, M_ret. cbv beta iota. by rewrite Hs.
Qed.

Lemma run_execute_insert (cur : connection) (s : serial) stmt (w : world)
    (db db' : database) :
  faults w = None → conns w !! cur = Some db →
  stmt (sequences w s) (current_date w) db = Ok db' →
  execute_insert cur s stmt w
  = (Ok (sequences w s),
     with_conns (<[cur := db']> (conns w))
       (with_sequences
          (λ s', if decide (s' = s) then sequences w s + 1 else sequences w s')
          w)).
Proof.
  intros Hf Hc Hs. unfold execute_insert.
  rewrite (run_bind _ _ _ _ _ (run_round_trip w Hf)).
  unfold view, nextval, mbind, M_bind, gets, lift, modify. rewrite Hc.
  unfold mret, M_ret. cbv beta iota. cbn [current_date with_sequences].
  by rewrite Hs.
Qed.

Lemma run_execute_insert_raise (cur : connection) (s : serial) stmt (w : world)
    (db : database) (e : exn) :
  faults w = None → conns w !! cur = Some db →
  stmt (sequences w s) (current_date w) db = Raise e →
  execute_insert cur s stmt w
  = (Raise e,
     with_sequences
       (λ s', if decide (s' = s) then sequences w s + 1 else sequences w s') w).
Proof.
  intros Hf Hc Hs. unfold execute_insert.
  rewrite (run_bind _ _ _ _ _ (run_round_trip w Hf)).
  unfold view, nextval, mbind, M_bind, gets, lift, modify. rewrite Hc.
  unfold mret, M_ret. cbv beta iota. cbn [current_date with_sequences].
  by rewrite Hs.
Qed.

Lemma run_commit (conn : connection) (w : world) (db : database) :
  faults w = None → conns w !! conn = Some db →
  commit conn w = (Ok (), with_store db w).
Proof.
  intros Hf Hc. unfold commit.
  rewrite (run_bind _ _ _ _ _ (run_round_trip w Hf)).
  unfold view, mbind, M_bind, gets. by rewrite Hc.
Qed.

Lemma run_lift {A} (o : outcome A) (a : A) (w : world) :
  o = Ok a → lift o w = (Ok a, w).
Proof. by intros ->. Qed.

Lemma run_session_user_id (w : world) (user_id : Z) :
  session w = Some user_id → session_user_id w = (Ok user_id, w).
Proof. intros Hs. unfold session_user_id, mbind, M_bind, gets. by rewrite Hs. Qed.

Lemma run_login_required `{Runtime} (f : M response) (w : world) (user_id : Z) :
  session w = Some user_id → login_required f w = f w.
Proof. intros Hs. unfold login_required, mbind, M_bind, gets. by rewrite Hs. Qed.

Lemma with_conns_twice (C C' : gmap nat database) (w : world) :
  with_conns C (with_conns C' w) = with_conns C w.
Proof. reflexivity. Qed.

Lemma with_conns_same (w : world) : with_conns (conns w) w = w.
Proof. by destruct w. Qed.

(** Opening a connection and closing it again leaves the connections as
    they were. *)
Lemma conns_closed (C : gmap nat database) (db : database) :
  delete (fresh (dom C)) (<[fresh (dom C) := db]> C) = C.
Proof. apply delete_insert_id, not_elem_of_dom, is_fresh. Qed.

Ltac conns_restored := rewrite ?insert_insert_eq; apply conns_closed.

(** One step of a run: the first operation of the handler is evaluated by
    its equation, the rest of the handler goes on in the world it leaves. *)
Ltac run_with lem :=
  etransitivity; [apply run_bind; lem|]; cbv beta zeta.

Ltac run_side :=
  world_simpl;
  first [ assumption | reflexivity | apply lookup_insert_eq
        | eassumption ].

Ltac run_step :=
  lazymatch goal with
  | |- (get_db_connection ≫= _) _ = _ =>
      run_with ltac:(apply run_get_db_connection; run_side)
  | |- (session_user_id ≫= _) _ = _ =>
      run_with ltac:(apply run_session_user_id; run_side)
  | |- (query _ _ ≫= _) _ = _ =>
      run_with ltac:(apply run_query; run_side)
  | |- ((_ <$> query _ _) ≫= _) _ = _ =>
      run_with ltac:(apply run_fmap, run_query; run_side)
  | |- (execute _ _ ≫= _) _ = _ =>
      run_with ltac:(eapply run_execute; run_side)
  | |- (execute_insert _ _ _ ≫= _) _ = _ =>
      run_with ltac:(eapply run_execute_insert; run_side)
  | |- (commit _ ≫= _) _ = _ =>
      run_with ltac:(eapply run_commit; run_side)
  | |- (lift _ ≫= _) _ = _ =>
      run_with ltac:(apply run_lift; eassumption)
  | |- (_ ≫= _) _ = _ =>
      run_with ltac:(reflexivity)
  end.

Lemma get_user_data_run (user_id : Z) (w : world) :
  faults w = None →
  get_user_data user_id w = (Ok (user_data_of user_id (store w)), w).
Proof.
  intros Hf. unfold get_user_data, user_data_of.
  do 3 run_step.
  destruct (fetchone (select_user user_id (store w))) as [user|].
  - etransitivity; [apply run_bind; run_step; reflexivity|]. cbv beta.
    do 2 run_step. unfold mret, M_ret. world_simpl.
    by rewrite with_conns_twice, conns_closed, with_conns_same.
  - do 3 run_step. unfold mret, M_ret. world_simpl.
    by rewrite with_conns_twice, conns_closed, with_conns_same.
Qed.

Lemma inject_user_run (w : world) :
  faults w = None → inject_user w = (Ok (current_user_of w), w).
Proof.
  intros Hf. unfold inject_user, current_user_of, mbind, M_bind, gets.
  destruct (session w) as [user_id|]; [|done].
  by apply get_user_data_run.
Qed.

Lemma render_template_run `{Runtime} template ctx (w : world) :
  faults w = None →
  render_template template ctx w
  = (Ok (Rendered template ctx (current_user_of w)), w).
Proof.
  intros Hf. unfold render_template.
  by rewrite (run_bind _ _ _ _ _ (inject_user_run w Hf)).
Qed.

(** ** Routes behind [login_required] *)

Lemma view_function_signed_out `{Runtime} (ep : App.endpoint) (req : request)
    (w : world) :
  session w = None →
  ep ≠ App.Home → ep ≠ App.Signup → ep ≠ App.Signin → ep ≠ App.Logout →
  App.view_function ep req w
  = (Ok (Redirect "signin"),
     with_flashes
       (flashes w ++ [("You need to be logged in to view this page.", "warning")])
       w).
Proof.
  intros Hs ? ? ? ?.
  destruct ep; try done; simpl;
    unfold App.income, App.budget, App.upload_profile_picture, App.add_goal,
      App.delete_goal, App.dashboard, App.expense, App.expenses_list,
      App.investments, App.assetdebt, App.reports, App.comprehensive_report_api,
      App.chatbot_page, App.chat_api, login_required, mbind, M_bind, gets;
    by rewrite Hs.
Qed.



(** ** [get_user_data] *)

Lemma user_data_of_None (user_id : Z) (db : database) :
  user_data_of user_id db = None ↔ ∀ u, u ∈ users db → User.id u ≠ user_id.
Proof.
  unfold user_data_of, fetchone, select_user.
  destruct (filter _ (users db)) as [|u l] eqn:Hl; simpl.
  - split; [|done]. intros _ u Hu Hid.
    assert (u ∈ filter (λ u, User.id u = user_id) (users db)) as Hin
      by by apply list_elem_of_filter.
    rewrite Hl in Hin. by apply elem_of_nil in Hin.
  - split; [done|]. intros Hno. exfalso.
    assert (u ∈ filter (λ u, User.id u = user_id) (users db)) as Hin
      by (rewrite Hl; apply list_elem_of_here).
    apply list_elem_of_filter in Hin as [Hid Hu]. by apply (Hno u).
Qed.

(** With a data store in order, [get_user_data] returns what the committed
    tables hold and leaves the world exactly as it found it.  It returns
    [None] exactly when no row of [users] has the id; otherwise a row of
    [users] with that id, with the currency of one of the user's income
    rows, or ['$'] when there is none. *)
Theorem get_user_data_reads (user_id : Z) (w : world) :
  faults w = None →
  get_user_data user_id w = (Ok (user_data_of user_id (store w)), w) ∧
  (user_data_of user_id (store w) = None ↔
     ∀ u, u ∈ users (store w) → User.id u ≠ user_id) ∧
  ∀ d, user_data_of user_id (store w) = Some d →
    ud_user d ∈ users (store w) ∧ User.id (ud_user d) = user_id ∧
    ((∀ r, r ∈ incomes (store w) → Income.user_id r ≠ user_id) →
     ud_currency d = "$") ∧
    (ud_currency d = "$" ∨
     ∃ r, r ∈ incomes (store w) ∧ Income.user_id r = user_id ∧
          Income.currency r = ud_currency d).
Proof.
  intros Hf. split; [by apply get_user_data_run|].
  split; [apply user_data_of_None|].
  intros d. unfold user_data_of, fetchone, select_user, select_currency.
  destruct (filter _ (users (store w))) as [|u l] eqn:Hl; [done|]. simpl.
  intros [= <-]. simpl.
  assert (u ∈ filter (λ u, User.id u = user_id) (users (store w))) as Hin
    by (rewrite Hl; apply list_elem_of_here).
  apply list_elem_of_filter in Hin as [Hid Hu].
  split; [done|]. split; [done|].
  destruct (filter _ (incomes (store w))) as [|r l'] eqn:Hl'; simpl.
  - split; [done|]. by left.
  - assert (r ∈ filter (λ r, Income.user_id r = user_id) (incomes (store w)))
      as Hin by (rewrite Hl'; apply list_elem_of_here).
    apply list_elem_of_filter in Hin as [Hr Hri].
    split; [|right; eauto]. intros Hno. by destruct (Hno r).
Qed.

(** Ann has no income row yet: her currency is the dollar sign. *)
Lemma get_user_data_reads_ann :
  faults (signed_in food_database 2024 3 10) = None ∧
  get_user_data 1 (signed_in food_database 2024 3 10)
  = (Ok (Some (UserData ann "$")), signed_in food_database 2024 3 10).
Proof.
  split; [reflexivity|].
  exact (proj1 (get_user_data_reads 1
                  (signed_in food_database 2024 3 10) eq_refl)).
Defined.

(** ** Signing up, signing in, logging out *)

Lemma fetchone_filter_None {A} (P : A → Prop) `{∀ x, Decision (P x)} (l : list A) :
  fetchone (filter P l) = None ↔ ∀ x, x ∈ l → ¬ P x.
Proof.
  unfold fetchone. rewrite head_None. split.
  - intros Hl x Hx HP.
    assert (x ∈ filter P l) as Hin by by apply list_elem_of_filter.
    rewrite Hl in Hin. by apply elem_of_nil in Hin.
  - intros Hno. destruct (filter P l) as [|x l'] eqn:Hl; [done|].
    assert (x ∈ filter P l) as Hin by (rewrite Hl; apply list_elem_of_here).
    apply list_elem_of_filter in Hin as [HP Hx]. by destruct (Hno x).
Qed.

Lemma fetchone_filter_Some {A} (P : A → Prop) `{∀ x, Decision (P x)} (l : list A)
    (x : A) :
  fetchone (filter P l) = Some x → x ∈ l ∧ P x.
Proof.
  unfold fetchone. intros Hh.
  assert (x ∈ filter P l) as Hin.
  { destruct (filter P l); [done|]. injection Hh as ->. apply list_elem_of_here. }
  apply list_elem_of_filter in Hin as [HP Hx]. done.
Qed.

(** Signing up with an email that is registered already: the message is
    flashed, the answer is the redirect back to the form, and nothing else
    changes: no row is added, nobody is signed in, the connection is closed. *)
Theorem signup_duplicate_email `{Runtime} (req : request) (w : world)
    (full_name email password : string) (existing : User.row) :
  method req = POST → faults w = None →
  getitem (form req) "full_name" = Ok full_name →
  getitem (form req) "email" = Ok email →
  getitem (form req) "password" = Ok password →
  existing ∈ users (store w) → User.email existing = email →
  App.signup req w
  = (Ok (Redirect "signup"),
     with_flashes (flashes w ++ [("Email address already registered.", "danger")])
       w).
Proof.
  intros Hm Hf Hname Hemail Hpw Hin Hex. unfold App.signup. rewrite Hm.
  do 6 run_step.
  destruct (fetchone (select_user_by_email email (store w))) as [u|] eqn:Hu.
  - do 3 run_step. unfold redirect, mret, M_ret. world_simpl.
    unfold with_flashes. world_simpl. by rewrite conns_closed.
  - unfold select_user_by_email in Hu.
    pose proof (proj1 (fetchone_filter_None _ _) Hu existing Hin) as Hno.
    by destruct Hno.
Qed.

Lemma signup_run `{Runtime} (req : request) (w : world)
    (full_name email password : string) :
  method req = POST → faults w = None →
  getitem (form req) "full_name" = Ok full_name →
  getitem (form req) "email" = Ok email →
  getitem (form req) "password" = Ok password →
  (∀ u, u ∈ users (store w) → User.email u ≠ email) →
  ∃ w', App.signup req w = (Ok (Redirect "income"), w') ∧
    store w'
    = with_users
        (users (store w) ++
         [User.Row (sequences w users_id_seq) full_name email
            (generate_password_hash (entropy w) password) None])
        (store w) ∧
    session w' = Some (sequences w users_id_seq) ∧
    sequences w' users_id_seq = sequences w users_id_seq + 1 ∧
    conns w' = conns w ∧
    flashes w'
    = flashes w ++ [("Account created! Let's start with your income.", "success")] ∧
    faults w' = None ∧ current_date w' = current_date w.
Proof.
  intros Hm Hf Hname Hemail Hpw Hnew. unfold App.signup. rewrite Hm.
  eexists. split.
  - do 6 run_step.
    destruct (fetchone (select_user_by_email email (store w))) as [u|] eqn:Hu.
    { unfold select_user_by_email in Hu.
      apply fetchone_filter_Some in Hu as [Hu He]. by destruct (Hnew u). }
    repeat run_step. reflexivity.
  - world_simpl. repeat split; try done. conns_restored.
Qed.



(** Somebody signs up with Ann's email. *)
Lemma signup_duplicate_email_ann :
  @App.signup reference_runtime
    (post_request [("full_name", "A"); ("email", "ann@example.org");
                   ("password", "x")])
    (initial_world food_database 0 None)
  = (Ok (Redirect "signup"),
     with_flashes [("Email address already registered.", "danger")]
       (initial_world food_database 0 None)).
Proof.
  exact (@signup_duplicate_email reference_runtime
           (post_request [("full_name", "A"); ("email", "ann@example.org");
                          ("password", "x")])
           (initial_world food_database 0 None) "A" "ann@example.org" "x" ann
           eq_refl eq_refl eq_refl eq_refl eq_refl (list_elem_of_here _ _)
           eq_refl).
Defined.

Lemma signin_run `{Runtime} (req : request) (w : world) (email password : string) :
  method req = POST → faults w = None →
  getitem (form req) "email" = Ok email →
  getitem (form req) "password" = Ok password →
  App.signin req w
  = match credentials_ok email password (store w) with
    | Some user =>
        (Ok (Redirect "dashboard"), with_session (Some (User.id user)) w)
    | None =>
        (Ok (Rendered "signin.html" NoContext (current_user_of w)),
         with_flashes (flashes w ++ [("Invalid email or password.", "danger")]) w)
    end.
Proof.
  intros Hm Hf Hemail Hpw. unfold App.signin, credentials_ok. rewrite Hm.
  do 7 run_step. world_simpl.
  rewrite with_conns_twice, conns_closed, with_conns_same.
  destruct (fetchone (select_user_by_email email (store w))) as [user|].
  - destruct (check_password_hash _ _).
    + by run_step.
    + run_step. by rewrite render_template_run.
  - run_step. by rewrite render_template_run.
Qed.

(** Signing in looks up the first row of [users] with the email.  When there
    is one and the password passes the check against its hash, the session
    holds that user's id and the dashboard is next; otherwise the session is
    as before, the message is flashed and the form is shown again.  In both
    cases the tables and the connections are untouched. *)
Theorem signin_checks_credentials `{Runtime} (req : request) (w : world)
    (email password : string) :
  method req = POST → faults w = None →
  getitem (form req) "email" = Ok email →
  getitem (form req) "password" = Ok password →
  (∀ user, credentials_ok email password (store w) = Some user →
     user ∈ users (store w) ∧ User.email user = email ∧
     check_password_hash (User.password_hash user) password = true ∧
     App.signin req w
     = (Ok (Redirect "dashboard"), with_session (Some (User.id user)) w)) ∧
  (credentials_ok email password (store w) = None →
     ((∀ u, u ∈ users (store w) → User.email u ≠ email) ∨
      ∃ u, u ∈ users (store w) ∧ User.email u = email ∧
           check_password_hash (User.password_hash u) password = false) ∧
     App.signin req w
     = (Ok (Rendered "signin.html" NoContext (current_user_of w)),
        with_flashes (flashes w ++ [("Invalid email or password.", "danger")])
          w)).
Proof.
  intros Hm Hf Hemail Hpw.
  pose proof (signin_run req w email password Hm Hf Hemail Hpw) as Hrun.
  unfold credentials_ok, select_user_by_email in *.
  destruct (fetchone (filter _ (users (store w)))) as [u|] eqn:Hu.
  - apply fetchone_filter_Some in Hu as [Hu He].
    destruct (check_password_hash (User.password_hash u) password) eqn:Hck.
    + split; [|done]. by intros user [= <-].
    + split; [done|]. intros _. split; [|done]. right. eauto.
  - split; [done|]. intros _. split; [|done]. left.
    intros u Hin He. by destruct (proj1 (fetchone_filter_None _ _) Hu u Hin).
Qed.

(** Ann signs in with her password, and then with a wrong one. *)
Lemma signin_checks_credentials_ann :
  @App.signin reference_runtime
    (post_request [("email", "ann@example.org"); ("password", "pw")])
    (initial_world food_database 0 None)
  = (Ok (Redirect "dashboard"),
     with_session (Some 1) (initial_world food_database 0 None)).
Proof.
  refine (proj2 (proj2 (proj2
    (proj1 (@signin_checks_credentials reference_runtime
              (post_request [("email", "ann@example.org"); ("password", "pw")])
              (initial_world food_database 0 None) "ann@example.org" "pw"
              eq_refl eq_refl eq_refl eq_refl) ann _)))).
  reflexivity.
Defined.





(** ** Frames: what a step leaves alone *)

Section frames.
Context {X : Type} (π : world → X).
Hypothesis π_faults : ∀ f w, π (with_faults f w) = π w.
Hypothesis π_sequences : ∀ s w, π (with_sequences s w) = π w.
Hypothesis π_flashes : ∀ l w, π (with_flashes l w) = π w.

Lemma frames_ret {A} (a : A) : frames π (mret a).
Proof. by intros w. Qed.

Lemma frames_bind {A B} (m : M A) (f : A → M B) :
  frames π m → (∀ a, frames π (f a)) → frames π (m ≫= f).
Proof.
  intros Hm Hf w. specialize (Hm w).
  unfold mbind, M_bind. destruct (m w) as [[a|e] w']; simpl in *; [|done].
  by rewrite Hf.
Qed.

Lemma frames_fmap {A B} (f : A → B) (m : M A) : frames π m → frames π (f <$> m).
Proof.
  intros Hm w. specialize (Hm w).
  unfold fmap, M_fmap. by destruct (m w) as [[a|e] w'].
Qed.

Lemma frames_raise {A} (e : exn) : frames π (@raise A e).
Proof. by intros w. Qed.

Lemma frames_lift {A} (o : outcome A) : frames π (lift o).
Proof. by intros w. Qed.

Lemma frames_gets {A} (f : world → A) : frames π (gets f).
Proof. by intros w. Qed.

Lemma frames_modify (f : world → world) :
  (∀ w, π (f w) = π w) → frames π (modify f).
Proof. intros Hf w. apply Hf. Qed.

Lemma frames_for_each {A} (l : list A) (body : A → M unit) :
  (∀ x, frames π (body x)) → frames π (for_each l body).
Proof.
  intros Hbody. induction l as [|x l IH]; simpl.
  - apply frames_ret.
  - apply frames_bind; [apply Hbody|]. intros _. apply IH.
Qed.

Lemma frames_round_trip : frames π round_trip.
Proof.
  intros w. unfold round_trip. destruct (faults w) as [[|n]|]; simpl; auto.
Qed.

Lemma frames_view cur : frames π (view cur).
Proof.
  apply frames_bind; [apply frames_gets|]. intros cs.
  destruct (cs !! cur); [apply frames_ret|apply frames_raise].
Qed.

Lemma frames_query {A} cur (q : date → database → A) : frames π (query cur q).
Proof.
  apply frames_bind; [apply frames_round_trip|]. intros _.
  apply frames_bind; [apply frames_view|]. intros db.
  apply frames_bind; [apply frames_gets|]. intros today. apply frames_ret.
Qed.

Lemma frames_nextval s : frames π (nextval s).
Proof.
  apply frames_bind; [apply frames_gets|]. intros v.
  apply frames_bind; [by apply frames_modify|]. intros _. apply frames_ret.
Qed.

Lemma frames_flash `{Runtime} message category : frames π (flash message category).
Proof. by apply frames_modify. Qed.

Lemma frames_session_user_id : frames π session_user_id.
Proof.
  apply frames_bind; [apply frames_gets|].
  intros [u|]; [apply frames_ret|apply frames_raise].
Qed.

Lemma hoare_frames {A} (P : world → Prop) (m : M A) (E : exn → world → Prop) :
  frames π m → (∀ w w', π w' = π w → P w → P w') → (∀ e w, P w → E e w) →
  hoare P m (λ _, P) E.
Proof.
  intros Hm HP HE w Hw. specialize (Hm w).
  destruct (m w) as [[a|e] w']; simpl in *; eauto.
Qed.
End frames.

Ltac frames_solve :=
  repeat first
    [ apply frames_ret | apply frames_raise | apply frames_lift
    | apply frames_gets | apply frames_round_trip; by intros
    | apply frames_view | apply frames_query; by intros
    | apply frames_nextval; by intros | apply frames_flash; by intros
    | apply frames_session_user_id
    | apply frames_fmap
    | apply frames_modify; intros; reflexivity
    | apply frames_bind; [|intros ?]
    | apply frames_for_each; intros ?
    | match goal with |- frames _ (match ?x with _ => _ end) => destruct x end ].

(** ** A request changes only the rows of its own user *)

Lemma filter_snoc_out {A} (P : A → Prop) `{∀ x, Decision (P x)} (l : list A)
    (x : A) :
  ¬ P x → filter P (l ++ [x]) = filter P l.
Proof.
  intros Hx. rewrite filter_app, filter_cons, decide_False by done.
  by rewrite filter_nil, app_nil_r.
Qed.

Lemma filter_filter_in {A} (P Q : A → Prop) `{∀ x, Decision (P x)}
    `{∀ x, Decision (Q x)} (l : list A) :
  (∀ x, P x → Q x) → filter P (filter Q l) = filter P l.
Proof.
  intros HPQ. induction l as [|x l IH]; [done|].
  rewrite (filter_cons Q). destruct (decide (Q x)) as [HQ|HQ].
  - rewrite !filter_cons. destruct (decide (P x)); by rewrite IH.
  - rewrite IH, filter_cons, decide_False; [done|]. intros HP. by apply HQ, HPQ.
Qed.

Lemma filter_fmap_out {A} (P : A → Prop) `{∀ x, Decision (P x)} (f : A → A)
    (l : list A) :
  (∀ x, f x = x ∨ (¬ P x ∧ ¬ P (f x))) → filter P (f <$> l) = filter P l.
Proof.
  intros Hf. induction l as [|x l IH]; [done|].
  rewrite fmap_cons, !filter_cons, IH.
  destruct (Hf x) as [->|[Hx Hfx]]; [done|].
  by rewrite !decide_False.
Qed.

Section spares.
Context `{Runtime} (other user_id : Z) (Hother : user_id ≠ other).

(** Every branch of a statement either raises or rewrites one table; the
    rows of [other] pass the rewriting unchanged. *)
Ltac spares_solve :=
  intros today db db' Hstmt;
  repeat first
    [ progress unfold and_then, param, not_null, varchar, delete_by_id in *
    | case_match
    | progress simplify_eq ];
  unfold rows_of; simpl; f_equal;
  first
    [ done
    | apply filter_snoc_out; simpl; congruence
    | apply filter_filter_in; intros ? ?; simpl in *; intuition congruence
    | apply filter_fmap_out; intros r; simpl;
      destruct (decide (_ = user_id)); [right; simpl; split; congruence|by left] ].

Lemma spares_upsert_income monthly_income currency :
  spares other (upsert_income user_id monthly_income currency).
Proof. unfold upsert_income. spares_solve. Qed.

Lemma spares_delete_other_incomes : spares other (delete_other_incomes user_id).
Proof. unfold delete_other_incomes. spares_solve. Qed.

Lemma spares_insert_other_income name amount :
  spares other (insert_other_income user_id name amount).
Proof. unfold insert_other_income. spares_solve. Qed.

Lemma spares_upsert_budget total_budget :
  spares other (upsert_budget user_id total_budget).
Proof. unfold upsert_budget. spares_solve. Qed.

Lemma spares_delete_category_budgets :
  spares other (delete_category_budgets user_id).
Proof. unfold delete_category_budgets. spares_solve. Qed.

Lemma spares_insert_category_budget category_name value :
  spares other (insert_category_budget user_id category_name value).
Proof. unfold insert_category_budget. spares_solve. Qed.

Lemma spares_update_profile_picture db_path :
  spares other (update_profile_picture db_path user_id).
Proof. unfold update_profile_picture. spares_solve. Qed.

Lemma spares_insert_goal goal_name target_amount goal_type id :
  spares other (insert_goal user_id goal_name target_amount goal_type id).
Proof. unfold insert_goal. spares_solve. Qed.

Lemma spares_delete_financial_goal goal_id :
  spares other (delete_financial_goal goal_id user_id).
Proof. unfold delete_financial_goal. spares_solve. Qed.

Lemma spares_insert_expense title amount category date description
    payment_method id :
  spares other (insert_expense user_id title amount category date description
                  payment_method id).
Proof. unfold insert_expense. spares_solve. Qed.

Lemma spares_insert_investment name amount type date id :
  spares other (insert_investment user_id name amount type date id).
Proof. unfold insert_investment. spares_solve. Qed.

Lemma spares_delete_investment investment_id :
  spares other (delete_investment investment_id user_id).
Proof. unfold delete_investment. spares_solve. Qed.

Lemma spares_insert_asset asset_name value id :
  spares other (insert_asset user_id asset_name value id).
Proof. unfold insert_asset. spares_solve. Qed.

Lemma spares_insert_liability liability_name amount_owed id :
  spares other (insert_liability user_id liability_name amount_owed id).
Proof. unfold insert_liability. spares_solve. Qed.

Lemma spares_delete_asset item_id : spares other (delete_asset item_id user_id).
Proof. unfold delete_asset. spares_solve. Qed.

Lemma spares_delete_liability item_id :
  spares other (delete_liability item_id user_id).
Proof. unfold delete_liability. spares_solve. Qed.
End spares.

(** *** Requests that only read *)

Section reads.
Context `{Runtime}.

Lemma hoare_view_function_unchanged S ep req :
  App.allowed ep (method req) = true →
  method req = GET ∨ ep = App.Signin ∨ ep = App.ChatApi →
  hoare (unchanged S) (App.view_function ep req)
    (λ _, unchanged S) (λ _, unchanged S).
Proof.
  intros Hallowed Hreads.
  destruct ep, (method req) eqn:Hm; try discriminate Hallowed;
    try (destruct Hreads as [?|[?|?]]; discriminate);
    simpl;
    unfold App.home, App.signup, App.signin, App.logout, App.income, App.budget,
      App.dashboard, App.expense, App.expenses_list, App.investments,
      App.assetdebt, App.reports, App.comprehensive_report_api,
      App.chatbot_page, App.chat_api,
      login_required, render_template, inject_user, get_user_data, redirect;
    rewrite ?Hm; cbv zeta; repeat store_step.
Qed.
End reads.

(** *** The rules of the invariant *)

Section apart.
Context `{Runtime} (other : Z) (R : database).

Lemma apart_frame (w w' : world) :
  scene w' = scene w → apart other R w → apart other R w'.
Proof. unfold scene, apart. intros [= Hc Hs Hse]. by rewrite Hs, Hse. Qed.

Lemma apart_on_frame conn (w w' : world) :
  scene w' = scene w → apart_on other R conn w → apart_on other R conn w'.
Proof.
  intros Hsc [Ha Hconn]. split; [by apply (apart_frame w)|].
  unfold scene in Hsc. injection Hsc as Hc _ _. by rewrite Hc.
Qed.

Lemma apart_kept (w : world) : apart other R w → kept other R w.
Proof. by intros [_ ?]. Qed.

Lemma apart_on_kept conn (w : world) : apart_on other R conn w → kept other R w.
Proof. by intros [[_ ?] _]. Qed.

Lemma hoare_frames_apart {A} (m : M A) :
  frames scene m →
  hoare (apart other R) m (λ _, apart other R) (λ _, kept other R).
Proof.
  intros Hm. apply (hoare_frames scene); [done|apply apart_frame|].
  intros _. apply apart_kept.
Qed.

Lemma hoare_frames_apart_on {A} conn (m : M A) :
  frames scene m →
  hoare (apart_on other R conn) m
    (λ _, apart_on other R conn) (λ _, kept other R).
Proof.
  intros Hm. apply (hoare_frames scene); [done|apply apart_on_frame|].
  intros _. apply apart_on_kept.
Qed.

Lemma hoare_session_user_id_apart :
  hoare (apart other R) session_user_id
    (λ user_id w, user_id ≠ other ∧ apart other R w) (λ _, kept other R).
Proof.
  intros w [Hs HR]. unfold session_user_id, mbind, M_bind, gets.
  destruct (session w) as [user_id|] eqn:Hw; simpl.
  - split; [congruence|]. split; [by rewrite Hw|done].
  - done.
Qed.

Lemma hoare_session_user_id_apart_on conn :
  hoare (apart_on other R conn) session_user_id
    (λ user_id w, user_id ≠ other ∧ apart_on other R conn w)
    (λ _, kept other R).
Proof.
  intros w [[Hs HR] Hc]. unfold session_user_id, mbind, M_bind, gets.
  destruct (session w) as [user_id|] eqn:Hw; simpl.
  - split; [congruence|]. split; [|done]. split; [by rewrite Hw|done].
  - done.
Qed.

Lemma hoare_get_db_connection_apart :
  hoare (apart other R) get_db_connection
    (λ conn, apart_on other R conn) (λ _, kept other R).
Proof.
  intros w [Hs HR]. unfold get_db_connection, mbind, M_bind, round_trip.
  destruct (faults w) as [[|n]|]; simpl; try done.
  - split; [done|]. exists (store w). simpl. by rewrite lookup_insert_eq.
  - split; [done|]. exists (store w). simpl. by rewrite lookup_insert_eq.
Qed.

Lemma hoare_execute_apart conn stmt :
  spares other stmt →
  hoare (apart_on other R conn) (execute conn stmt)
    (λ _, apart_on other R conn) (λ _, kept other R).
Proof.
  intros Hstmt w [[Hs HR] (db & Hc & Hdb)].
  unfold execute, view, mbind, M_bind, round_trip, gets, lift, modify.
  destruct (faults w) as [[|n]|]; simpl; try done.
  - rewrite Hc. simpl. destruct (stmt (current_date w) db) as [db'|e] eqn:Hrun;
      simpl; [|done].
    split; [done|]. exists db'. simpl. rewrite lookup_insert_eq.
    split; [done|]. by rewrite (Hstmt _ _ _ Hrun).
  - rewrite Hc. simpl. destruct (stmt (current_date w) db) as [db'|e] eqn:Hrun;
      simpl; [|done].
    split; [done|]. exists db'. simpl. rewrite lookup_insert_eq.
    split; [done|]. by rewrite (Hstmt _ _ _ Hrun).
Qed.

Lemma hoare_execute_insert_apart conn s stmt :
  (∀ id, spares other (stmt id)) →
  hoare (apart_on other R conn) (execute_insert conn s stmt)
    (λ _, apart_on other R conn) (λ _, kept other R).
Proof.
  intros Hstmt w [[Hs HR] (db & Hc & Hdb)].
  unfold execute_insert, view, nextval, mbind, M_bind, round_trip, gets, lift,
    modify.
  destruct (faults w) as [[|n]|]; simpl; try done.
  - rewrite Hc. simpl.
    destruct (stmt (sequences w s) (current_date w) db) as [db'|e] eqn:Hrun;
      simpl; [|done].
    split; [done|]. exists db'. simpl. rewrite lookup_insert_eq.
    split; [done|]. by rewrite (Hstmt _ _ _ _ Hrun).
  - rewrite Hc. simpl.
    destruct (stmt (sequences w s) (current_date w) db) as [db'|e] eqn:Hrun;
      simpl; [|done].
    split; [done|]. exists db'. simpl. rewrite lookup_insert_eq.
    split; [done|]. by rewrite (Hstmt _ _ _ _ Hrun).
Qed.

Lemma hoare_commit_apart conn :
  hoare (apart_on other R conn) (commit conn)
    (λ _, apart_on other R conn) (λ _, kept other R).
Proof.
  intros w [[Hs HR] (db & Hc & Hdb)].
  unfold commit, view, mbind, M_bind, round_trip, gets, modify.
  destruct (faults w) as [[|n]|]; simpl; try done.
  - rewrite Hc. simpl. split; [done|]. eauto.
  - rewrite Hc. simpl. split; [done|]. eauto.
Qed.

Lemma hoare_close_apart conn :
  hoare (apart_on other R conn) (close conn)
    (λ _, apart other R) (λ _, kept other R).
Proof. by intros w [Ha _]. Qed.
End apart.

Ltac apart_step :=
  lazymatch goal with
  | |- hoare _ (mret _) _ _ => apply hoare_ret; intros; assumption
  | |- hoare _ (raise _) _ _ =>
      apply hoare_raise; intros;
      first [eapply apart_kept; eassumption|eapply apart_on_kept; eassumption]
  | |- hoare _ (get_db_connection ≫= _) _ _ =>
      eapply hoare_bind; [apply hoare_get_db_connection_apart|intros ?]
  | |- hoare _ (close _ ≫= _) _ _ =>
      eapply hoare_bind; [apply hoare_close_apart|intros ?]
  | |- hoare _ (cursor _ ≫= _) _ _ => apply hoare_cursor
  | |- hoare (apart _ _) (session_user_id ≫= _) _ _ =>
      eapply hoare_bind;
      [apply hoare_session_user_id_apart|intros ?; apply hoare_pure; intros ?]
  | |- hoare (apart_on _ _ _) (session_user_id ≫= _) _ _ =>
      eapply hoare_bind;
      [apply hoare_session_user_id_apart_on|intros ?; apply hoare_pure; intros ?]
  | |- hoare ?P (?m ≫= _) _ _ =>
      apply (hoare_bind P m _ (λ _, P)); [solve [repeat apart_step]|intros ?]
  | |- hoare _ (_ <$> _) _ _ => apply hoare_fmap
  | |- hoare _ (match ?x with _ => _ end) _ _ => destruct x
  | |- hoare _ (for_each _ _) _ _ => apply hoare_for_each; intros ?
  | |- hoare _ (execute _ _) _ _ =>
      apply hoare_execute_apart;
      eauto using spares_upsert_income, spares_delete_other_incomes,
        spares_insert_other_income, spares_upsert_budget,
        spares_delete_category_budgets, spares_insert_category_budget,
        spares_update_profile_picture, spares_delete_financial_goal,
        spares_delete_investment, spares_delete_asset, spares_delete_liability
  | |- hoare _ (execute_insert _ _ _) _ _ =>
      apply hoare_execute_insert_apart; intros ?;
      eauto using spares_insert_goal, spares_insert_expense,
        spares_insert_investment, spares_insert_asset, spares_insert_liability
  | |- hoare _ (commit _) _ _ => apply hoare_commit_apart
  | |- hoare (apart _ _) _ _ _ => apply hoare_frames_apart; solve [frames_solve]
  | |- hoare (apart_on _ _ _) _ _ _ =>
      apply hoare_frames_apart_on; solve [frames_solve]
  end.

Section isolation.
Context `{Runtime} (other : Z) (R : database).

Lemma hoare_view_function_apart ep req :
  ep ≠ App.Home → ep ≠ App.Signup → ep ≠ App.Signin → ep ≠ App.Logout →
  hoare (apart other R) (App.view_function ep req)
    (λ _, apart other R) (λ _, kept other R).
Proof.
  intros ? ? ? ?.
  destruct ep; try done; simpl;
    unfold App.income, App.budget,
      App.upload_profile_picture, App.add_goal, App.delete_goal, App.dashboard,
      App.expense, App.expenses_list, App.investments, App.assetdebt,
      App.reports, App.comprehensive_report_api, App.chatbot_page, App.chat_api,
      login_required, render_template, inject_user, get_user_data, redirect;
    cbv zeta; repeat apart_step.
Qed.
End isolation.

(** A request that only reads leaves the stored tables as they are: every
    GET request, to any route and whether or not it returns, and also
    signing in and chatting. *)
Theorem reading_requests_keep_store `{Runtime} (ep : App.endpoint) (req : request)
    (w : world) :
  method req = GET ∨ ep = App.Signin ∨ ep = App.ChatApi →
  store (App.dispatch ep req w).2 = store w.
Proof.
  intros Hreads. unfold App.dispatch.
  destruct (App.allowed ep (method req)) eqn:Hallowed; [|done].
  pose proof (hoare_view_function_unchanged (store w) ep req Hallowed Hreads w
                eq_refl) as Hh.
  by destruct (App.view_function ep req w) as [[r|e] w'].
Qed.

(** Ann opens the investments page. *)
Lemma reading_requests_keep_store_investments :
  store (@App.dispatch reference_runtime App.Investments get_request
           (signed_in food_database 2024 3 10)).2 = food_database.
Proof.
  exact (@reading_requests_keep_store reference_runtime App.Investments
           get_request (signed_in food_database 2024 3 10) (or_introl eq_refl)).
Defined.

(** Whatever a request does (sign-up apart, which adds a user), it changes
    no row of a user other than the one whose session it carries: the rows
    of any other user are the same in every table afterwards, whether the
    request returns or raises. *)
Theorem requests_keep_other_users_rows `{Runtime} (ep : App.endpoint)
    (req : request) (w : world) (other : Z) :
  session w ≠ Some other → ep ≠ App.Signup →
  rows_of other (store (App.dispatch ep req w).2) = rows_of other (store w).
Proof.
  intros Hs Hep. unfold App.dispatch.
  destruct (App.allowed ep (method req)) eqn:Hallowed; [|done].
  assert ((ep = App.Home ∨ ep = App.Signin ∨ ep = App.Logout) ∨
          (ep ≠ App.Home ∧ ep ≠ App.Signin ∧ ep ≠ App.Logout))
    as [Hopen|Hbehind]
    by (destruct ep; first [by auto|right; repeat split; discriminate]).
  - assert (Hreads : method req = GET ∨ ep = App.Signin ∨ ep = App.ChatApi).
    { destruct Hopen as [Hep'|[Hep'|Hep']]; subst ep; [|by auto|];
        destruct (method req); by auto. }
    pose proof (hoare_view_function_unchanged (store w) ep req Hallowed Hreads w
                  eq_refl) as Hh.
    destruct (App.view_function ep req w) as [[r|e] w']; simpl;
      unfold unchanged in Hh; by rewrite Hh.
  - pose proof (hoare_view_function_apart other (rows_of other (store w)) ep req)
      as Hh.
    assert (Hw : apart other (rows_of other (store w)) w) by done.
    specialize (Hh ltac:(tauto) Hep ltac:(tauto) ltac:(tauto) w Hw).
    destruct (App.view_function ep req w) as [[r|e] w']; simpl;
      [by destruct Hh|done].
Qed.

(** Ann adds a goal; Bob's rows stay. *)
Lemma requests_keep_other_users_rows_bob :
  rows_of 2
    (store (@App.dispatch reference_runtime App.AddGoal
              (post_request [("goal_name", "Car"); ("target_amount", "5000");
                             ("goal_type", "long")])
              (signed_in goals_database 2024 3 10)).2)
  = rows_of 2 goals_database.
Proof.
  apply (@requests_keep_other_users_rows reference_runtime App.AddGoal
           (post_request [("goal_name", "Car"); ("target_amount", "5000");
                          ("goal_type", "long")])
           (signed_in goals_database 2024 3 10) 2); done.
Defined.

(** ** Saving the income and the budget forms *)

Lemma with_conns_insert_same (w : world) (cur : connection) (db : database) :
  conns w !! cur = Some db → with_conns (<[cur := db]> (conns w)) w = w.
Proof. intros Hc. by rewrite insert_id, with_conns_same. Qed.

(** A loop that executes one statement for each element it keeps runs the
    statements of the kept elements in order. *)
Lemma for_each_execute_run {A} (cur : connection) (body : A → M unit)
    (keep : A → bool) (stmt : A → date → database → outcome database)
    (l : list A) :
  (∀ x, body x = if keep x then execute cur (stmt x) else mret ()) →
  ∀ (w : world) (db db' : database),
    faults w = None → conns w !! cur = Some db →
    run_statements (stmt <$> filter keep l) (current_date w) db = Ok db' →
    for_each l body w = (Ok (), with_conns (<[cur := db']> (conns w)) w).
Proof.
  intros Hbody. induction l as [|x l IH]; intros w db db' Hf Hc Hrun.
  - simpl in *. injection Hrun as <-. by rewrite with_conns_insert_same.
  - simpl. rewrite filter_cons in Hrun. rewrite Hbody.
    destruct (keep x) eqn:Hx; simpl in Hrun.
    + destruct (stmt x (current_date w) db) as [db1|e] eqn:Hstmt; [|done].
      rewrite (run_bind _ _ _ _ _ (run_execute cur _ w db db1 Hf Hc Hstmt)).
      rewrite (IH _ db1 db'); world_simpl; [|done|apply lookup_insert_eq|done].
      by rewrite with_conns_twice, insert_insert_eq.
    + unfold mbind at 1, M_bind at 1, mret at 1, M_ret at 1.
      by apply (IH w db db').
Qed.

Section forms.
Context `{Runtime}.

Lemma run_insert_other_incomes (user_id : Z) (pairs : list (string * string))
    (amounts : list decimal) (today : date) (db : database) :
  Forall2 (λ p a, numeric_in p.2 = Some a) pairs amounts →
  run_statements ((λ p, insert_other_income user_id p.1 p.2) <$> pairs) today db
  = Ok (with_other_incomes
          (other_incomes db ++
           zip_with (λ p a, OtherIncome.Row user_id p.1 a) pairs amounts) db).
Proof.
  intros Hall. revert db.
  induction Hall as [|p a pairs amounts Hp Hall IH]; intros db; simpl.
  - rewrite app_nil_r. by destruct db.
  - unfold insert_other_income at 1, param. rewrite Hp. rewrite IH. simpl.
    by rewrite <- app_assoc.
Qed.

Lemma run_insert_category_budgets (user_id : Z) (pairs : list (string * string))
    (amounts : list decimal) (today : date) (db : database) :
  Forall2 (λ kv a, numeric_in kv.2 = Some a) pairs amounts →
  run_statements
    ((λ kv, insert_category_budget user_id (category_name_of kv.1) kv.2) <$> pairs)
    today db
  = Ok (with_category_budgets
          (category_budgets db ++
           zip_with (λ kv a, CategoryBudget.Row user_id (category_name_of kv.1) a)
             pairs amounts) db).
Proof.
  intros Hall. revert db.
  induction Hall as [|p a pairs amounts Hp Hall IH]; intros db; simpl.
  - rewrite app_nil_r. by destruct db.
  - unfold insert_category_budget at 1, param. rewrite Hp. rewrite IH. simpl.
    by rewrite <- app_assoc.
Qed.

(** After the upsert the user has an income row, and each of their rows is
    the new one. *)
Lemma upsert_income_rows (user_id : Z) (l : list Income.row) (new : Income.row) :
  Income.user_id new = user_id →
  filter (λ r, Income.user_id r = user_id)
    (if decide (Exists (λ r, Income.user_id r = user_id) l)
     then (λ r, if decide (Income.user_id r = user_id) then new else r) <$> l
     else l ++ [new])
  = replicate (Nat.max 1 (length (filter (λ r, Income.user_id r = user_id) l)))
      new.
Proof.
  intros Hnew. destruct (decide _) as [Hex|Hex].
  - assert (Hlen : (0 < length (filter (λ r, Income.user_id r = user_id) l))%nat).
    { apply Exists_exists in Hex as (r & Hr & Hu).
      assert (r ∈ filter (λ r, Income.user_id r = user_id) l) as Hin
        by by apply list_elem_of_filter.
      destruct (filter _ l); [by apply elem_of_nil in Hin|simpl; lia]. }
    rewrite Nat.max_r by lia. clear Hex Hlen.
    induction l as [|r l IH]; [done|].
    rewrite fmap_cons, !filter_cons.
    destruct (decide (Income.user_id r = user_id)) as [Hr|Hr].
    + rewrite decide_True by done. simpl. by rewrite IH.
    + rewrite decide_False by done. done.
  - rewrite filter_app, filter_cons, decide_True by done.
    assert (filter (λ r, Income.user_id r = user_id) l = []) as ->.
    { apply (proj1 (head_None _)), fetchone_filter_None.
      intros r Hr Hu. apply Hex, Exists_exists. eauto. }
    done.
Qed.

Lemma upsert_budget_rows (user_id : Z) (l : list Budget.row) (new : Budget.row) :
  Budget.user_id new = user_id →
  filter (λ r, Budget.user_id r = user_id)
    (if decide (Exists (λ r, Budget.user_id r = user_id) l)
     then (λ r, if decide (Budget.user_id r = user_id) then new else r) <$> l
     else l ++ [new])
  = replicate (Nat.max 1 (length (filter (λ r, Budget.user_id r = user_id) l)))
      new.
Proof.
  intros Hnew. destruct (decide _) as [Hex|Hex].
  - assert (Hlen : (0 < length (filter (λ r, Budget.user_id r = user_id) l))%nat).
    { apply Exists_exists in Hex as (r & Hr & Hu).
      assert (r ∈ filter (λ r, Budget.user_id r = user_id) l) as Hin
        by by apply list_elem_of_filter.
      destruct (filter _ l); [by apply elem_of_nil in Hin|simpl; lia]. }
    rewrite Nat.max_r by lia. clear Hex Hlen.
    induction l as [|r l IH]; [done|].
    rewrite fmap_cons, !filter_cons.
    destruct (decide (Budget.user_id r = user_id)) as [Hr|Hr].
    + rewrite decide_True by done. simpl. by rewrite IH.
    + rewrite decide_False by done. done.
  - rewrite filter_app, filter_cons, decide_True by done.
    assert (filter (λ r, Budget.user_id r = user_id) l = []) as ->.
    { apply (proj1 (head_None _)), fetchone_filter_None.
      intros r Hr Hu. apply Hex, Exists_exists. eauto. }
    done.
Qed.
End forms.

Ltac db_simpl :=
  cbn [users incomes other_incomes budgets category_budgets expenses investments
       assets liabilities financial_goals with_users with_incomes
       with_other_incomes with_budgets with_category_budgets with_expenses
       with_investments with_assets with_liabilities with_financial_goals].

Lemma filter_none {A} (P : A → Prop) `{∀ x, Decision (P x)} (l : list A) :
  (∀ x, x ∈ l → ¬ P x) → filter P l = [].
Proof.
  intros Hno. induction l as [|x l IH]; [done|].
  rewrite filter_cons, decide_False by (apply Hno; left).
  apply IH. intros y Hy. apply Hno. by right.
Qed.

Lemma filter_every {A} (P : A → Prop) `{∀ x, Decision (P x)} (l : list A) :
  (∀ x, x ∈ l → P x) → filter P l = l.
Proof.
  intros Hall. induction l as [|x l IH]; [done|].
  rewrite filter_cons, decide_True by (apply Hall; left).
  f_equal. apply IH. intros y Hy. apply Hall. by right.
Qed.

Lemma elem_of_zip_with_row {A B C} (f : A → B → C) (l : list A) (k : list B)
    (z : C) :
  z ∈ zip_with f l k → ∃ x y, z = f x y ∧ x ∈ l ∧ y ∈ k.
Proof.
  revert k. induction l as [|x l IH]; intros [|y k] Hz; simpl in Hz;
    try by apply elem_of_nil in Hz.
  apply elem_of_cons in Hz as [->|Hz].
  - exists x, y. split; [done|]. split; left.
  - destruct (IH k Hz) as (x' & y' & -> & ? & ?).
    exists x', y'. split; [done|]. split; by right.
Qed.

Lemma fmap_zip_with_pairs {A B C D} (f : A → B → C) (g : C → D * B)
    (h : A → D) (l : list A) (k : list B) :
  (∀ x y, g (f x y) = (h x, y)) → g <$> zip_with f l k = zip (h <$> l) k.
Proof.
  intros Hg. revert k. induction l as [|x l IH]; intros [|y k]; simpl; try done.
  by rewrite Hg, IH.
Qed.

(** Saving the income form: the user's income row holds the submitted
    income and currency; the user's other incomes are deleted and replaced
    by the submitted sources, in the order of the form, the pairs with an
    empty name or amount left out; the rows of the other tables and of the
    other users stay. *)
Theorem income_saves `{Runtime} (req : request) (w : world) (user_id : Z)
    (monthly_income currency : string) (m : decimal) (amounts : list decimal) :
  session w = Some user_id → method req = POST → faults w = None →
  getitem (form req) "monthly_income" = Ok monthly_income →
  getitem (form req) "currency" = Ok currency →
  numeric_in monthly_income = Some m →
  Forall2 (λ p a, numeric_in p.2 = Some a) (submitted_sources req) amounts →
  ∃ w', App.income req w = (Ok (Redirect "budget"), w') ∧
    other_incomes (store w')
    = filter (λ r, OtherIncome.user_id r ≠ user_id) (other_incomes (store w)) ++
      zip_with (λ p a, OtherIncome.Row user_id p.1 a) (submitted_sources req)
        amounts ∧
    select_other_incomes user_id (store w')
    = zip (submitted_sources req).*1 amounts ∧
    fetchone (select_monthly_income user_id (store w')) = Some m ∧
    fetchone (select_currency user_id (store w')) = Some currency ∧
    filter (λ r, Income.user_id r ≠ user_id) (incomes (store w'))
    = filter (λ r, Income.user_id r ≠ user_id) (incomes (store w)) ∧
    store w'
    = with_other_incomes (other_incomes (store w'))
        (with_incomes (incomes (store w')) (store w)) ∧
    conns w' = conns w ∧
    flashes w' = flashes w ++ [("Income details saved.", "success")].
Proof.
  intros Hs Hm Hf Hincome Hcurrency Hnum Hall.
  set (new := Income.Row user_id m currency).
  set (db1 := with_incomes
                (if decide (Exists (λ r, Income.user_id r = user_id)
                              (incomes (store w)))
                 then (λ r, if decide (Income.user_id r = user_id) then new else r)
                        <$> incomes (store w)
                 else incomes (store w) ++ [new]) (store w)).
  assert (Hupsert : upsert_income user_id monthly_income currency (current_date w)
                      (store w) = Ok db1).
  { unfold upsert_income, param. by rewrite Hnum. }
  eexists. split.
  - unfold App.income. rewrite (run_login_required _ _ _ Hs).
    run_step. rewrite Hm. do 6 run_step.
    etransitivity.
    { apply run_bind.
      eapply (for_each_execute_run _ _ (λ p, truthy p.1 && truthy p.2)
                (λ p, insert_other_income user_id p.1 p.2)).
      - by intros [name amount].
      - by world_simpl.
      - world_simpl. apply lookup_insert_eq.
      - world_simpl. apply run_insert_other_incomes. exact Hall. }
    cbv beta. repeat run_step. reflexivity.
  - world_simpl. db_simpl.
    assert (Hmine : filter (λ r, Income.user_id r = user_id) (incomes db1)
                    = replicate
                        (Nat.max 1 (length (filter (λ r, Income.user_id r = user_id)
                                              (incomes (store w))))) new)
      by by apply upsert_income_rows.
    split; [done|]. split; [|split; [|split; [|split; [|split]]]].
    + unfold select_other_incomes. db_simpl. rewrite filter_app.
      rewrite filter_none, filter_every.
      * simpl. by apply fmap_zip_with_pairs.
      * by intros r (p & a & -> & _)%elem_of_zip_with_row.
      * intros r [Hr _]%list_elem_of_filter. done.
    + unfold select_monthly_income. db_simpl. rewrite Hmine.
      by destruct (length _).
    + unfold select_currency. db_simpl. rewrite Hmine.
      by destruct (length _).
    + db_simpl. unfold db1. db_simpl. destruct (decide _).
      * apply filter_fmap_out. intros r.
        destruct (decide (Income.user_id r = user_id)); [right|by left].
        split; simpl; tauto.
      * apply filter_snoc_out. simpl. tauto.
    + db_simpl. unfold db1. by destruct (store w).
    + split; [conns_restored|done].
Qed.

(** Ann saves an income of 1000 EUR with three other sources, one of them
    without a name. *)
Lemma income_saves_ann :
  ∃ w', @App.income reference_runtime (post_request income_form_ok)
          (signed_in salary_clash_database 2024 3 13)
        = (Ok (Redirect "budget"), w') ∧
    select_other_incomes 1 (store w')
    = [("Rent", dec 200 1); ("Gifts", dec 50 1)].
Proof.
  destruct (@income_saves reference_runtime (post_request income_form_ok)
              (signed_in salary_clash_database 2024 3 13) 1 "1000" "EUR"
              (dec 1000 1) [dec 200 1; dec 50 1]
              eq_refl eq_refl eq_refl eq_refl eq_refl eq_refl)
    as (w' & Hrun & _ & Hsel & _).
  - repeat constructor.
  - exists w'. split; [exact Hrun|]. rewrite Hsel. reflexivity.
Defined.




(** ** Goals *)

Lemma delete_goal_run `{Runtime} (goal_id user_id : Z) (req : request) (w : world) :
  session w = Some user_id → faults w = None →
  ∃ w', App.delete_goal goal_id req w = (Ok (Redirect "dashboard"), w') ∧
    store w'
    = with_financial_goals
        (filter (λ g, ¬ (Goal.id g = goal_id ∧ Goal.user_id g = user_id))
           (financial_goals (store w))) (store w) ∧
    conns w' = conns w ∧
    flashes w' = flashes w ++ [("Goal removed.", "info")] ∧
    faults w' = None ∧ session w' = session w ∧
    current_date w' = current_date w ∧ sequences w' = sequences w.
Proof.
  intros Hs Hf. eexists. split.
  - unfold App.delete_goal. rewrite (run_login_required _ _ _ Hs).
    repeat run_step. reflexivity.
  - world_simpl. repeat split; try done. conns_restored.
Qed.

(** Deleting a goal removes the rows of [financial_goals] that have the id
    and belong to the signed-in user, and nothing else: a goal is there
    afterwards exactly when it was there before and has another id or
    another owner; every other table is as it was. *)
Theorem delete_goal_removes `{Runtime} (goal_id user_id : Z) (req : request)
    (w : world) :
  session w = Some user_id → faults w = None →
  ∃ w', App.delete_goal goal_id req w = (Ok (Redirect "dashboard"), w') ∧
    (∀ g, g ∈ financial_goals (store w') ↔
          g ∈ financial_goals (store w) ∧
          ¬ (Goal.id g = goal_id ∧ Goal.user_id g = user_id)) ∧
    select_goals user_id (store w')
    = filter (λ g, Goal.id g ≠ goal_id) (select_goals user_id (store w)) ∧
    store w' = with_financial_goals (financial_goals (store w')) (store w) ∧
    conns w' = conns w ∧
    flashes w' = flashes w ++ [("Goal removed.", "info")].
Proof.
  intros Hs Hf.
  destruct (delete_goal_run goal_id user_id req w Hs Hf)
    as (w' & Hrun & Hst & Hc & Hfl & _).
  exists w'. split; [done|]. rewrite Hst. db_simpl.
  split; [|split; [|done]].
  - intros g. rewrite list_elem_of_filter. tauto.
  - unfold select_goals. db_simpl.
    rewrite !list_filter_filter. apply list_filter_iff. intros g. tauto.
Qed.

(** Ann deletes her goal 8. *)
Lemma delete_goal_removes_ann :
  ∃ w', @App.delete_goal reference_runtime 8 (post_request [])
          (signed_in goals_database 2024 3 10)
        = (Ok (Redirect "dashboard"), w') ∧
    select_goals 1 (store w') = [].
Proof.
  destruct (@delete_goal_removes reference_runtime 8 1 (post_request [])
              (signed_in goals_database 2024 3 10) eq_refl eq_refl)
    as (w' & Hrun & _ & Hsel & _).
  exists w'. split; [exact Hrun|]. rewrite Hsel. reflexivity.
Defined.

Lemma add_goal_run `{Runtime} (req : request) (w : world) (user_id : Z)
    (goal_name target_amount goal_type : string) (a : decimal) :
  session w = Some user_id → faults w = None →
  get (form req) "goal_name" = Some goal_name →
  get (form req) "target_amount" = Some target_amount →
  get (form req) "goal_type" = Some goal_type →
  (String.length goal_name ≤ 100)%nat → (String.length goal_type ≤ 50)%nat →
  numeric_in target_amount = Some a →
  (∃ u, u ∈ users (store w) ∧ User.id u = user_id) →
  ∃ w', App.add_goal req w = (Ok (Redirect "dashboard"), w') ∧
    store w'
    = with_financial_goals
        (financial_goals (store w) ++
         [Goal.Row (sequences w financial_goals_id_seq) user_id goal_name a
            goal_type (current_date w)]) (store w) ∧
    sequences w' financial_goals_id_seq
    = sequences w financial_goals_id_seq + 1 ∧
    conns w' = conns w ∧
    flashes w' = flashes w ++ [("Financial goal added!", "success")] ∧
    faults w' = None ∧ session w' = session w ∧
    current_date w' = current_date w.
Proof.
  intros Hs Hf Hname Hamount Htype Hlen Hlen' Hnum (u & Hu & Hid).
  assert (Hstmt : insert_goal user_id (get (form req) "goal_name")
                    (get (form req) "target_amount") (get (form req) "goal_type")
                    (sequences w financial_goals_id_seq) (current_date w) (store w)
                  = Ok (with_financial_goals
                          (financial_goals (store w) ++
                           [Goal.Row (sequences w financial_goals_id_seq) user_id
                              goal_name a goal_type (current_date w)]) (store w))).
  { rewrite Hname, Hamount, Htype. unfold insert_goal, and_then, not_null, varchar,
      param. rewrite !decide_True by done. rewrite Hnum.
    rewrite decide_True; [done|]. apply Exists_exists. eauto. }
  eexists. split.
  - unfold App.add_goal. rewrite (run_login_required _ _ _ Hs).
    repeat run_step. reflexivity.
  - world_simpl. repeat split; try done. conns_restored.
Qed.

(** Adding a goal appends one row to [financial_goals]: the next id of the
    sequence, the signed-in user as owner, the three submitted fields and
    today's date.  The fields must be there, the name and the type within
    the width of their columns, the amount a number that the column stores
    as it is, and the user a row of [users]. *)
Theorem add_goal_appends `{Runtime} (req : request) (w : world) (user_id : Z)
    (goal_name target_amount goal_type : string) (a : decimal) :
  session w = Some user_id → faults w = None →
  get (form req) "goal_name" = Some goal_name →
  get (form req) "target_amount" = Some target_amount →
  get (form req) "goal_type" = Some goal_type →
  (String.length goal_name ≤ 100)%nat → (String.length goal_type ≤ 50)%nat →
  numeric_in target_amount = Some a → numeric_15_2 a →
  (∃ u, u ∈ users (store w) ∧ User.id u = user_id) →
  ∃ w', App.add_goal req w = (Ok (Redirect "dashboard"), w') ∧
    store w'
    = with_financial_goals
        (financial_goals (store w) ++
         [Goal.Row (sequences w financial_goals_id_seq) user_id goal_name a
            goal_type (current_date w)]) (store w) ∧
    sequences w' financial_goals_id_seq
    = sequences w financial_goals_id_seq + 1 ∧
    conns w' = conns w ∧
    flashes w' = flashes w ++ [("Financial goal added!", "success")].
Proof.
  intros Hs Hf Hname Hamount Htype Hlen Hlen' Hnum _ Hu.
  destruct (add_goal_run req w user_id goal_name target_amount goal_type a
              Hs Hf Hname Hamount Htype Hlen Hlen' Hnum Hu)
    as (w' & Hrun & Hst & Hq & Hc & Hfl & _).
  by exists w'.
Qed.

(** A goal added and then deleted by its id leaves [financial_goals] as it
    was, provided the id drawn from the sequence was not in use for a goal
    of the user. *)
Theorem add_then_delete_goal `{Runtime} (req req' : request) (w : world)
    (user_id : Z) (goal_name target_amount goal_type : string) (a : decimal) :
  session w = Some user_id → faults w = None →
  get (form req) "goal_name" = Some goal_name →
  get (form req) "target_amount" = Some target_amount →
  get (form req) "goal_type" = Some goal_type →
  (String.length goal_name ≤ 100)%nat → (String.length goal_type ≤ 50)%nat →
  numeric_in target_amount = Some a → numeric_15_2 a →
  (∃ u, u ∈ users (store w) ∧ User.id u = user_id) →
  (∀ g, g ∈ financial_goals (store w) → Goal.user_id g = user_id →
        Goal.id g ≠ sequences w financial_goals_id_seq) →
  ∃ w', (App.add_goal req ≫= λ _,
         App.delete_goal (sequences w financial_goals_id_seq) req') w
        = (Ok (Redirect "dashboard"), w') ∧
    store w' = store w ∧ conns w' = conns w.
Proof.
  intros Hs Hf Hname Hamount Htype Hlen Hlen' Hnum _ Hu Hfresh.
  destruct (add_goal_run req w user_id goal_name target_amount goal_type a
              Hs Hf Hname Hamount Htype Hlen Hlen' Hnum Hu)
    as (w1 & Hrun & Hst & Hq & Hc & Hfl & Hf1 & Hs1 & Hd1).
  rewrite Hs in Hs1.
  destruct (delete_goal_run (sequences w financial_goals_id_seq) user_id req' w1
              Hs1 Hf1)
    as (w2 & Hrun2 & Hst2 & Hc2 & _).
  exists w2. split; [by rewrite (run_bind _ _ _ _ _ Hrun)|].
  split; [|congruence].
  rewrite Hst2, Hst. db_simpl. rewrite filter_app, filter_cons, decide_False
    by (simpl; tauto).
  rewrite filter_nil, app_nil_r, filter_every; [by destruct (store w)|].
  intros g Hg [Hid Hu']. by apply (Hfresh g).
Qed.

(** Ann adds a goal: it gets the next id of the sequence. *)
Lemma add_goal_appends_ann :
  ∃ w', @App.add_goal reference_runtime (post_request goal_form)
          (signed_in goals_database 2024 3 10)
        = (Ok (Redirect "dashboard"), w') ∧
    select_goals 1 (store w')
    = [Goal.Row 8 1 "Trip" (dec 900 1) "long" 19001;
       Goal.Row 1 1 "Car" (dec 5000 1) "long" (days_from_civil 2024 3 10)].
Proof.
  destruct (@add_goal_appends reference_runtime (post_request goal_form)
              (signed_in goals_database 2024 3 10) 1 "Car" "5000" "long"
              (dec 5000 1) eq_refl eq_refl eq_refl eq_refl eq_refl)
    as (w' & Hrun & Hst & _).
  - simpl. lia.
  - simpl. lia.
  - reflexivity.
  - exists 500000. split; [decimal_eq|done].
  - exists ann. split; [apply list_elem_of_here|reflexivity].
  - exists w'. split; [exact Hrun|]. rewrite Hst. reflexivity.
Defined.

(** Ann adds a goal and deletes it again. *)
Lemma add_then_delete_goal_ann :
  ∃ w', (@App.add_goal reference_runtime (post_request goal_form) ≫= λ _,
         @App.delete_goal reference_runtime 1 (post_request []))
          (signed_in goals_database 2024 3 10)
        = (Ok (Redirect "dashboard"), w') ∧
    store w' = goals_database.
Proof.
  destruct (@add_then_delete_goal reference_runtime (post_request goal_form)
              (post_request []) (signed_in goals_database 2024 3 10) 1
              "Car" "5000" "long" (dec 5000 1)
              eq_refl eq_refl eq_refl eq_refl eq_refl)
    as (w' & Hrun & Hst & _).
  - simpl. lia.
  - simpl. lia.
  - reflexivity.
  - exists 500000. split; [decimal_eq|done].
  - exists ann. split; [apply list_elem_of_here|reflexivity].
  - intros g Hg _. simpl in Hg.
    apply elem_of_cons in Hg as [->|Hg]; [done|].
    apply list_elem_of_singleton in Hg as ->. done.
  - exists w'. split; [exact Hrun|exact Hst].
Defined.

(** A goal form with a field missing: [request.form.get] gives [None], the
    INSERT binds NULL to a NOT NULL column and raises.  When the fields that
    are there are acceptable to their columns, the error is the integrity
    error; nothing is stored and no message is flashed. *)
Theorem add_goal_missing_field `{Runtime} (req : request) (w : world)
    (user_id : Z) :
  session w = Some user_id → faults w = None →
  (∀ s, get (form req) "goal_name" = Some s → (String.length s ≤ 100)%nat) →
  (∀ s, get (form req) "target_amount" = Some s →
        ∃ a, numeric_in s = Some a ∧ numeric_15_2 a) →
  (∀ s, get (form req) "goal_type" = Some s → (String.length s ≤ 50)%nat) →
  get (form req) "goal_name" = None ∨ get (form req) "target_amount" = None ∨
  get (form req) "goal_type" = None →
  ∃ w', App.add_goal req w = (Raise IntegrityError, w') ∧
    store w' = store w ∧ flashes w' = flashes w.
Proof.
  intros Hs Hf Hname Hamount Htype Hmissing.
  assert (Hstmt : insert_goal user_id (get (form req) "goal_name")
                    (get (form req) "target_amount") (get (form req) "goal_type")
                    (sequences w financial_goals_id_seq) (current_date w) (store w)
                  = Raise IntegrityError).
  { unfold insert_goal, and_then, not_null, varchar, param.
    destruct (get (form req) "goal_name") as [name|]; [|done].
    rewrite decide_True by by apply Hname.
    destruct (get (form req) "target_amount") as [amount|]; [|done].
    destruct (Hamount amount eq_refl) as (a & -> & _).
    destruct (get (form req) "goal_type") as [type|]; [|done].
    by destruct Hmissing as [?|[?|?]]. }
  eexists. split.
  - unfold App.add_goal. rewrite (run_login_required _ _ _ Hs).
    do 3 run_step.
    apply run_bind_raise.
    eapply run_execute_insert_raise; [by world_simpl|..].
    + world_simpl. apply lookup_insert_eq.
    + world_simpl. exact Hstmt.
  - by world_simpl.
Qed.

(** Ann submits a goal without its type. *)
Lemma add_goal_missing_field_ann :
  ∃ w', @App.add_goal reference_runtime
          (post_request [("goal_name", "Car"); ("target_amount", "5000")])
          (signed_in goals_database 2024 3 10)
        = (Raise IntegrityError, w') ∧
    store w' = goals_database.
Proof.
  destruct (@add_goal_missing_field reference_runtime
              (post_request [("goal_name", "Car"); ("target_amount", "5000")])
              (signed_in goals_database 2024 3 10) 1 eq_refl eq_refl)
    as (w' & Hrun & Hst & _).
  - intros s [= <-]. simpl. lia.
  - intros s [= <-]. exists (dec 5000 1). split; [reflexivity|].
    exists 500000. split; [decimal_eq|done].
  - intros s [=].
  - right. right. reflexivity.
  - exists w'. split; [exact Hrun|exact Hst].
Defined.

(** ** Expenses *)



Ltac here := repeat first [apply list_elem_of_here|apply list_elem_of_further].

(** An expense form without one of its five required fields is refused
    before anything happens: the handler raises the key error of the first
    field that is missing, and the world is exactly as it was: no
    connection was opened, nothing stored, nothing flashed. *)
Theorem expense_missing_field `{Runtime} (req : request) (w : world)
    (user_id : Z) :
  session w = Some user_id → method req = POST →
  (∃ key, key ∈ expense_required ∧ get (form req) key = None) →
  ∃ key, key ∈ expense_required ∧ get (form req) key = None ∧
    App.expense req w = (Raise (BadRequestKeyError key), w).
Proof.
  intros Hs Hm (key & Hkey & Hnone).
  unfold App.expense. rewrite (run_login_required _ _ _ Hs), Hm.
  unfold getitem, get in *.
  assert (Hstep : ∀ (k : string) (f : string → M response),
            (lift match dict_get k (form req) with
                  | Some v => Ok v
                  | None => Raise (BadRequestKeyError k)
                  end ≫= f) w
            = match dict_get k (form req) with
              | Some v => f v w
              | None => (Raise (BadRequestKeyError k), w)
              end).
  { intros k f. unfold mbind, M_bind, lift. by destruct (dict_get k (form req)). }
  unfold expense_required in *.
  rewrite Hstep.
  destruct (dict_get "title" (form req)) eqn:H1;
    [|exists "title"; split; [here|done]].
  rewrite Hstep.
  destruct (dict_get "amount" (form req)) eqn:H2;
    [|exists "amount"; split; [here|done]].
  rewrite Hstep.
  destruct (dict_get "category" (form req)) eqn:H3;
    [|exists "category"; split; [here|done]].
  rewrite Hstep.
  destruct (dict_get "date" (form req)) eqn:H4;
    [|exists "date"; split; [here|done]].
  cbv zeta. rewrite Hstep.
  destruct (dict_get "payment_method" (form req)) eqn:H5;
    [|exists "payment_method"; split; [here|done]].
  exfalso. rewrite !elem_of_cons, elem_of_nil in Hkey.
  destruct Hkey as [->|[->|[->|[->|[->|[]]]]]]; congruence.
Qed.

(** Ann submits an expense without a date. *)
Lemma expense_missing_field_ann :
  ∃ key, key ∈ expense_required ∧
    @App.expense reference_runtime
      (post_request [("title", "Lunch"); ("amount", "12"); ("category", "Food")])
      (signed_in food_database 2024 3 10)
    = (Raise (BadRequestKeyError key), signed_in food_database 2024 3 10).
Proof.
  destruct (@expense_missing_field reference_runtime
              (post_request [("title", "Lunch"); ("amount", "12");
                             ("category", "Food")])
              (signed_in food_database 2024 3 10) 1 eq_refl eq_refl)
    as (key & Hkey & _ & Hrun).
  - exists "date". split; [|reflexivity]. unfold expense_required. here.
  - exists key. split; [exact Hkey|exact Hrun].
Defined.

(** ** The profile picture *)

(** An upload without a file part, or with an empty file name, stores
    nothing and saves nothing: the message is flashed, the dashboard is
    next, and the world is otherwise exactly as before. *)
Lemma upload_profile_picture_without_file `{Runtime} (req : request)
    (w : world) (user_id : Z) :
  session w = Some user_id →
  (get (files req) "profile_pic" = None →
   App.upload_profile_picture req w
   = (Ok (Redirect "dashboard"),
      with_flashes (flashes w ++ [("No file part", "danger")]) w)) ∧
  (get (files req) "profile_pic" = Some "" →
   App.upload_profile_picture req w
   = (Ok (Redirect "dashboard"),
      with_flashes (flashes w ++ [("No selected file", "danger")]) w)).
Proof.
  intros Hs. unfold App.upload_profile_picture.
  rewrite (run_login_required _ _ _ Hs).
  split; intros Hfile; run_step; by rewrite Hfile.
Qed.

Lemma upload_profile_picture_run `{Runtime} (req : request) (w : world)
    (user_id : Z) (filename : string) :
  session w = Some user_id → faults w = None →
  get (files req) "profile_pic" = Some filename → filename ≠ "" →
  let path := "uploads/profile_pics/" +:+
              (uuid4 (entropy w) +:+ (splitext (secure_filename filename)).2) in
  ∃ w', App.upload_profile_picture req w = (Ok (Redirect "dashboard"), w') ∧
    saved_files w' = saved_files w ++ [path] ∧
    users (store w')
    = (λ u, if decide (User.id u = user_id)
            then User.Row (User.id u) (User.full_name u) (User.email u)
                   (User.password_hash u) (Some path)
            else u) <$> users (store w) ∧
    (∀ u, u ∈ users (store w') → User.id u = user_id →
          User.profile_picture_url u = Some path) ∧
    store w' = with_users (users (store w')) (store w) ∧
    entropy w' = S (entropy w) ∧
    conns w' = conns w ∧
    flashes w' = flashes w ++ [("Profile picture updated!", "success")].
Proof.
  intros Hs Hf Hfile Hname path.
  eexists. split.
  - unfold App.upload_profile_picture. rewrite (run_login_required _ _ _ Hs).
    run_step. rewrite Hfile.
    rewrite (proj2 (String.eqb_neq filename "") Hname).
    repeat run_step. reflexivity.
  - world_simpl. db_simpl. split; [done|]. split; [done|].
    split; [|split; [done|split; [done|split; [conns_restored|done]]]].
    intros u (u0 & -> & Hu0)%list_elem_of_fmap.
    destruct (decide (User.id u0 = user_id)); [done|]. simpl. done.
Qed.



(** ** Investments, assets and liabilities *)

Ltac run_block :=
  etransitivity; [apply run_bind; repeat run_step; reflexivity|]; cbv beta zeta.

Lemma investments_add_run `{Runtime} (req : request) (w : world)
    (user_id : Z) (name amount type date : string) (a : decimal) (d : Z) :
  session w = Some user_id → method req = POST → faults w = None →
  get (form req) "action" = Some "add" →
  getitem (form req) "investment_name" = Ok name →
  getitem (form req) "amount_invested" = Ok amount →
  getitem (form req) "investment_type" = Ok type →
  getitem (form req) "investment_date" = Ok date →
  numeric_in amount = Some a → date_in date = Some d →
  ∃ w', App.investments req w = (Ok (Redirect "investments"), w') ∧
    store w'
    = with_investments
        (investments (store w) ++
         [Investment.Row (sequences w investments_id_seq) user_id name a type d])
        (store w) ∧
    conns w' = conns w ∧
    flashes w' = flashes w ++ [("Investment added successfully!", "success")].
Proof.
  intros Hs Hm Hf Haction Hname Hamount Htype Hdate Hnum Hd.
  assert (Hstmt : insert_investment user_id name amount type date
                    (sequences w investments_id_seq) (current_date w) (store w)
                  = Ok (with_investments
                          (investments (store w) ++
                           [Investment.Row (sequences w investments_id_seq) user_id
                              name a type d]) (store w))).
  { unfold insert_investment, and_then, param. by rewrite Hnum, Hd. }
  eexists. split.
  - unfold App.investments. rewrite (run_login_required _ _ _ Hs).
    do 3 run_step. rewrite Hm. cbv zeta. rewrite Haction.
    rewrite decide_True by done.
    run_block. repeat run_step. reflexivity.
  - world_simpl. split; [done|]. split; [conns_restored|done].
Qed.

Lemma investments_delete_run `{Runtime} (req : request) (w : world)
    (user_id : Z) :
  session w = Some user_id → method req = POST → faults w = None →
  (get (form req) "action" = Some "delete" →
   ∀ text i, get (form req) "investment_id" = Some text → int4_in text = Some i →
     ∃ w', App.investments req w = (Ok (Redirect "investments"), w') ∧
       store w'
       = with_investments
           (filter (λ r, ¬ (Investment.id r = i ∧ Investment.user_id r = user_id))
              (investments (store w))) (store w) ∧
       conns w' = conns w ∧
       flashes w' = flashes w ++ [("Investment deleted.", "info")]) ∧
  (get (form req) "action" = Some "delete" →
   get (form req) "investment_id" = None →
   ∃ w', App.investments req w = (Ok (Redirect "investments"), w') ∧
     store w' = store w ∧ conns w' = conns w ∧
     flashes w' = flashes w ++ [("Investment deleted.", "info")]) ∧
  (get (form req) "action" ≠ Some "add" →
   get (form req) "action" ≠ Some "delete" →
   ∃ w', App.investments req w = (Ok (Redirect "investments"), w') ∧
     store w' = store w ∧ conns w' = conns w ∧ flashes w' = flashes w).
Proof.
  intros Hs Hm Hf. split; [|split].
  - intros Haction text i Hid Hint.
    assert (Hstmt : delete_investment (get (form req) "investment_id") user_id
                      (current_date w) (store w)
                    = Ok (with_investments
                            (filter (λ r, ¬ (Investment.id r = i ∧
                                             Investment.user_id r = user_id))
                               (investments (store w))) (store w))).
    { unfold delete_investment, delete_by_id, and_then, param.
      by rewrite Hid, Hint. }
    eexists. split.
    + unfold App.investments. rewrite (run_login_required _ _ _ Hs).
      do 3 run_step. rewrite Hm. cbv zeta. rewrite Haction.
      rewrite decide_False, decide_True by done.
      run_block. repeat run_step. reflexivity.
    + world_simpl. split; [done|]. split; [conns_restored|done].
  - intros Haction Hid.
    assert (Hstmt : delete_investment (get (form req) "investment_id") user_id
                      (current_date w) (store w) = Ok (store w)).
    { unfold delete_investment, delete_by_id, and_then. rewrite Hid.
      by destruct (store w). }
    eexists. split.
    + unfold App.investments. rewrite (run_login_required _ _ _ Hs).
      do 3 run_step. rewrite Hm. cbv zeta. rewrite Haction.
      rewrite decide_False, decide_True by done.
      run_block. repeat run_step. reflexivity.
    + world_simpl. split; [done|]. split; [conns_restored|done].
  - intros Hadd Hdelete.
    eexists. split.
    + unfold App.investments. rewrite (run_login_required _ _ _ Hs).
      do 3 run_step. rewrite Hm. cbv zeta.
      rewrite !decide_False by done.
      repeat run_step. reflexivity.
    + world_simpl. split; [done|]. split; [conns_restored|done].
Qed.

(** Posting to [investments].  With the action [add], one row is appended
    to [investments], owned by the signed-in user, with the next id of the
    sequence.  With the action [delete], the rows that have the submitted id
    and belong to the signed-in user are removed; without an id nothing is
    removed, and a deletion is reported all the same.  With any other action
    (or none) nothing is stored and nothing is flashed. *)
Theorem investments_post `{Runtime} (req : request) (w : world) (user_id : Z) :
  session w = Some user_id → method req = POST → faults w = None →
  (∀ name amount type date a d,
     get (form req) "action" = Some "add" →
     getitem (form req) "investment_name" = Ok name →
     getitem (form req) "amount_invested" = Ok amount →
     getitem (form req) "investment_type" = Ok type →
     getitem (form req) "investment_date" = Ok date →
     numeric_in amount = Some a → date_in date = Some d →
     ∃ w', App.investments req w = (Ok (Redirect "investments"), w') ∧
       store w'
       = with_investments
           (investments (store w) ++
            [Investment.Row (sequences w investments_id_seq) user_id name a
               type d]) (store w) ∧
       conns w' = conns w ∧
       flashes w' = flashes w ++ [("Investment added successfully!", "success")]) ∧
  (get (form req) "action" = Some "delete" →
   ∀ text i, get (form req) "investment_id" = Some text → int4_in text = Some i →
     ∃ w', App.investments req w = (Ok (Redirect "investments"), w') ∧
       store w'
       = with_investments
           (filter (λ r, ¬ (Investment.id r = i ∧ Investment.user_id r = user_id))
              (investments (store w))) (store w) ∧
       conns w' = conns w ∧
       flashes w' = flashes w ++ [("Investment deleted.", "info")]) ∧
  (get (form req) "action" = Some "delete" →
   get (form req) "investment_id" = None →
   ∃ w', App.investments req w = (Ok (Redirect "investments"), w') ∧
     store w' = store w ∧ conns w' = conns w ∧
     flashes w' = flashes w ++ [("Investment deleted.", "info")]) ∧
  (get (form req) "action" ≠ Some "add" →
   get (form req) "action" ≠ Some "delete" →
   ∃ w', App.investments req w = (Ok (Redirect "investments"), w') ∧
     store w' = store w ∧ conns w' = conns w ∧ flashes w' = flashes w).
Proof.
  intros Hs Hm Hf. split.
  - intros name amount type date a d. by apply investments_add_run.
  - by apply investments_delete_run.
Qed.

(** Ann adds an investment. *)
Lemma investments_post_ann :
  ∃ w', @App.investments reference_runtime (post_request investment_form)
          (signed_in food_database 2024 3 10)
        = (Ok (Redirect "investments"), w') ∧
    investments (store w')
    = [Investment.Row 1 1 "Fund" (dec 300 1) "etf" 19792].
Proof.
  destruct (proj1 (@investments_post reference_runtime
              (post_request investment_form)
              (signed_in food_database 2024 3 10) 1 eq_refl eq_refl eq_refl)
              "Fund" "300" "etf" "19792" (dec 300 1) 19792
              eq_refl eq_refl eq_refl eq_refl eq_refl eq_refl eq_refl)
    as (w' & Hrun & Hst & _).
  exists w'. split; [exact Hrun|]. rewrite Hst. reflexivity.
Defined.

Lemma assetdebt_add_run `{Runtime} (req : request) (w : world)
    (user_id : Z) (name value : string) (a : decimal) :
  session w = Some user_id → method req = POST → faults w = None →
  default "add" (get (form req) "action") = "add" →
  numeric_in value = Some a →
  (get (form req) "form_type" = Some "asset" →
   getitem (form req) "asset_name" = Ok name →
   getitem (form req) "value" = Ok value →
   ∃ w', App.assetdebt req w = (Ok (Redirect "assetdebt"), w') ∧
     store w'
     = with_assets
         (assets (store w) ++
          [Asset.Row (sequences w assets_id_seq) user_id name a]) (store w) ∧
     conns w' = conns w ∧
     flashes w' = flashes w ++ [("Asset added!", "success")]) ∧
  (get (form req) "form_type" = Some "liability" →
   getitem (form req) "liability_name" = Ok name →
   getitem (form req) "amount_owed" = Ok value →
   ∃ w', App.assetdebt req w = (Ok (Redirect "assetdebt"), w') ∧
     store w'
     = with_liabilities
         (liabilities (store w) ++
          [Liability.Row (sequences w liabilities_id_seq) user_id name a])
         (store w) ∧
     conns w' = conns w ∧
     flashes w' = flashes w ++ [("Liability added!", "success")]).
Proof.
  intros Hs Hm Hf Haction Hnum. split.
  - intros Htype Hname Hvalue.
    assert (Hstmt : insert_asset user_id name value (sequences w assets_id_seq)
                      (current_date w) (store w)
                    = Ok (with_assets
                            (assets (store w) ++
                             [Asset.Row (sequences w assets_id_seq) user_id name a])
                            (store w))).
    { unfold insert_asset, and_then, param. by rewrite Hnum. }
    eexists. split.
    + unfold App.assetdebt. rewrite (run_login_required _ _ _ Hs).
      run_step. run_with ltac:(by apply get_user_data_run).
      do 2 run_step. rewrite Hm. cbv zeta. rewrite Haction. simpl String.eqb.
      cbv iota. rewrite Htype, decide_True by done.
      run_block. repeat run_step. reflexivity.
    + world_simpl. split; [done|]. split; [conns_restored|done].
  - intros Htype Hname Hvalue.
    assert (Hstmt : insert_liability user_id name value
                      (sequences w liabilities_id_seq) (current_date w) (store w)
                    = Ok (with_liabilities
                            (liabilities (store w) ++
                             [Liability.Row (sequences w liabilities_id_seq)
                                user_id name a]) (store w))).
    { unfold insert_liability, and_then, param. by rewrite Hnum. }
    eexists. split.
    + unfold App.assetdebt. rewrite (run_login_required _ _ _ Hs).
      run_step. run_with ltac:(by apply get_user_data_run).
      do 2 run_step. rewrite Hm. cbv zeta. rewrite Haction. simpl String.eqb.
      cbv iota. rewrite Htype, decide_False, decide_True by done.
      run_block. repeat run_step. reflexivity.
    + world_simpl. split; [done|]. split; [conns_restored|done].
Qed.

Lemma assetdebt_delete_run `{Runtime} (req : request) (w : world)
    (user_id : Z) :
  session w = Some user_id → method req = POST → faults w = None →
  (get (form req) "action" = Some "delete" →
   get (form req) "form_type" = Some "asset" →
   ∀ text i, get (form req) "item_id" = Some text → int4_in text = Some i →
     ∃ w', App.assetdebt req w = (Ok (Redirect "assetdebt"), w') ∧
       store w'
       = with_assets
           (filter (λ r, ¬ (Asset.id r = i ∧ Asset.user_id r = user_id))
              (assets (store w))) (store w) ∧
       conns w' = conns w ∧
       flashes w' = flashes w ++ [("Asset deleted.", "info")]) ∧
  (get (form req) "action" = Some "delete" →
   get (form req) "form_type" = Some "liability" →
   ∀ text i, get (form req) "item_id" = Some text → int4_in text = Some i →
     ∃ w', App.assetdebt req w = (Ok (Redirect "assetdebt"), w') ∧
       store w'
       = with_liabilities
           (filter (λ r, ¬ (Liability.id r = i ∧ Liability.user_id r = user_id))
              (liabilities (store w))) (store w) ∧
       conns w' = conns w ∧
       flashes w' = flashes w ++ [("Liability deleted.", "info")]) ∧
  (get (form req) "form_type" ≠ Some "asset" →
   get (form req) "form_type" ≠ Some "liability" →
   ∃ w', App.assetdebt req w = (Ok (Redirect "assetdebt"), w') ∧
     store w' = store w ∧ conns w' = conns w ∧ flashes w' = flashes w).
Proof.
  intros Hs Hm Hf. split; [|split].
  - intros Haction Htype text i Hid Hint.
    assert (Hstmt : delete_asset (get (form req) "item_id") user_id
                      (current_date w) (store w)
                    = Ok (with_assets
                            (filter (λ r, ¬ (Asset.id r = i ∧
                                             Asset.user_id r = user_id))
                               (assets (store w))) (store w))).
    { unfold delete_asset, delete_by_id, and_then, param. by rewrite Hid, Hint. }
    eexists. split.
    + unfold App.assetdebt. rewrite (run_login_required _ _ _ Hs).
      run_step. run_with ltac:(by apply get_user_data_run).
      do 2 run_step. rewrite Hm. cbv zeta. rewrite Haction. simpl String.eqb.
      cbv iota. rewrite Htype, decide_True by done.
      run_block. repeat run_step. reflexivity.
    + world_simpl. split; [done|]. split; [conns_restored|done].
  - intros Haction Htype text i Hid Hint.
    assert (Hstmt : delete_liability (get (form req) "item_id") user_id
                      (current_date w) (store w)
                    = Ok (with_liabilities
                            (filter (λ r, ¬ (Liability.id r = i ∧
                                             Liability.user_id r = user_id))
                               (liabilities (store w))) (store w))).
    { unfold delete_liability, delete_by_id, and_then, param.
      by rewrite Hid, Hint. }
    eexists. split.
    + unfold App.assetdebt. rewrite (run_login_required _ _ _ Hs).
      run_step. run_with ltac:(by apply get_user_data_run).
      do 2 run_step. rewrite Hm. cbv zeta. rewrite Haction. simpl String.eqb.
      cbv iota. rewrite Htype, decide_False, decide_True by done.
      run_block. repeat run_step. reflexivity.
    + world_simpl. split; [done|]. split; [conns_restored|done].
  - intros Hasset Hliability.
    eexists. split.
    + unfold App.assetdebt. rewrite (run_login_required _ _ _ Hs).
      run_step. run_with ltac:(by apply get_user_data_run).
      do 2 run_step. rewrite Hm. cbv zeta.
      rewrite !(decide_False (P := get (form req) "form_type" = Some "asset"))
        by done.
      rewrite !(decide_False (P := get (form req) "form_type" = Some "liability"))
        by done.
      destruct (String.eqb _ "add"); [|destruct (String.eqb _ "delete")];
        repeat run_step; reflexivity.
    + world_simpl. split; [done|]. split; [conns_restored|done].
Qed.

(** Posting to [assetdebt].  With the action [add], or with no action at
    all, an asset or a liability (by the form type) is appended to its
    table, owned by the signed-in user, with the next id of its sequence.
    With the action [delete], the rows of the table named by the form type
    that have the submitted id and belong to the signed-in user are
    removed.  With a form type that is neither [asset] nor [liability]
    nothing is stored, whatever the action. *)
Theorem assetdebt_post `{Runtime} (req : request) (w : world) (user_id : Z) :
  session w = Some user_id → method req = POST → faults w = None →
  (∀ name value a,
     default "add" (get (form req) "action") = "add" →
     numeric_in value = Some a →
     (get (form req) "form_type" = Some "asset" →
      getitem (form req) "asset_name" = Ok name →
      getitem (form req) "value" = Ok value →
      ∃ w', App.assetdebt req w = (Ok (Redirect "assetdebt"), w') ∧
        store w'
        = with_assets
            (assets (store w) ++
             [Asset.Row (sequences w assets_id_seq) user_id name a]) (store w) ∧
        conns w' = conns w ∧
        flashes w' = flashes w ++ [("Asset added!", "success")]) ∧
     (get (form req) "form_type" = Some "liability" →
      getitem (form req) "liability_name" = Ok name →
      getitem (form req) "amount_owed" = Ok value →
      ∃ w', App.assetdebt req w = (Ok (Redirect "assetdebt"), w') ∧
        store w'
        = with_liabilities
            (liabilities (store w) ++
             [Liability.Row (sequences w liabilities_id_seq) user_id name a])
            (store w) ∧
        conns w' = conns w ∧
        flashes w' = flashes w ++ [("Liability added!", "success")])) ∧
  (get (form req) "action" = Some "delete" →
   get (form req) "form_type" = Some "asset" →
   ∀ text i, get (form req) "item_id" = Some text → int4_in text = Some i →
     ∃ w', App.assetdebt req w = (Ok (Redirect "assetdebt"), w') ∧
       store w'
       = with_assets
           (filter (λ r, ¬ (Asset.id r = i ∧ Asset.user_id r = user_id))
              (assets (store w))) (store w) ∧
       conns w' = conns w ∧
       flashes w' = flashes w ++ [("Asset deleted.", "info")]) ∧
  (get (form req) "action" = Some "delete" →
   get (form req) "form_type" = Some "liability" →
   ∀ text i, get (form req) "item_id" = Some text → int4_in text = Some i →
     ∃ w', App.assetdebt req w = (Ok (Redirect "assetdebt"), w') ∧
       store w'
       = with_liabilities
           (filter (λ r, ¬ (Liability.id r = i ∧ Liability.user_id r = user_id))
              (liabilities (store w))) (store w) ∧
       conns w' = conns w ∧
       flashes w' = flashes w ++ [("Liability deleted.", "info")]) ∧
  (get (form req) "form_type" ≠ Some "asset" →
   get (form req) "form_type" ≠ Some "liability" →
   ∃ w', App.assetdebt req w = (Ok (Redirect "assetdebt"), w') ∧
     store w' = store w ∧ conns w' = conns w ∧ flashes w' = flashes w).
Proof.
  intros Hs Hm Hf. split.
  - intros name value a. by apply assetdebt_add_run.
  - by apply assetdebt_delete_run.
Qed.

(** Ann posts an asset without naming an action. *)
Lemma assetdebt_post_ann :
  ∃ w', @App.assetdebt reference_runtime
          (post_request [("form_type", "asset"); ("asset_name", "Flat");
                         ("value", "90000")])
          (signed_in food_database 2024 3 10)
        = (Ok (Redirect "assetdebt"), w') ∧
    assets (store w') = [Asset.Row 1 1 "Flat" (dec 90000 1)].
Proof.
  destruct (proj1 (proj1 (@assetdebt_post reference_runtime
              (post_request [("form_type", "asset"); ("asset_name", "Flat");
                             ("value", "90000")])
              (signed_in food_database 2024 3 10) 1 eq_refl eq_refl eq_refl)
              "Flat" "90000" (dec 90000 1) eq_refl eq_refl)
              eq_refl eq_refl eq_refl)
    as (w' & Hrun & Hst & _).
  exists w'. split; [exact Hrun|]. rewrite Hst. reflexivity.
Defined.

(** ** The listing pages *)

Lemma newest_first_trans : Transitive newest_first.
Proof. intros x y z. unfold newest_first. lia. Qed.

Lemma newest_first_total : Total newest_first.
Proof. intros x y. unfold newest_first. lia. Qed.

Lemma flip_Qcle_trans : Transitive (flip Qcle).
Proof. intros x y z Hxy Hyz. unfold flip in *. by apply (Qcle_trans z y x). Qed.

Lemma flip_Qcle_total : Total (flip Qcle).
Proof.
  intros x y. unfold flip. destruct (Qclt_le_dec x y) as [Hlt|Hle]; [|by left].
  right. by apply Qclt_le_weak.
Qed.

Lemma flip_Zle_trans : Transitive (flip Z.le).
Proof. intros x y z. unfold flip. lia. Qed.

Lemma flip_Zle_total : Total (flip Z.le).
Proof. intros x y. unfold flip. lia. Qed.

Lemma Zle_total : Total Z.le.
Proof. intros x y. lia. Qed.

(** The expenses page lists the expenses of the signed-in user, each row
    once: by amount, highest first, when the query string says
    [sort=amount_high_low]; newest first (by date, then by id) for any other
    value of [sort] or none.  The page is a pure read: the world afterwards
    is the world before. *)
Theorem expenses_list_sorted `{Runtime} (req : request) (w : world) (user_id : Z) :
  session w = Some user_id → faults w = None →
  ∃ rows,
    App.expenses_list req w
    = (Ok (Rendered "expense2.html"
             (ExpensesContext rows (user_data_of user_id (store w)))
             (current_user_of w)), w) ∧
    rows ≡ₚ filter (λ e, Expense.user_id e = user_id) (expenses (store w)) ∧
    (get (args req) "sort" = Some "amount_high_low" →
     StronglySorted (λ e1 e2, (Expense.amount e2 ≤ Expense.amount e1)%Qc) rows) ∧
    (get (args req) "sort" ≠ Some "amount_high_low" →
     StronglySorted newest_first rows).
Proof.
  intros Hs Hf.
  exists (if String.eqb (default "newest" (get (args req) "sort"))
               "amount_high_low"
          then select_expenses_by_amount user_id (store w)
          else select_expenses_newest user_id (store w)).
  split; [|split; [|split]].
  - unfold App.expenses_list. rewrite (run_login_required _ _ _ Hs).
    run_step. run_with ltac:(by apply get_user_data_run).
    do 5 run_step. world_simpl.
    rewrite with_conns_twice, conns_closed, with_conns_same.
    rewrite render_template_run by done. by destruct (String.eqb _ _).
  - destruct (String.eqb _ _); apply order_by_Permutation.
  - intros ->. simpl.
    apply (@StronglySorted_order_by _ _ Expense.amount (flip Qcle) _
             flip_Qcle_trans flip_Qcle_total).
  - intros Hsort.
    destruct (String.eqb _ _) eqn:Heq.
    + apply String.eqb_eq in Heq. destruct (get (args req) "sort"); simpl in *;
        congruence.
    + apply (@StronglySorted_order_by _ _ id newest_first _
               newest_first_trans newest_first_total).
Qed.

(** Ann looks at her expenses, newest first. *)
Lemma expenses_list_sorted_ann :
  ∃ rows,
    @App.expenses_list reference_runtime get_request
      (signed_in food_database 2024 3 10)
    = (Ok (Rendered "expense2.html"
             (ExpensesContext rows (Some (UserData ann "$")))
             (Some (UserData ann "$"))),
       signed_in food_database 2024 3 10) ∧
    StronglySorted newest_first rows.
Proof.
  destruct (@expenses_list_sorted reference_runtime get_request
              (signed_in food_database 2024 3 10) 1 eq_refl eq_refl)
    as (rows & Hrun & _ & _ & Hsorted).
  exists rows. split; [exact Hrun|]. by apply Hsorted.
Defined.





(** ** The chat endpoint *)

(** The chat endpoint never touches the world.  Without a configured model
    it answers 500 before it looks at the request.  With one, and a JSON
    object as body: a missing or empty message is answered 400; otherwise
    the model is asked once, with the message quoted in the prompt, and its
    text is answered 200, its failure 500 with the text of the error. *)
Lemma chat_api_answers `{Runtime} (req : request) (w : world) (user_id : Z) :
  session w = Some user_id →
  (generate_content = None →
   App.chat_api req w
   = (Ok (Jsonify (ErrorJson "Chatbot is not configured.") 500), w)) ∧
  (∀ model data, generate_content = Some model → json req = Some data →
     (get data "message" = None ∨ get data "message" = Some "" →
      App.chat_api req w
      = (Ok (Jsonify (ErrorJson "No message provided.") 400), w)) ∧
     (∀ user_message, get data "message" = Some user_message →
        user_message ≠ "" →
        App.chat_api req w
        = (Ok match model (chat_prompt user_message) with
              | inl text => Jsonify (ReplyJson text) 200
              | inr error => Jsonify (ErrorJson error) 500
              end, w))).
Proof.
  intros Hs. unfold App.chat_api. rewrite (run_login_required _ _ _ Hs).
  split.
  - by intros ->.
  - intros model data -> ->. split.
    + by intros [->| ->].
    + intros user_message -> Hne. unfold truthy.
      rewrite (proj2 (String.eqb_neq user_message "") Hne). simpl.
      unfold chat_prompt. by destruct (model _).
Qed.

(** ** The dashboard's alerts and recent activity *)

Lemma elem_of_filter_key {B} (rows : list (string * B)) (c : string) (v : B) :
  (c, v) ∈ rows ↔ (c, v) ∈ filter (λ row : string * B, row.1 = c) rows.
Proof. rewrite list_elem_of_filter. simpl. tauto. Qed.


(** The recent activity of the dashboard is the head of the signed-in
    user's expenses taken newest first (by date, then by id): five rows, or
    all of them when there are fewer; what is left out is not newer than
    what is shown. *)
Theorem dashboard_recent_expenses `{Runtime} (user_id : Z) (today : date)
    (db : database) :
  ∃ ctx rest, dashboard_figures user_id today db = Ok ctx ∧
    Dashboard.ctx_recent_expenses_list ctx ++ rest
    ≡ₚ filter (λ e, Expense.user_id e = user_id) (expenses db) ∧
    StronglySorted newest_first (Dashboard.ctx_recent_expenses_list ctx ++ rest) ∧
    (length (Dashboard.ctx_recent_expenses_list ctx) = 5%nat ∨ rest = []).
Proof.
  destruct (dashboard_figures_returns user_id today db) as [ctx Hctx].
  exists ctx, (drop 5 (select_expenses_newest user_id db)).
  split; [done|].
  assert (Hlist : Dashboard.ctx_recent_expenses_list ctx
                  = take 5 (select_expenses_newest user_id db)).
  { unfold dashboard_figures in Hctx. cbv zeta in Hctx.
    destruct (Dashboard.budget_used_percent _ _); [|done].
    by injection Hctx as <-. }
  rewrite Hlist, take_drop. split; [apply order_by_Permutation|]. split.
  - apply (@StronglySorted_order_by _ _ id newest_first _
             newest_first_trans newest_first_total).
  - rewrite length_take.
    destruct (decide (5 ≤ length (select_expenses_newest user_id db))%nat).
    + left. lia.
    + right. apply drop_ge. lia.
Qed.

(** ** The schema update of [init_db.py] *)

Lemma add_column_if_missing_spec (t c : string) (cat : Schema.catalog)
    (tbl : Schema.table) :
  cat !! t = Some tbl →
  ∃ tbl', Schema.add_column_if_missing t c cat = Schema.Done (<[t := tbl']> cat) ∧
    Schema.unique tbl' = Schema.unique tbl ∧
    c ∈ Schema.columns tbl' ∧
    (Schema.columns tbl' = Schema.columns tbl ∨
     ((c ∉ Schema.columns tbl) ∧
      Schema.columns tbl' = Schema.columns tbl ++ [c])).
Proof.
  intros Ht. unfold Schema.add_column_if_missing, Schema.has_column. rewrite Ht.
  case_bool_decide as Hc.
  - exists tbl. rewrite (insert_id cat t tbl Ht). eauto.
  - eexists. split; [done|]. simpl. split; [done|].
    split; [|by right]. apply elem_of_app. right. apply list_elem_of_here.
Qed.

Lemma create_table_if_not_exists_spec (name : string) (cols : list string)
    (cat : Schema.catalog) (users : Schema.table) :
  cat !! "users" = Some users → "id" ∈ Schema.unique users →
  Schema.create_table_if_not_exists name cols cat
  = Schema.Done (match cat !! name with
                 | Some _ => cat
                 | None => <[name := Schema.Table cols ["id"]]> cat
                 end).
Proof.
  intros Hu Hid. unfold Schema.create_table_if_not_exists, Schema.check_reference.
  destruct (cat !! name); [done|].
  rewrite Hu. by rewrite bool_decide_eq_true_2.
Qed.

(** The schema update, on a catalog whose table [users] has a unique [id]:
    it succeeds; afterwards [users] has the column [profile_picture_url] and
    the three tables exist; every table that existed is still there with
    the columns and constraints it had, [users] with at most the one column
    more, a table of one of the three names as it was, whatever its columns;
    and running the update again changes nothing. *)
Theorem update_database_schema_keeps_tables (cat : Schema.catalog)
    (users : Schema.table) :
  cat !! "users" = Some users → "id" ∈ Schema.unique users →
  ∃ cat' users',
    Schema.update_database_schema cat = Schema.Done cat' ∧
    cat' !! "users" = Some users' ∧
    "profile_picture_url" ∈ Schema.columns users' ∧
    Schema.unique users' = Schema.unique users ∧
    (Schema.columns users' = Schema.columns users ∨
     Schema.columns users'
     = Schema.columns users ++ ["profile_picture_url"]) ∧
    is_Some (cat' !! "financial_goals") ∧
    is_Some (cat' !! "wishlist_items") ∧
    is_Some (cat' !! "recurring_transactions") ∧
    (∀ name tbl, name ≠ "users" → cat !! name = Some tbl →
                 cat' !! name = Some tbl) ∧
    (∀ name, is_Some (cat' !! name) →
       is_Some (cat !! name) ∨
       name ∈ ["financial_goals"; "wishlist_items"; "recurring_transactions"]) ∧
    Schema.update_database_schema cat' = Schema.Done cat'.
Proof.
  intros Hu Hid.
  destruct (add_column_if_missing_spec "users" "profile_picture_url" cat users Hu)
    as (users' & Hstep1 & Huniq & Hcol & Hcols).
  set (cat1 := <["users" := users']> cat).
  assert (Hu1 : cat1 !! "users" = Some users') by apply lookup_insert_eq.
  assert (Hid1 : "id" ∈ Schema.unique users') by by rewrite Huniq.
  set (cat2 := match cat1 !! "financial_goals" with
               | Some _ => cat1
               | None => <["financial_goals" :=
                            Schema.Table Schema.financial_goals_columns ["id"]]> cat1
               end).
  assert (Hu2 : cat2 !! "users" = Some users').
  { unfold cat2. destruct (cat1 !! "financial_goals"); [done|].
    by rewrite lookup_insert_ne. }
  set (cat3 := match cat2 !! "wishlist_items" with
               | Some _ => cat2
               | None => <["wishlist_items" :=
                            Schema.Table Schema.wishlist_items_columns ["id"]]> cat2
               end).
  assert (Hu3 : cat3 !! "users" = Some users').
  { unfold cat3. destruct (cat2 !! "wishlist_items"); [done|].
    by rewrite lookup_insert_ne. }
  set (cat4 := match cat3 !! "recurring_transactions" with
               | Some _ => cat3
               | None => <["recurring_transactions" :=
                            Schema.Table Schema.recurring_transactions_columns
                              ["id"]]> cat3
               end).
  assert (Hu4 : cat4 !! "users" = Some users').
  { unfold cat4. destruct (cat3 !! "recurring_transactions"); [done|].
    by rewrite lookup_insert_ne. }
  assert (Hrun : Schema.update_database_schema cat = Schema.Done cat4).
  { unfold Schema.update_database_schema. rewrite Hstep1. simpl. fold cat1.
    rewrite (create_table_if_not_exists_spec _ _ cat1 users' Hu1 Hid1). simpl.
    fold cat2.
    rewrite (create_table_if_not_exists_spec _ _ cat2 users' Hu2 Hid1). simpl.
    fold cat3.
    by rewrite (create_table_if_not_exists_spec _ _ cat3 users' Hu3 Hid1). }
  assert (Hfg2 : is_Some (cat2 !! "financial_goals")).
  { unfold cat2. destruct (cat1 !! "financial_goals") eqn:Hfg; [by rewrite Hfg|].
    by rewrite lookup_insert_eq. }
  assert (Hfg3 : is_Some (cat3 !! "financial_goals")).
  { unfold cat3. destruct (cat2 !! "wishlist_items"); [done|].
    by rewrite lookup_insert_ne. }
  assert (Hfg4 : is_Some (cat4 !! "financial_goals")).
  { unfold cat4. destruct (cat3 !! "recurring_transactions"); [done|].
    by rewrite lookup_insert_ne. }
  assert (Hwl3 : is_Some (cat3 !! "wishlist_items")).
  { unfold cat3. destruct (cat2 !! "wishlist_items") eqn:Hwl; [by rewrite Hwl|].
    by rewrite lookup_insert_eq. }
  assert (Hwl4 : is_Some (cat4 !! "wishlist_items")).
  { unfold cat4. destruct (cat3 !! "recurring_transactions"); [done|].
    by rewrite lookup_insert_ne. }
  assert (Hrt4 : is_Some (cat4 !! "recurring_transactions")).
  { unfold cat4.
    destruct (cat3 !! "recurring_transactions") eqn:Hrt; [by rewrite Hrt|].
    by rewrite lookup_insert_eq. }
  exists cat4, users'.
  split; [done|]. split; [done|]. split; [done|]. split; [done|].
  split; [tauto|]. split; [done|]. split; [done|]. split; [done|].
  split; [|split].
  - intros name tbl Hname Hlook.
    assert (K1 : cat1 !! name = Some tbl)
      by (unfold cat1; by rewrite lookup_insert_ne).
    assert (K2 : cat2 !! name = Some tbl).
    { unfold cat2. destruct (cat1 !! "financial_goals") eqn:Hfg; [done|].
      rewrite lookup_insert_ne; [done|]. intros <-. congruence. }
    assert (K3 : cat3 !! name = Some tbl).
    { unfold cat3. destruct (cat2 !! "wishlist_items") eqn:Hwl; [done|].
      rewrite lookup_insert_ne; [done|]. intros <-. congruence. }
    unfold cat4. destruct (cat3 !! "recurring_transactions") eqn:Hrt; [done|].
    rewrite lookup_insert_ne; [done|]. intros <-. congruence.
  - intros name Hname.
    destruct (decide (name ∈ ["financial_goals"; "wishlist_items";
                              "recurring_transactions"])) as [|Hnot]; [by right|].
    left. rewrite !not_elem_of_cons in Hnot. destruct Hnot as (? & ? & ? & _).
    assert (K3 : is_Some (cat3 !! name)).
    { revert Hname. unfold cat4. destruct (cat3 !! "recurring_transactions");
        [done|]. by rewrite lookup_insert_ne. }
    assert (K2 : is_Some (cat2 !! name)).
    { revert K3. unfold cat3. destruct (cat2 !! "wishlist_items"); [done|].
      by rewrite lookup_insert_ne. }
    assert (K1 : is_Some (cat1 !! name)).
    { revert K2. unfold cat2. destruct (cat1 !! "financial_goals"); [done|].
      by rewrite lookup_insert_ne. }
    revert K1. unfold cat1. destruct (decide (name = "users")) as [->|].
    + by rewrite Hu.
    + by rewrite lookup_insert_ne.
  - unfold Schema.update_database_schema, Schema.add_column_if_missing,
      Schema.has_column. rewrite Hu4, bool_decide_eq_true_2 by done. simpl.
    rewrite (create_table_if_not_exists_spec _ _ cat4 users' Hu4 Hid1).
    destruct Hfg4 as [? ->]. simpl.
    rewrite (create_table_if_not_exists_spec _ _ cat4 users' Hu4 Hid1).
    destruct Hwl4 as [? ->]. simpl.
    rewrite (create_table_if_not_exists_spec _ _ cat4 users' Hu4 Hid1).
    by destruct Hrt4 as [? ->].
Qed.

(** On the first catalog the update adds the column and the three tables. *)
Lemma update_database_schema_keeps_tables_first :
  ∃ cat' users',
    Schema.update_database_schema Schema.first_catalog = Schema.Done cat' ∧
    cat' !! "users" = Some users' ∧
    "profile_picture_url" ∈ Schema.columns users' ∧
    Schema.update_database_schema cat' = Schema.Done cat'.
Proof.
  destruct (update_database_schema_keeps_tables Schema.first_catalog
              (Schema.Table ["id"; "full_name"; "email"; "password_hash"] ["id"]))
    as (cat' & users' & Hrun & Hu & Hcol & _ & _ & _ & _ & _ & _ & _ & Hagain).
  - reflexivity.
  - apply list_elem_of_here.
  - exists cat', users'. done.
Defined.

(** Without a table [users] the update fails at its first statement. *)
Lemma update_database_schema_needs_users (cat : Schema.catalog) :
  cat !! "users" = None →
  Schema.update_database_schema cat = Schema.Failed (Schema.UndefinedTable "users").
Proof.
  intros Hu. unfold Schema.update_database_schema, Schema.add_column_if_missing,
    Schema.has_column. by rewrite Hu.
Qed.
